(** * Moderation reports of the trees-backend service

    A shallow embedding of the report-submission and moderation routes
    (the content-report router, the universal report router, the admin
    router and its predecessor) and of the ContentReport schema, followed
    by the properties of the report lifecycle that hold of them.

    Conventions of the embedding:
    - a request body is a record of optional fields; a field that is
      absent is [None], a string field is [Some s];
    - a collection is the list of its documents, oldest first; [findOne]
      and [findById] return the first match;
    - a text is held as its UTF-8 bytes; its characters, its length in
      UTF-16 code units and the class [\s] are computed from them;
    - an identifier stored in a document is an ObjectId, held as the
      hexadecimal string it prints; an identifier of the request body or
      path is any string, which mongoose casts where it queries by it;
      [req.user.id] is the ObjectId of the authenticated user;
    - a JSON number is held as an integer;
    - a handler is a function from the database and the request to the
      response and the database after it; an exception caught by the
      handler's [catch] is the 500 response it sends. *)

From Stdlib Require Import String Ascii List Bool Arith ZArith Lia.
Import ListNotations.
Open Scope string_scope.

(** ** JavaScript strings *)

Module Js.

(** Truthiness of an optional string: [undefined] and [''] are falsy. *)
Definition truthy (v : option string) : bool :=
  match v with
  | Some s => negb (String.eqb s "")
  | None => false
  end.

(** [a || b] on strings. *)
Definition or_else (v : option string) (d : string) : string :=
  match v with
  | Some s => if String.eqb s "" then d else s
  | None => d
  end.

(** A text is held as the bytes of its UTF-8 encoding. A byte [10xxxxxx]
    continues the character begun before it. *)
Definition isContinuation (c : ascii) : bool :=
  let n := nat_of_ascii c in (Nat.leb 128 n) && (Nat.leb n 191).

Definition continues (ch : string) : bool :=
  match ch with
  | String c _ => isContinuation c
  | EmptyString => false
  end.

(** The characters (code points) of a text, each as its own bytes. *)
Fixpoint chars (s : string) : list string :=
  match s with
  | EmptyString => []
  | String c r =>
      match chars r with
      | ch :: rest =>
          if continues ch then String c ch :: rest
          else String c EmptyString :: ch :: rest
      | [] => [String c EmptyString]
      end
  end.

Definition join (l : list string) : string := fold_right append EmptyString l.

(** The number of characters of a text. *)
Definition codePoints (s : string) : nat := List.length (chars s).

(** A character outside the Basic Multilingual Plane (four bytes) is a
    surrogate pair: two code units. *)
Definition units (ch : string) : nat :=
  match ch with
  | String c _ => if Nat.leb 240 (nat_of_ascii c) then 2 else 1
  | EmptyString => 0
  end.

(** [s.length]: the number of UTF-16 code units. *)
Definition length (s : string) : nat := list_sum (map units (chars s)).

Definition bytes (l : list nat) : string :=
  fold_right (fun n s => String (ascii_of_nat n) s) EmptyString l.

(** The characters of the class [\s]: TAB, LF, VT, FF, CR, SP, U+00A0,
    U+1680, U+2000 to U+200A, U+2028, U+2029, U+202F, U+205F, U+3000 and
    U+FEFF. *)
Definition whiteSpace : list string :=
  map bytes
    [[9]; [10]; [11]; [12]; [13]; [32];
     [194; 160];
     [225; 154; 128];
     [226; 128; 128]; [226; 128; 129]; [226; 128; 130]; [226; 128; 131];
     [226; 128; 132]; [226; 128; 133]; [226; 128; 134]; [226; 128; 135];
     [226; 128; 136]; [226; 128; 137]; [226; 128; 138];
     [226; 128; 168]; [226; 128; 169];
     [226; 128; 175];
     [226; 129; 159];
     [227; 128; 128];
     [239; 187; 191]].

Definition isSpace (ch : string) : bool := existsb (String.eqb ch) whiteSpace.

(** The letters A to Z are mapped to a to z; every other byte is kept.
    [String.prototype.toLowerCase] also maps the letters outside ASCII, to
    characters outside ASCII or, for the Kelvin sign U+212A alone, to k:
    on a text of ASCII characters the two agree. *)
Definition lowerChar (c : ascii) : ascii :=
  let n := nat_of_ascii c in
  if (Nat.leb 65 n) && (Nat.leb n 90) then ascii_of_nat (n + 32) else c.

Fixpoint toLowerCase (s : string) : string :=
  match s with
  | EmptyString => EmptyString
  | String c r => String (lowerChar c) (toLowerCase r)
  end.

(** The leading white space removed: [/^\s+/]. *)
Fixpoint dropSpaces (l : list string) : list string :=
  match l with
  | [] => []
  | ch :: rest => if isSpace ch then dropSpaces rest else l
  end.

(** The trailing white space removed. *)
Fixpoint dropSpacesEnd (l : list string) : list string :=
  match l with
  | [] => []
  | ch :: rest =>
      match dropSpacesEnd rest with
      | [] => if isSpace ch then [] else [ch]
      | rest' => ch :: rest'
      end
  end.

(** [trim] of validator.js: [rtrim(ltrim(s))], both for the class [\s]. *)
Definition trim (s : string) : string :=
  join (dropSpacesEnd (dropSpaces (chars s))).

(** [s.replace(/\s+/g, '_')]: every maximal run of white space becomes
    one underscore. *)
Fixpoint replaceSpacesFrom (inRun : bool) (l : list string) : list string :=
  match l with
  | [] => []
  | ch :: r =>
      if isSpace ch then
        if inRun then replaceSpacesFrom true r
        else "_" :: replaceSpacesFrom true r
      else ch :: replaceSpacesFrom false r
  end.

Definition replaceSpaces (s : string) : string :=
  join (replaceSpacesFrom false (chars s)).

Fixpoint allBytes (p : ascii -> bool) (s : string) : bool :=
  match s with
  | EmptyString => true
  | String c r => p c && allBytes p r
  end.

(** A text of ASCII characters. *)
Definition isAscii (s : string) : bool :=
  allBytes (fun c => Nat.ltb (nat_of_ascii c) 128) s.

End Js.

Arguments Js.isSpace : simpl never.
Arguments Js.isContinuation : simpl never.

(** ** The validators of express-validator used by the routes *)

Module Validator.

Definition isIn (values : list string) (s : string) : bool :=
  existsb (String.eqb s) values.

Definition isHexChar (c : ascii) : bool :=
  let n := nat_of_ascii c in
  ((Nat.leb 48 n) && (Nat.leb n 57))
  || ((Nat.leb 65 n) && (Nat.leb n 70))
  || ((Nat.leb 97 n) && (Nat.leb n 102)).

Fixpoint allChars (p : ascii -> bool) (s : string) : bool :=
  match s with
  | EmptyString => true
  | String c r => p c && allChars p r
  end.

(** The letter of the prefix [0x] or [0h], in either case. *)
Definition isPrefixLetter (c : ascii) : bool :=
  existsb (Ascii.eqb c) ["x"; "X"; "h"; "H"]%char.

(** [isHexadecimal]: [/^(0x|0h)?[0-9A-F]+$/i]. *)
Definition hexDigits (s : string) : string :=
  match s with
  | String "0"%char (String c r) =>
      if isPrefixLetter c then r else s
  | _ => s
  end.

Definition isHexadecimal (s : string) : bool :=
  negb (String.eqb (hexDigits s) "") && allChars isHexChar (hexDigits s).

(** [isMongoId]: [isHexadecimal(str) && str.length === 24]; a text that
    passes the first test is ASCII, so its length is its number of bytes. *)
Definition isMongoId (s : string) : bool :=
  isHexadecimal s && Nat.eqb (String.length s) 24.

Definition isSelector (ch : string) : bool :=
  String.eqb ch (Js.bytes [239; 184; 142])
  || String.eqb ch (Js.bytes [239; 184; 143]).

(** The length [isLength] measures: [str.length] less the number of
    surrogate pairs and of variation selectors U+FE0E and U+FE0F, that is,
    one for every character that is no such selector. *)
Definition length (s : string) : nat :=
  List.length (filter (fun ch => negb (isSelector ch)) (Js.chars s)).

Definition isLength (min max : nat) (s : string) : bool :=
  Nat.leb min (length s) && Nat.leb (length s) max.

(** The string a validator sees for a field: an absent field is [''] . *)
Definition toString (v : option string) : string :=
  match v with Some s => s | None => "" end.

End Validator.

(** ** Documents *)

(** An ObjectId, as the 24 hexadecimal digits, in lower case, that its
    [toString()] prints. The [_id] of a document and every reference to one
    are of this type. *)
Definition Id := string.

(** mongoose casts a string that a route hands to a query or to a
    constructor, where the schema has an ObjectId: a string of 24
    hexadecimal digits, in either case, is the ObjectId it spells; any other
    string is a CastError. *)
Module ObjectId.

Definition isValid (s : string) : bool :=
  Validator.allChars Validator.isHexChar s && Nat.eqb (String.length s) 24.

Definition ofString (s : string) : Id := Js.toLowerCase s.

(** [None] is the CastError. *)
Definition cast (s : string) : option Id :=
  if isValid s then Some (ofString s) else None.

(** The string [s] casts to the ObjectId [id]. *)
Definition spells (s : string) (id : Id) : bool :=
  isValid s && String.eqb id (ofString s).

End ObjectId.

(** A JSON value of the [severity] and [duration] fields: a string or a
    number. The numbers held are the integers; those below [2 ^ 53] in
    absolute value are the ones JavaScript reads and prints exactly. *)
Inductive JsValue : Type :=
| JStr (s : string)
| JNum (n : Z).

(** A time value a [Date] can hold: at most 8.64e15 milliseconds from the
    epoch, either way; [new Date(t)] of any other number is an invalid
    date. *)
Definition Date_valid (t : Z) : bool := (Z.abs t <=? 8640000000000000)%Z.

Definition JsValue_truthy (v : JsValue) : bool :=
  match v with
  | JStr s => negb (String.eqb s "")
  | JNum n => negb (Z.eqb n 0)
  end.

Definition JsValue_truthy_opt (v : option JsValue) : bool :=
  match v with
  | Some x => JsValue_truthy x
  | None => false
  end.

Record Metadata : Type := mkMetadata {
  reporterIP : string;
  reporterUserAgent : string;
  meta_timestamp : option Z
}.

(** *** models/ContentReport.js *)

Module ContentReport.

Definition targetTypes : list string := ["post"; "reel"; "story"; "comment"].

Definition reportTypes : list string :=
  ["inappropriate_content"; "harassment"; "spam"; "hate_speech"; "violence";
   "sexual_content"; "self_harm"; "bullying"; "misinformation";
   "copyright_violation"; "privacy_violation"; "scam"; "other"].

Definition tiers : list string := ["low"; "medium"; "high"; "urgent"].

Definition statuses : list string :=
  ["pending"; "under_review"; "resolved"; "dismissed"; "escalated"].

Definition actions : list string :=
  ["warning_issued"; "content_removed"; "user_suspended"; "user_banned";
   "no_action"; "escalated"].

Record Action : Type := mkAction {
  action : string;
  action_reason : string;
  timestamp : Z;
  adminId : option Id
}.

Record t : Type := mk {
  _id : Id;
  reporter : Id;
  targetType : string;
  targetId : Id;
  reportType : string;
  reason : string;
  additionalInfo : option string;
  severity : JsValue;
  status : string;
  priority : string;
  adminNotes : option string;
  actionsTaken : list Action;
  assignedTo : option Id;
  metadata : Metadata
}.

(** The fields a route passes to [new ContentReport({...})]. *)
Record Fields : Type := mkFields {
  f_reporter : Id;
  f_targetType : string;
  f_targetId : Id;
  f_reportType : string;
  f_reason : string;
  f_additionalInfo : option string;
  f_severity : JsValue;
  f_metadata : Metadata
}.

(** [new ContentReport(fields)]: the schema defaults fill [status],
    [priority] and [actionsTaken]; nothing else computes them. *)
Definition new (id : Id) (f : Fields) : t :=
  {| _id := id;
     reporter := f_reporter f;
     targetType := f_targetType f;
     targetId := f_targetId f;
     reportType := f_reportType f;
     reason := f_reason f;
     additionalInfo := f_additionalInfo f;
     severity := f_severity f;
     status := "pending";
     priority := "medium";
     adminNotes := None;
     actionsTaken := [];
     assignedTo := None;
     metadata := f_metadata f |}.

Definition enumOk (values : list string) (v : JsValue) : bool :=
  match v with
  | JStr s => Validator.isIn values s
  | JNum _ => false
  end.

(** [maxLength] of a String path: [v.length <= max]. *)
Definition maxLengthOk (max : nat) (v : option string) : bool :=
  match v with
  | Some s => Nat.leb (Js.length s) max
  | None => true
  end.

(** Schema validation run by [save]: required paths, enums, lengths. *)
Definition validate (r : t) : bool :=
  Validator.isIn targetTypes (targetType r)
  && Validator.isIn reportTypes (reportType r)
  && negb (String.eqb (reason r) "")
  && Nat.leb (Js.length (reason r)) 1000
  && maxLengthOk 500 (additionalInfo r)
  && enumOk tiers (severity r)
  && Validator.isIn statuses (status r)
  && Validator.isIn tiers (priority r)
  && maxLengthOk 1000 (adminNotes r)
  && forallb (fun a => Validator.isIn actions (action a)) (actionsTaken r).

(** [ContentReport.findOne({reporter, targetType, targetId})]: the query
    names these three paths and no other; [target] is the string of the
    request, cast to the ObjectId of the path. *)
Definition matches (who : Id) (kind : string) (target : string) (r : t)
  : bool :=
  String.eqb (reporter r) who
  && String.eqb (targetType r) kind
  && ObjectId.spells target (targetId r).

Definition findOne (who : Id) (kind : string) (target : string)
    (coll : list t) : option t :=
  find (matches who kind target) coll.

(** [report.save()] of a new document: [None] is the ValidationError. *)
Definition save (r : t) (coll : list t) : option (list t) :=
  if validate r then Some (coll ++ [r])%list else None.

End ContentReport.

(** *** models/Reports.js, as the routes use it

    The schema file of the user-report model is not part of the sources at
    hand; its documents carry the paths the routes read and write. What the
    schema itself contributes (defaults, validation at [save], the instance
    methods [takeAction] and [updateStatus]) is the interface
    [Report.Model] below, a parameter of every route that uses it. *)

Module Report.

Record Action : Type := mkAction {
  action : string;
  action_reason : string;
  takenBy : option Id;
  takenAt : Z;
  duration : option Z
}.

Record t : Type := mk {
  _id : Id;
  reporter : Id;
  reportedUser : Id;
  reportType : string;
  reason : string;
  evidence : list string;
  category : string;
  severity : JsValue;
  metadata : Metadata;
  status : string;
  priority : string;
  adminNotes : option string;
  actionsTaken : list Action
}.

Definition set_status (s : string) (r : t) : t :=
  mk (_id r) (reporter r) (reportedUser r) (reportType r) (reason r)
     (evidence r) (category r) (severity r) (metadata r)
     s (priority r) (adminNotes r) (actionsTaken r).

Definition set_adminNotes (n : option string) (r : t) : t :=
  mk (_id r) (reporter r) (reportedUser r) (reportType r) (reason r)
     (evidence r) (category r) (severity r) (metadata r)
     (status r) (priority r) n (actionsTaken r).

(** [report.actionsTaken.push(a)] *)
Definition push_action (a : Action) (r : t) : t :=
  mk (_id r) (reporter r) (reportedUser r) (reportType r) (reason r)
     (evidence r) (category r) (severity r) (metadata r)
     (status r) (priority r) (adminNotes r) (actionsTaken r ++ [a])%list.

(** What models/Reports.js provides. An instance method returns the
    document after its own [save], or [None] when it throws. *)
Record Model : Type := mkModel {
  default_status : string;
  default_priority : string;
  validate : t -> bool;
  takeAction : t -> string -> string -> Id -> Z -> option t;
  updateStatus : t -> string -> Id -> option string -> Z -> option t
}.

Record Fields : Type := mkFields {
  f_reporter : Id;
  f_reportedUser : Id;
  f_reportType : string;
  f_reason : string;
  f_evidence : list string;
  f_category : string;
  f_severity : JsValue;
  f_metadata : Metadata
}.

(** [new Report(fields)] *)
Definition new (M : Model) (id : Id) (f : Fields) : t :=
  {| _id := id;
     reporter := f_reporter f;
     reportedUser := f_reportedUser f;
     reportType := f_reportType f;
     reason := f_reason f;
     evidence := f_evidence f;
     category := f_category f;
     severity := f_severity f;
     metadata := f_metadata f;
     status := default_status M;
     priority := default_priority M;
     adminNotes := None;
     actionsTaken := [] |}.

(** [Report.findById(id)] for a string [id] of the request: the document
    whose [_id] the string casts to. For a string that is no ObjectId the
    query throws; the routes test [ObjectId.isValid] for that case. *)
Definition findById (id : string) (coll : list t) : option t :=
  find (fun r => ObjectId.spells id (_id r)) coll.

(** [Report.findOne({reporter, reportedUser})]; [target] is the string of
    the request. *)
Definition findOne (who : Id) (target : string) (coll : list t) : option t :=
  find (fun r => String.eqb (reporter r) who
                 && ObjectId.spells target (reportedUser r)) coll.

(** The stored copy of a document is replaced by the saved one. *)
Fixpoint replace (r : t) (coll : list t) : list t :=
  match coll with
  | [] => []
  | x :: rest =>
      if String.eqb (_id x) (_id r) then r :: rest
      else x :: replace r rest
  end.

(** [report.save()] of a new document. *)
Definition insert (M : Model) (r : t) (coll : list t) : option (list t) :=
  if validate M r then Some (coll ++ [r])%list else None.

(** [report.save()] of a document read from the collection. *)
Definition save (M : Model) (r : t) (coll : list t) : option (list t) :=
  if validate M r then Some (replace r coll) else None.

(** [Report.findByIdAndDelete(id)] for a string [id] of the request. *)
Fixpoint delete (id : string) (coll : list t) : list t :=
  match coll with
  | [] => []
  | x :: rest =>
      if ObjectId.spells id (_id x) then rest else x :: delete id rest
  end.

End Report.

(** *** models/User.js, the paths the routes read and write *)

Module User.

Record t : Type := mk {
  _id : Id;
  username : string;
  role : string;
  status : string;
  suspendedUntil : option Z;
  isActive : bool;
  banReason : option string;
  bannedAt : option Z;
  banEndDate : option Z
}.

(** [User.findById(id)] for a string [id]: the document whose [_id] the
    string casts to. For a string that is no ObjectId the query throws;
    the routes test [ObjectId.isValid] for that case. *)
Definition findById (id : string) (coll : list t) : option t :=
  find (fun u => ObjectId.spells id (_id u)) coll.

(** The update document of [findByIdAndUpdate] in the action route:
    [status] always, [suspendedUntil] only when the spread adds it. *)
Record Update : Type := mkUpdate {
  set_status : string;
  set_suspendedUntil : option Z
}.

Definition apply (upd : Update) (u : t) : t :=
  mk (_id u) (username u) (role u) (set_status upd)
     (match set_suspendedUntil upd with
      | Some d => Some d
      | None => suspendedUntil u
      end)
     (isActive u) (banReason u) (bannedAt u) (banEndDate u).

(** [User.findByIdAndUpdate(id, upd)] for the ObjectId [id] of a stored
    reference: the document with that id is updated; with no such document
    nothing is written. *)
Fixpoint findByIdAndUpdate (id : Id) (upd : Update) (coll : list t) : list t :=
  match coll with
  | [] => []
  | u :: rest =>
      if String.eqb (_id u) id then apply upd u :: rest
      else u :: findByIdAndUpdate id upd rest
  end.

(** [user.save()] after the ban route has set its four paths. *)
Definition ban (why : string) (at_ : Z) (until : option Z) (u : t) : t :=
  mk (_id u) (username u) (role u) (status u) (suspendedUntil u)
     false (Some why) (Some at_) until.

Fixpoint replace (u : t) (coll : list t) : list t :=
  match coll with
  | [] => []
  | x :: rest =>
      if String.eqb (_id x) (_id u) then u :: rest
      else x :: replace u rest
  end.

End User.

(** ** Database, requests, responses *)

Record Db : Type := mkDb {
  Posts : list Id;
  Reels : list Id;         (* models/Reel.js; no report route reads it *)
  Users : list User.t;
  ContentReports : list ContentReport.t;
  Reports : list Report.t
}.

Definition with_ContentReports (c : list ContentReport.t) (db : Db) : Db :=
  mkDb (Posts db) (Reels db) (Users db) c (Reports db).

Definition with_Reports (r : list Report.t) (db : Db) : Db :=
  mkDb (Posts db) (Reels db) (Users db) (ContentReports db) r.

Definition with_Users (u : list User.t) (db : Db) : Db :=
  mkDb (Posts db) (Reels db) u (ContentReports db) (Reports db).

(** [Post.findById(id)] for a string [id] of the request, as the routes
    use it: found or not. For a string that is no ObjectId the query
    throws; the routes test [ObjectId.isValid] for that case. *)
Definition Post_findById (id : string) (db : Db) : bool :=
  existsb (ObjectId.spells id) (Posts db).

Record Body : Type := mkBody {
  type : option string;
  targetId : option string;
  reason : option string;
  additionalInfo : option string;
  severity : option JsValue;
  reportedUserId : option string;
  reportType : option string;
  evidence : option (list string);
  category : option string;
  status : option string;
  note : option string;
  action : option string;
  details : option string;
  adminNotes : option string;
  duration : option JsValue;
  reportId : option string
}.

Record Request : Type := mkRequest {
  user_id : Id;            (* req.user.id *)
  ip : string;             (* req.ip *)
  userAgent : string;      (* req.get('User-Agent') *)
  now : Z;                 (* the clock, in milliseconds *)
  new_id : Id;             (* the _id given to a document created here *)
  param : Id;              (* the :id, :reportId or :userId of the path *)
  body : Body
}.

Record Response : Type := mkResponse {
  code : Z;
  message : string
}.

Definition Handler : Type := Db -> Request -> Response * Db.

Definition respond (c : Z) (m : string) (db : Db) : Response * Db :=
  (mkResponse c m, db).

Definition optional {A : Type} (p : A -> bool) (v : option A) : bool :=
  match v with
  | Some x => p x
  | None => true
  end.

(** ** The content-report router: [router.post('/')] with its validators *)

Module ContentRouter.

(** The chain of [body(...)] validators; [validationResult(req).isEmpty()]. *)
Definition validation (b : Body) : bool :=
  Validator.isIn ContentReport.targetTypes (Validator.toString (type b))
  && Validator.isMongoId (Validator.toString (targetId b))
  && Validator.isIn ContentReport.reportTypes (Validator.toString (reason b))
  && optional (fun s => Validator.isLength 0 500 (Js.trim s)) (additionalInfo b)
  && optional (ContentReport.enumOk ContentReport.tiers) (severity b).

(** The sanitizer [trim()] rewrites [req.body.additionalInfo]. *)
Definition sanitized_additionalInfo (b : Body) : option string :=
  option_map Js.trim (additionalInfo b).

Definition placeholder : string := "No additional information provided".

Definition fields (rq : Request) : ContentReport.Fields :=
  let b := body rq in
  let info := sanitized_additionalInfo b in
  {| ContentReport.f_reporter := user_id rq;
     ContentReport.f_targetType := Validator.toString (type b);
     ContentReport.f_targetId :=
       ObjectId.ofString (Validator.toString (targetId b));
     ContentReport.f_reportType := Validator.toString (reason b);
     ContentReport.f_reason := Js.or_else info placeholder;
     ContentReport.f_additionalInfo := info;
     ContentReport.f_severity :=
       match severity b with Some v => v | None => JStr "medium" end;
     ContentReport.f_metadata :=
       mkMetadata (ip rq) (userAgent rq) (Some (now rq)) |}.

(** Only a post is looked up; for the other kinds [targetExists] keeps its
    initial [false]. *)
Definition targetExists (db : Db) (b : Body) : bool :=
  if String.eqb (Validator.toString (type b)) "post"
  then Post_findById (Validator.toString (targetId b)) db
  else false.

(** [Post.findById(targetId)] throws a CastError when [targetId] is no
    ObjectId; [isMongoId] lets the forms with a prefix through. *)
Definition castError (b : Body) : bool :=
  String.eqb (Validator.toString (type b)) "post"
  && negb (ObjectId.isValid (Validator.toString (targetId b))).

Definition post_root : Handler := fun db rq =>
  let b := body rq in
  if negb (validation b) then respond 400 "Validation failed" db
  else if castError b then respond 500 "Internal server error" db
  else if negb (targetExists db b) then respond 404 "Content not found" db
  else
    match ContentReport.findOne (user_id rq) (Validator.toString (type b))
            (Validator.toString (targetId b)) (ContentReports db) with
    | Some _ => respond 400 "You have already reported this content" db
    | None =>
        let report := ContentReport.new (new_id rq) (fields rq) in
        match ContentReport.save report (ContentReports db) with
        | Some coll =>
            respond 201 "Content reported successfully"
                    (with_ContentReports coll db)
        | None => respond 500 "Internal server error" db
        end
    end.

(** The same handler in the two parts between which it awaits the
    database: [check] runs up to the answer of [ContentReport.findOne] and
    gives the response sent or the document built; [store] is
    [report.save()] with the response after it. Requests served in between
    see the collection without the document. *)
Definition check (db : Db) (rq : Request) : Response + ContentReport.t :=
  let b := body rq in
  if negb (validation b) then inl (mkResponse 400 "Validation failed")
  else if castError b then inl (mkResponse 500 "Internal server error")
  else if negb (targetExists db b)
  then inl (mkResponse 404 "Content not found")
  else
    match ContentReport.findOne (user_id rq) (Validator.toString (type b))
            (Validator.toString (targetId b)) (ContentReports db) with
    | Some _ => inl (mkResponse 400 "You have already reported this content")
    | None => inr (ContentReport.new (new_id rq) (fields rq))
    end.

Definition store (report : ContentReport.t) (db : Db) : Response * Db :=
  match ContentReport.save report (ContentReports db) with
  | Some coll =>
      respond 201 "Content reported successfully" (with_ContentReports coll db)
  | None => respond 500 "Internal server error" db
  end.

End ContentRouter.

(** ** The universal report router *)

Module ReportRouter.

Definition isModerator (db : Db) (rq : Request) : option bool :=
  match User.findById (user_id rq) (Users db) with
  | Some u =>
      Some (String.eqb (User.role u) "admin"
            || String.eqb (User.role u) "moderator")
  | None => None            (* [user.role] of [null] throws *)
  end.

Definition accessDenied : string := "Access denied. Admin privileges required.".

Definition targetExists (db : Db) (b : Body) : bool :=
  if String.eqb (Validator.toString (type b)) "post"
  then Post_findById (Validator.toString (targetId b)) db
  else false.

Definition contentFields (rq : Request) : ContentReport.Fields :=
  let b := body rq in
  let r := Validator.toString (reason b) in
  {| ContentReport.f_reporter := user_id rq;
     ContentReport.f_targetType := Validator.toString (type b);
     ContentReport.f_targetId :=
       ObjectId.ofString (Validator.toString (targetId b));
     ContentReport.f_reportType := Js.replaceSpaces (Js.toLowerCase r);
     ContentReport.f_reason := Js.or_else (additionalInfo b) r;
     ContentReport.f_additionalInfo := additionalInfo b;
     ContentReport.f_severity :=
       match severity b with Some v => v | None => JStr "medium" end;
     ContentReport.f_metadata :=
       mkMetadata (ip rq) (userAgent rq) (Some (now rq)) |}.

(** [Post.findById(targetId)] throws a CastError when [targetId] is no
    ObjectId; the [catch] of [router.post('/')] answers it. *)
Definition castError (b : Body) : bool :=
  String.eqb (Validator.toString (type b)) "post"
  && negb (ObjectId.isValid (Validator.toString (targetId b))).

Definition handleContentReport : Handler := fun db rq =>
  let b := body rq in
  if negb (Js.truthy (type b)) || negb (Js.truthy (targetId b))
     || negb (Js.truthy (reason b))
  then respond 400 "Content reports require type, targetId, and reason" db
  else if castError b then respond 500 "Internal server error" db
  else if negb (targetExists db b) then respond 404 "Content not found" db
  else
    match ContentReport.findOne (user_id rq) (Validator.toString (type b))
            (Validator.toString (targetId b)) (ContentReports db) with
    | Some _ => respond 400 "You have already reported this content" db
    | None =>
        let report := ContentReport.new (new_id rq) (contentFields rq) in
        match ContentReport.save report (ContentReports db) with
        | Some coll =>
            respond 201 "Content reported successfully"
                    (with_ContentReports coll db)
        | None => respond 500 "Internal server error" db
        end
    end.

Section WithModel.

Variable M : Report.Model.

Definition userFields (rq : Request) : Report.Fields :=
  let b := body rq in
  {| Report.f_reporter := user_id rq;
     Report.f_reportedUser :=
       ObjectId.ofString (Validator.toString (reportedUserId b));
     Report.f_reportType := Validator.toString (reportType b);
     Report.f_reason := Validator.toString (reason b);
     Report.f_evidence :=
       match evidence b with Some e => e | None => [] end;
     Report.f_category := Js.or_else (category b) "behavior";
     Report.f_severity :=
       match severity b with
       | Some v => if JsValue_truthy v then v else JNum 5
       | None => JNum 5
       end;
     Report.f_metadata := mkMetadata (ip rq) (userAgent rq) None |}.

Definition handleUserReport : Handler := fun db rq =>
  let b := body rq in
  let target := Validator.toString (reportedUserId b) in
  if negb (Js.truthy (reportedUserId b)) || negb (Js.truthy (reportType b))
     || negb (Js.truthy (reason b))
  then respond 400
         "User reports require reportedUserId, reportType, and reason" db
  else if String.eqb target (user_id rq)
  then respond 400 "Cannot report yourself" db
  else if negb (ObjectId.isValid target)
  then respond 500 "Internal server error" db
  else
    match User.findById target (Users db) with
    | None => respond 404 "Reported user not found" db
    | Some _ =>
        match Report.findOne (user_id rq) target (Reports db) with
        | Some _ => respond 400 "You have already reported this user" db
        | None =>
            let report := Report.new M (new_id rq) (userFields rq) in
            match Report.insert M report (Reports db) with
            | Some coll =>
                respond 201 "User reported successfully"
                        (with_Reports coll db)
            | None => respond 500 "Internal server error" db
            end
        end
    end.

Definition invalidFormat : string :=
  "Invalid report format. Must include either (type + targetId) for content reports or reportedUserId for user reports.".

(** [router.post('/')] *)
Definition post_root : Handler := fun db rq =>
  let b := body rq in
  if Js.truthy (type b) && Js.truthy (targetId b)
  then handleContentReport db rq
  else if Js.truthy (reportedUserId b)
  then handleUserReport db rq
  else respond 400 invalidFormat db.

(** [router.put('/:reportId/status')] *)
Definition statusValues : list string :=
  ["pending"; "investigating"; "resolved"; "dismissed"].

Definition put_status : Handler := fun db rq =>
  let b := body rq in
  if negb (Validator.isIn statusValues (Validator.toString (status b)))
  then respond 400 "Validation failed" db
  else
    match isModerator db rq with
    | None => respond 500 "Failed to update report status" db
    | Some false => respond 403 accessDenied db
    | Some true =>
        if negb (ObjectId.isValid (param rq))
        then respond 500 "Failed to update report status" db
        else
        match Report.findById (param rq) (Reports db) with
        | None => respond 404 "Report not found" db
        | Some report =>
            match Report.updateStatus M report
                    (Validator.toString (status b)) (user_id rq)
                    (option_map Js.trim (note b)) (now rq) with
            | Some report' =>
                respond 200 "Report status updated successfully"
                        (with_Reports (Report.replace report' (Reports db)) db)
            | None => respond 500 "Failed to update report status" db
            end
        end
    end.

(** [router.put('/:reportId/action')] *)
Definition actionValues : list string :=
  ["none"; "warning"; "temporary_ban"; "permanent_ban"; "content_removal";
   "profile_restriction"].

Definition actionValidation (b : Body) : bool :=
  Validator.isIn actionValues (Validator.toString (action b))
  && match details b with
     | Some d => Validator.isLength 10 1000 (Js.trim d)
     | None => false
     end.

Definition isBan (a : string) : bool :=
  String.eqb a "temporary_ban" || String.eqb a "permanent_ban".

(** [7 * 24 * 60 * 60 * 1000] for a temporary ban, [null] otherwise. *)
Definition banDuration (a : string) : option Z :=
  if String.eqb a "temporary_ban" then Some (7 * 24 * 60 * 60 * 1000)%Z
  else None.

(** [{ status: 'suspended', ...(banDuration && { suspendedUntil }) }] *)
Definition banUpdate (a : string) (clock : Z) : User.Update :=
  {| User.set_status := "suspended";
     User.set_suspendedUntil :=
       match banDuration a with
       | Some d => Some (clock + d)%Z
       | None => None
       end |}.

(** The handler, with the call it makes to [User.findByIdAndUpdate]
    (if it makes one) beside its response. *)
Definition put_action_run (db : Db) (rq : Request)
  : Response * Db * option (Id * User.Update) :=
  let b := body rq in
  let a := Validator.toString (action b) in
  let failed := "Failed to take action on report" in
  if negb (actionValidation b)
  then (respond 400 "Validation failed" db, None)
  else
    match isModerator db rq with
    | None => (respond 500 failed db, None)
    | Some false => (respond 403 accessDenied db, None)
    | Some true =>
        if negb (ObjectId.isValid (param rq))
        then (respond 500 failed db, None)
        else
        match Report.findById (param rq) (Reports db) with
        | None => (respond 404 "Report not found" db, None)
        | Some report =>
            match Report.takeAction M report a
                    (Js.trim (Validator.toString (details b)))
                    (user_id rq) (now rq) with
            | None => (respond 500 failed db, None)
            | Some report' =>
                let db1 :=
                  with_Reports (Report.replace report' (Reports db)) db in
                if isBan a then
                  let target := Report.reportedUser report' in
                  let upd := banUpdate a (now rq) in
                  (respond 200 "Action taken successfully"
                     (with_Users
                        (User.findByIdAndUpdate target upd (Users db1)) db1),
                   Some (target, upd))
                else
                  (respond 200 "Action taken successfully" db1, None)
            end
        end
    end.

Definition put_action : Handler := fun db rq => fst (put_action_run db rq).

End WithModel.

End ReportRouter.

(** ** The admin router: moderation routes *)

Module AdminRouter.

Section WithModel.

Variable M : Report.Model.

(** [parseInt] of JavaScript on a string; [None] is [NaN]. *)
Variable parseInt : string -> option Z.

(** [req.user?.id || null] *)
Definition actor (rq : Request) : option Id :=
  if String.eqb (user_id rq) "" then None else Some (user_id rq).

(** The text of a caught exception, [error.message], is not modelled. *)
Definition error_message : string := "".

Definition moderateStatus (a : string) : string :=
  if String.eqb a "approve" then "resolved"
  else if String.eqb a "reject" then "dismissed"
  else "resolved".

Definition moderateAction (a : string) : string :=
  if String.eqb a "approve" then "no_action"
  else if String.eqb a "reject" then "content_removal"
  else "no_action".

(** What the route does to the document it has read, before [save]. *)
Definition moderated (rq : Request) (a : string) (report : Report.t)
  : Report.t :=
  let b := body rq in
  let r1 := Report.set_status (moderateStatus a) report in
  let r2 := if Js.truthy (adminNotes b)
            then Report.set_adminNotes (adminNotes b) r1 else r1 in
  Report.push_action
    {| Report.action := moderateAction a;
       Report.action_reason :=
         Js.or_else (reason b) ("Content " ++ a ++ "d by admin");
       Report.takenBy := actor rq;
       Report.takenAt := now rq;
       Report.duration := None |} r2.

(** [router.patch('/moderation/reports/:id/moderate')] *)
Definition patch_moderate : Handler := fun db rq =>
  let b := body rq in
  let a := Validator.toString (action b) in
  if negb (Validator.isIn ["approve"; "reject"; "mark_safe"] a)
  then respond 400 "Invalid action" db
  else if negb (ObjectId.isValid (param rq)) then respond 500 error_message db
  else
    match Report.findById (param rq) (Reports db) with
    | None => respond 404 "Report not found" db
    | Some report =>
        match Report.save M (moderated rq a report) (Reports db) with
        | Some coll =>
            respond 200 ("Content " ++ a ++ "d successfully")
                    (with_Reports coll db)
        | None => respond 500 error_message db
        end
    end.

(** [router.delete('/moderation/content/:id')] *)
Definition delete_content : Handler := fun db rq =>
  if negb (ObjectId.isValid (param rq)) then respond 500 error_message db
  else
  match Report.findById (param rq) (Reports db) with
  | None => respond 404 "Report not found" db
  | Some _ =>
      respond 200 "Report deleted successfully"
              (with_Reports (Report.delete (param rq) (Reports db)) db)
  end.

Definition resolved (rq : Request) (report : Report.t) : Report.t :=
  Report.push_action
    {| Report.action := "content_removal";
       Report.action_reason :=
         Js.or_else (reason (body rq))
                    "Content resolved for policy compliance";
       Report.takenBy := actor rq;
       Report.takenAt := now rq;
       Report.duration := None |}
    (Report.set_status "resolved" report).

(** [router.patch('/moderation/content/:id/resolve')] *)
Definition patch_resolve : Handler := fun db rq =>
  if negb (ObjectId.isValid (param rq)) then respond 500 error_message db
  else
  match Report.findById (param rq) (Reports db) with
  | None => respond 404 "Report not found" db
  | Some report =>
      match Report.save M (resolved rq report) (Reports db) with
      | Some coll =>
          respond 200 "Report resolved successfully" (with_Reports coll db)
      | None => respond 500 error_message db
      end
  end.

(** [parseInt(duration)] on the JSON value of the field; an integer
    below [2 ^ 53] in absolute value is read back from its decimal digits. *)
Definition parseDuration (d : option JsValue) : option Z :=
  match d with
  | Some (JNum n) => Some n
  | Some (JStr s) => parseInt s
  | None => None
  end.

Definition isPermanent (d : option JsValue) : bool :=
  match d with
  | Some (JStr s) => String.eqb s "permanent"
  | _ => false
  end.

(** [banEndDate]: [Some None] is [null], [None] an invalid date, which
    [user.save()] refuses. *)
Definition banEndDate (rq : Request) : option (option Z) :=
  let d := duration (body rq) in
  if JsValue_truthy_opt d && negb (isPermanent d)
  then
    match parseDuration d with
    | Some days =>
        let t := (now rq + days * 24 * 60 * 60 * 1000)%Z in
        if Date_valid t then Some (Some t) else None
    | None => None
    end
  else Some None.

Definition banned (rq : Request) (report : Report.t) : Report.t :=
  let d := duration (body rq) in
  Report.push_action
    {| Report.action := "ban";
       Report.action_reason := Validator.toString (reason (body rq));
       Report.takenBy := actor rq;
       Report.takenAt := now rq;
       Report.duration :=
         if isPermanent d then None else parseDuration d |}
    (Report.set_status "resolved" report).

(** [router.post('/moderation/ban-user/:userId')]. The user is saved
    before the report is looked up; a CastError of that lookup or a failure
    of the second [save] leaves the first in place. *)
Definition post_ban_user : Handler := fun db rq =>
  let b := body rq in
  if negb (Js.truthy (reason b)) then respond 400 "Ban reason is required" db
  else if negb (ObjectId.isValid (param rq)) then respond 500 error_message db
  else
    match User.findById (param rq) (Users db) with
    | None => respond 404 "User not found" db
    | Some user =>
        match banEndDate rq with
        | None => respond 500 error_message db
        | Some until =>
            let user' :=
              User.ban (Validator.toString (reason b)) (now rq) until user in
            let db1 := with_Users (User.replace user' (Users db)) db in
            if Js.truthy (reportId b) then
              if negb (ObjectId.isValid (Validator.toString (reportId b)))
              then respond 500 error_message db1
              else
              match Report.findById (Validator.toString (reportId b))
                      (Reports db1) with
              | Some report =>
                  match Report.save M (banned rq report) (Reports db1) with
                  | Some coll =>
                      respond 200 "User banned successfully"
                              (with_Reports coll db1)
                  | None => respond 500 error_message db1
                  end
              | None => respond 200 "User banned successfully" db1
              end
            else respond 200 "User banned successfully" db1
        end
    end.

(** [router.post('/debug/create-test-report')] *)
Definition testFields (first second : User.t) : Report.Fields :=
  {| Report.f_reporter := User._id first;
     Report.f_reportedUser := User._id second;
     Report.f_reportType := "spam";
     Report.f_reason := "Test report created from admin panel for debugging";
     Report.f_evidence := [];
     Report.f_category := "behavior";
     Report.f_severity := JNum 3;
     Report.f_metadata := mkMetadata "" "" None |}.

Definition post_create_test_report : Handler := fun db rq =>
  match firstn 2 (Users db) with
  | [first; second] =>
      let report := Report.new M (new_id rq) (testFields first second) in
      match Report.insert M report (Reports db) with
      | Some coll =>
          respond 200 "Test report created successfully"
                  (with_Reports coll db)
      | None => respond 500 error_message db
      end
  | _ => respond 400 "Need at least 2 users in database" db
  end.

End WithModel.

End AdminRouter.

(** ** The former admin router, routes/admin-old.js *)

Module AdminOldRouter.

(** [Report.findByIdAndUpdate(id, { status, action, reviewedBy, reviewedAt })]
    on the stored document: of the paths modelled here it writes [status],
    when the body has one. *)
Fixpoint review (id : string) (st : option string) (coll : list Report.t)
  : list Report.t :=
  match coll with
  | [] => []
  | x :: rest =>
      if ObjectId.spells id (Report._id x) then
        match st with
        | Some s => Report.set_status s x :: rest
        | None => x :: rest
        end
      else x :: review id st rest
  end.

(** [router.patch('/reports/:id')] *)
Definition patch_report : Handler := fun db rq =>
  if negb (ObjectId.isValid (param rq)) then respond 500 "" db
  else
  respond 200 "Report updated successfully"
          (with_Reports (review (param rq) (status (body rq)) (Reports db)) db).

End AdminOldRouter.

(** ** What the specification says, for the parts to compare with the code *)

Module Spec.

Inductive Tier : Type := low | medium | high | urgent.

Definition rank (t : Tier) : nat :=
  match t with low => 1 | medium => 2 | high => 3 | urgent => 4 end.

Definition name (t : Tier) : string :=
  match t with
  | low => "low" | medium => "medium" | high => "high" | urgent => "urgent"
  end.

Definition tierMax (a b : Tier) : Tier :=
  if Nat.leb (rank a) (rank b) then b else a.

(** The specification's normalisation of a severity: a tier name is that
    tier; a number is urgent from 8, high from 6, medium from 3, else low. *)
Definition normalizeSeverity (v : JsValue) : option Tier :=
  match v with
  | JNum n =>
      Some (if (8 <=? n)%Z then urgent
            else if (6 <=? n)%Z then high
            else if (3 <=? n)%Z then medium
            else low)
  | JStr s =>
      if String.eqb s "low" then Some low
      else if String.eqb s "medium" then Some medium
      else if String.eqb s "high" then Some high
      else if String.eqb s "urgent" then Some urgent
      else None
  end.

Definition reasonFloor (reasonCode : string) : Tier :=
  if String.eqb reasonCode "self_harm" || String.eqb reasonCode "violence"
  then high else low.

(** The specification's [priorityOf]: the larger of the normalised
    severity and the floor of the reason. The code has no function of this
    name; this definition follows the specification's words and is what
    the stored priority is compared with. *)
Definition priorityOf (reasonCode : string) (v : JsValue) : option string :=
  option_map (fun t => name (tierMax t (reasonFloor reasonCode)))
             (normalizeSeverity v).

Definition terminal (status : string) : bool :=
  String.eqb status "resolved" || String.eqb status "dismissed".

Definition open (status : string) : bool :=
  String.eqb status "pending" || String.eqb status "under_review"
  || String.eqb status "escalated".

End Spec.

(** ** A model of models/Reports.js after the specification *)

Module SpecModel.

Definition statuses : list string :=
  ["pending"; "under_review"; "resolved"; "dismissed"; "escalated"].

(** Modelled from the spec: the validation of models/Reports.js at
    [save], which is not among the sources. After section 3: the status
    is one of the five states, the narrative is required and at most 1000
    characters long. *)
Definition validate (r : Report.t) : bool :=
  Validator.isIn statuses (Report.status r)
  && negb (String.eqb (Report.reason r) "")
  && Nat.leb (Js.length (Report.reason r)) 1000.

(** The idempotency key of an action on a report: the action and the
    actor (the report is the document itself). *)
Definition sameKey (a : string) (who : Id) (e : Report.Action) : bool :=
  String.eqb (Report.action e) a
  && match Report.takenBy e with
     | Some x => String.eqb x who
     | None => false
     end.

(** Modelled from the spec: the instance method [takeAction] of
    models/Reports.js, which is not among the sources. After sections 4.4,
    4.5 and 5 of the specification: a repetition of an action already
    recorded for the same actor is a no-op; an action on a terminal report
    is an InvalidTransitionError; otherwise one entry
    [{action, reason, actorId, takenAt}] is appended and the report is
    resolved. *)
Definition takeAction (r : Report.t) (a details : string) (who : Id)
    (clock : Z) : option Report.t :=
  if existsb (sameKey a who) (Report.actionsTaken r) then Some r
  else if Spec.terminal (Report.status r) then None
  else
    Some (Report.push_action
            {| Report.action := a;
               Report.action_reason := details;
               Report.takenBy := Some who;
               Report.takenAt := clock;
               Report.duration := None |}
            (Report.set_status "resolved" r)).

(** The transitions of section 4.4. *)
Definition allowed (from to : string) : bool :=
  (String.eqb from "pending" && String.eqb to "under_review")
  || (String.eqb from "under_review"
      && (String.eqb to "resolved" || String.eqb to "dismissed"
          || String.eqb to "escalated"))
  || (String.eqb from "escalated" && String.eqb to "under_review").

(** Modelled from the spec: the instance method [updateStatus] of
    models/Reports.js, which is not among the sources. After section 4.4:
    a transition of the state machine sets the status and appends its
    entry; any other is an InvalidTransitionError. *)
Definition updateStatus (r : Report.t) (s : string) (who : Id)
    (why : option string) (clock : Z) : option Report.t :=
  if allowed (Report.status r) s then
    Some (Report.push_action
            {| Report.action := s;
               Report.action_reason := Validator.toString why;
               Report.takenBy := Some who;
               Report.takenAt := clock;
               Report.duration := None |}
            (Report.set_status s r))
  else None.

(** Modelled from the spec: the schema of models/Reports.js, which is not
    among the sources: a report starts [pending]; its priority default is
    taken to be the one of the content-report schema. *)
Definition model : Report.Model :=
  {| Report.default_status := "pending";
     Report.default_priority := "medium";
     Report.validate := validate;
     Report.takeAction := takeAction;
     Report.updateStatus := updateStatus |}.

End SpecModel.

(** ** Runs of the service *)

Section Runs.

Variable M : Report.Model.
Variable parseInt : string -> option Z.

(** One request served by one of the routes that write reports, from its
    first database call to its response with no other request served in
    between, or a change of the users, posts or reels made elsewhere in the
    service (the user collection keeps its [_id]s unique). *)
Inductive step : Db -> Db -> Prop :=
| step_content_post db rq :
    step db (snd (ContentRouter.post_root db rq))
| step_report_post db rq :
    step db (snd (ReportRouter.post_root M db rq))
| step_put_status db rq :
    step db (snd (ReportRouter.put_status M db rq))
| step_put_action db rq :
    step db (snd (ReportRouter.put_action M db rq))
| step_moderate db rq :
    step db (snd (AdminRouter.patch_moderate M db rq))
| step_delete db rq :
    step db (snd (AdminRouter.delete_content db rq))
| step_resolve db rq :
    step db (snd (AdminRouter.patch_resolve M db rq))
| step_ban_user db rq :
    step db (snd (AdminRouter.post_ban_user M parseInt db rq))
| step_test_report db rq :
    step db (snd (AdminRouter.post_create_test_report M db rq))
| step_old_review db rq :
    step db (snd (AdminOldRouter.patch_report db rq))
| step_users db us :
    NoDup (map User._id us) -> step db (with_Users us db)
| step_posts db ps rs :
    step db (mkDb ps rs (Users db) (ContentReports db) (Reports db)).

End Runs.

(** ** Sample data *)

Module Sample.

Definition post1 : Id := "507f1f77bcf86cd799439011".
Definition alice : Id := "65a000000000000000000001".
Definition bob : Id := "65a000000000000000000002".
Definition admin : Id := "65a0000000000000000000ad".

Definition user (id : Id) (name role : string) : User.t :=
  User.mk id name role "active" None true None None None.

Definition users : list User.t :=
  [user alice "alice" "user"; user bob "bob" "user";
   user admin "root" "admin"].

Definition reel1 : Id := "507f1f77bcf86cd7994390aa".

Definition db0 : Db := mkDb [post1] [reel1] users [] [].

Definition request (who : Id) (clock : Z) (fresh target : Id) (b : Body)
  : Request :=
  mkRequest who "10.0.0.7" "Mozilla/5.0" clock fresh target b.

(** Body of a content report. *)
Definition contentBody (kind target why : string) (info : option string)
    (sev : option JsValue) : Body :=
  mkBody (Some kind) (Some target) (Some why) info sev None None None None
         None None None None None None None.

(** Body of a user report. *)
Definition userBody (target kind why : string) : Body :=
  mkBody None None (Some why) None None (Some target) (Some kind) None None
         None None None None None None None.

(** Body of [PUT /:reportId/action]. *)
Definition actionBody (a d : string) : Body :=
  mkBody None None None None None None None None None None None (Some a)
         (Some d) None None None.

(** Body of [PATCH /moderation/reports/:id/moderate]. *)
Definition moderateBody (a : string) : Body :=
  mkBody None None None None None None None None None None None (Some a)
         None None None None.

(** A content report of Alice against the post, with a given status. *)
Definition aliceOnPost1 (st : string) : ContentReport.t :=
  ContentReport.mk "65b000000000000000000001" alice "post" post1 "spam"
    "No additional information provided" None (JStr "medium") st "medium"
    None [] None (mkMetadata "10.0.0.7" "Mozilla/5.0" (Some 1000%Z)).

(** A user report of Alice against Bob, with a given status and log. *)
Definition aliceOnBob (id : Id) (st : string) (log : list Report.Action)
  : Report.t :=
  Report.mk id alice bob "harassment" "repeated insults in comments" []
    "behavior" (JNum 5) (mkMetadata "10.0.0.7" "Mozilla/5.0" None) st
    "medium" None log.

Definition report1 : Id := "65c000000000000000000001".

Definition noParse : string -> option Z := fun _ => None.

End Sample.

(** ** Scenarios *)

(** Alice's report against the post was dismissed; she files again. *)
Definition dismissed_db : Db :=
  with_ContentReports [Sample.aliceOnPost1 "dismissed"] Sample.db0.

Definition refile_request : Request :=
  Sample.request Sample.alice 5000 "65b000000000000000000009" ""
    (Sample.contentBody "post" Sample.post1 "spam" None None).

(** Alice reports the post for self-harm with severity low. *)
Definition self_harm_request : Request :=
  Sample.request Sample.alice 5000 "65b000000000000000000009" ""
    (Sample.contentBody "post" Sample.post1 "self_harm" None (Some (JStr "low"))).

(** The same report again, sent before the first is stored. *)
Definition self_harm_again : Request :=
  Sample.request Sample.alice 5001 "65b00000000000000000000a" ""
    (Sample.contentBody "post" Sample.post1 "self_harm" None (Some (JStr "low"))).

(** Alice's report against Bob is resolved; the administrator rejects it. *)
Definition resolved_db : Db :=
  with_Reports [Sample.aliceOnBob Sample.report1 "resolved" []] Sample.db0.

Definition reject_request : Request :=
  Sample.request Sample.admin 9000 "" Sample.report1
    (Sample.moderateBody "reject").

(** The administrator names Alice's report by its id in upper case. *)
Definition upper_id_request : Request :=
  Sample.request Sample.admin 9000 "" "65C000000000000000000001"
    (Sample.moderateBody "reject").

(** The administrator bans Bob on Alice's report, for a week or for good. *)
Definition ban_db : Db :=
  with_Reports [Sample.aliceOnBob Sample.report1 "pending" []] Sample.db0.

Definition ban_request (a : string) (clock : Z) : Request :=
  Sample.request Sample.admin clock "" Sample.report1
    (Sample.actionBody a "repeated harassment confirmed").

(** Bob is under a temporary ban that ends at 604805000; Alice's report
    against him is pending. *)
Definition suspended_db : Db :=
  mkDb [Sample.post1] [Sample.reel1]
    [Sample.user Sample.alice "alice" "user";
     User.mk Sample.bob "bob" "user" "suspended" (Some 604805000%Z) true
       None None None;
     Sample.user Sample.admin "root" "admin"]
    [] [Sample.aliceOnBob Sample.report1 "pending" []].

(** Alice reports a stored reel; the validators accept the kind. *)
Definition reel_request : Request :=
  Sample.request Sample.alice 5000 "65b000000000000000000009" ""
    (Sample.contentBody "reel" Sample.reel1 "spam" None None).

(** A justification of nine characters in ten bytes (its third letter is
    an e with grave accent, two bytes), between blanks and no-break
    spaces. *)
Definition short_details : string :=
  (" " ++ Js.bytes [194; 160] ++ "tr" ++ Js.bytes [195; 168] ++ "s bref"
   ++ Js.bytes [194; 160] ++ "  ")%string.

(** The text "sells followers" after a no-break space and a blank, and
    before two blanks. *)
Definition padded_info : string :=
  (Js.bytes [194; 160] ++ " sells followers  ")%string.

(** Alice reports Bob through the universal route. *)
Definition report_bob_request : Request :=
  Sample.request Sample.alice 5000 Sample.report1 ""
    (Sample.userBody Sample.bob "harassment" "repeated insults in comments").

(** Alice reports her own id, written with its letter in upper case. *)
Definition own_id_request : Request :=
  Sample.request Sample.alice 5000 Sample.report1 ""
    (Sample.userBody "65A000000000000000000001" "harassment"
       "repeated insults in comments").

(** Alice reports the post as "Inappropriate content", with no more text. *)
Definition bare_reason_request : Request :=
  Sample.request Sample.alice 5000 "65b000000000000000000009" ""
    (Sample.contentBody "post" Sample.post1 "Inappropriate content" None None).

(** A body with a type and no targetId, and no reportedUserId. *)
Definition malformed_request : Request :=
  Sample.request Sample.alice 5000 "65b000000000000000000009" ""
    (mkBody (Some "post") None (Some "spam") None None None None None None
            None None None None None None None).

(** ** Notions used by the properties *)

(** A character as [Js.chars] cuts it: a byte, then continuation bytes. *)
Definition isChar (ch : string) : Prop :=
  match ch with
  | String _ r => Js.allBytes Js.isContinuation r = true
  | EmptyString => False
  end.

(** A list of characters as [Js.chars] returns it: after the first, every
    character begins with a byte that starts a character. *)
Definition wellCut (l : list string) : Prop :=
  Forall isChar l /\ Forall (fun ch => Js.continues ch = false) (tl l).

(** The stored user with a given ObjectId. *)
Definition userOf (id : Id) (db : Db) : option User.t :=
  find (fun u => String.eqb (User._id u) id) (Users db).

(** The stored user report with a given ObjectId. *)
Definition reportOf (id : Id) (db : Db) : option Report.t :=
  find (fun r => String.eqb (Report._id r) id) (Reports db).

(** The number of calls an optional call stands for. *)
Definition calls {A : Type} (o : option A) : nat :=
  match o with Some _ => 1 | None => 0 end.

(** ** Character classes of the stored report type *)

Definition isUpper (c : ascii) : bool :=
  let n := nat_of_ascii c in (Nat.leb 65 n) && (Nat.leb n 90).

Definition noSpace (s : string) : bool :=
  forallb (fun ch => negb (Js.isSpace ch)) (Js.chars s).

Definition noUpper (s : string) : bool :=
  Js.allBytes (fun c => negb (isUpper c)) s.

(** Body of [POST /moderation/ban-user/:userId]. *)
Definition banBody (why : string) (d : option JsValue) (report : option string)
  : Body :=
  mkBody None None (Some why) None None None None None None None None None
         None None d report.

(** ** Runs of any length, and what they keep of the content reports *)

Inductive steps (M : Report.Model) (parseInt : string -> option Z)
  : Db -> Db -> Prop :=
| steps_none db : steps M parseInt db db
| steps_more db db1 db2 :
    steps M parseInt db db1 -> step M parseInt db1 db2 ->
    steps M parseInt db db2.

(** The tuple the duplicate check of the content routes looks up. *)
Definition contentKey (r : ContentReport.t) : Id * string * Id :=
  (ContentReport.reporter r, ContentReport.targetType r,
   ContentReport.targetId r).

(** A content report as the submission routes create it. *)
Definition asCreated (r : ContentReport.t) : Prop :=
  ContentReport.targetType r = "post"
  /\ ContentReport.status r = "pending"
  /\ ContentReport.priority r = "medium"
  /\ ContentReport.adminNotes r = None
  /\ ContentReport.actionsTaken r = []
  /\ ContentReport.assignedTo r = None
  /\ ContentReport.validate r = true.

(** What one step does to the content reports: nothing, or one report
    appended, as created and for a tuple not stored before. *)
Definition appended (db db' : Db) : Prop :=
  ContentReports db' = ContentReports db
  \/ exists r,
      ContentReports db' = (ContentReports db ++ [r])%list
      /\ asCreated r
      /\ forall x, In x (ContentReports db) -> contentKey x <> contentKey r.

(** ** Queries: the statics of the content-report schema *)

(** [sort({ createdAt: -1 })]: newest first. A collection lists its
    documents oldest first, so this is the list reversed. *)
Definition newestFirst {A : Type} (l : list A) : list A := rev l.

Definition hasStatus (s : string) (r : ContentReport.t) : bool :=
  String.eqb (ContentReport.status r) s.

(** [contentReportSchema.statics.getReportsByStatus] *)
Definition getReportsByStatus (s : string) (coll : list ContentReport.t)
  : list ContentReport.t :=
  newestFirst (filter (hasStatus s) coll).

Definition severityIs (s : string) (r : ContentReport.t) : bool :=
  match ContentReport.severity r with
  | JStr x => String.eqb x s
  | JNum _ => false
  end.

(** The [$or] of [getHighPriorityReports]. *)
Definition isHighPriority (r : ContentReport.t) : bool :=
  String.eqb (ContentReport.priority r) "high"
  || String.eqb (ContentReport.priority r) "urgent"
  || severityIs "high" r
  || severityIs "urgent" r.

(** [contentReportSchema.statics.getHighPriorityReports] *)
Definition getHighPriorityReports (coll : list ContentReport.t)
  : list ContentReport.t :=
  newestFirst (filter isHighPriority coll).

(** ** Queries: [router.get('/my-reports')] of the content-report router *)

(** [parseInt(x) || d], on what [parseInt] returned: [None] is [NaN]. *)
Definition orDefault (v : option Z) (d : Z) : Z :=
  match v with
  | Some n => if Z.eqb n 0 then d else n
  | None => d
  end.

(** [Math.ceil(a / b)] on integers, [b] not 0. *)
Definition ceilDiv (a b : Z) : Z := (- ((- a) / b))%Z.

(** [.skip(skip).limit(limit)] on the sorted result: a negative skip is
    refused by the database; a negative limit counts as its absolute
    value. *)
Definition skipLimit {A : Type} (skip limit : Z) (l : list A)
  : option (list A) :=
  if Z.ltb skip 0 then None
  else Some (firstn (Z.to_nat (Z.abs limit)) (skipn (Z.to_nat skip) l)).

Record Listing : Type := mkListing {
  listed : list ContentReport.t;
  total : Z;
  page : Z;
  pages : Z
}.

Definition mine (who : Id) (coll : list ContentReport.t)
  : list ContentReport.t :=
  filter (fun r => String.eqb (ContentReport.reporter r) who) coll.

(** The handler, for the caller [who] and the two numbers parsed from the
    query; it answers 200 with the listing or, when the query throws, 500. *)
Definition get_my_reports (db : Db) (who : Id) (qpage qlimit : option Z)
  : Response * option Listing :=
  let page := orDefault qpage 1 in
  let limit := orDefault qlimit 10 in
  let skip := ((page - 1) * limit)%Z in
  let own := mine who (ContentReports db) in
  match skipLimit skip limit (newestFirst own) with
  | Some l =>
      (mkResponse 200 "",
       Some {| listed := l;
               total := Z.of_nat (length own);
               page := page;
               pages := ceilDiv (Z.of_nat (length own)) limit |})
  | None => (mkResponse 500 "Internal server error", None)
  end.

(** ** Queries: [router.get('/stats')] of the universal report router *)

(** One more document under key [k] of a [$group] with [$sum: 1]. *)
Fixpoint bump (k : string) (acc : list (string * nat)) : list (string * nat) :=
  match acc with
  | [] => [(k, 1)]
  | (k', n) :: rest =>
      if String.eqb k' k then (k', S n) :: rest else (k', n) :: bump k rest
  end.

(** [Report.aggregate([{ $group: { _id: '$path', count: { $sum: 1 } } }])];
    the groups are listed in the order their keys first occur. *)
Definition groupCount (key : Report.t -> string) (coll : list Report.t)
  : list (string * nat) :=
  fold_left (fun acc r => bump (key r) acc) coll [].

Definition countWhere (p : Report.t -> bool) (coll : list Report.t) : nat :=
  length (filter p coll).

Record Stats : Type := mkStats {
  st_total : nat;
  st_pending : nat;
  st_highPriority : nat;
  byStatus : list (string * nat);
  byType : list (string * nat);
  byPriority : list (string * nat)
}.

Definition isOpenHigh (r : Report.t) : bool :=
  Validator.isIn ["high"; "urgent"] (Report.priority r)
  && Validator.isIn ["pending"; "investigating"] (Report.status r).

Definition get_stats (db : Db) (rq : Request) : Response * option Stats :=
  match ReportRouter.isModerator db rq with
  | None => (mkResponse 500 "Failed to fetch report statistics", None)
  | Some false => (mkResponse 403 ReportRouter.accessDenied, None)
  | Some true =>
      (mkResponse 200 "",
       Some {| st_total := length (Reports db);
               st_pending :=
                 countWhere (fun r => String.eqb (Report.status r) "pending")
                            (Reports db);
               st_highPriority := countWhere isOpenHigh (Reports db);
               byStatus := groupCount Report.status (Reports db);
               byType := groupCount Report.reportType (Reports db);
               byPriority := groupCount Report.priority (Reports db) |})
  end.

Definition sumCounts (groups : list (string * nat)) : nat :=
  fold_right (fun g n => snd g + n) 0 groups.

Definition countOf (k : string) (groups : list (string * nat)) : nat :=
  match find (fun g => String.eqb (fst g) k) groups with
  | Some g => snd g
  | None => 0
  end.

(** ** Notifications of the admin panel

    models/AdminNotification.js and [router.post('/notifications/send')] of
    the admin router. The paths of a user that the audiences read and
    [User.t] does not carry ([subscription], [isPremium], [createdAt]), the
    parsing of a date and the schema of models/Notification.js are
    parameters. *)

Module AdminNotification.

Record t : Type := mk {
  _id : Id;
  title : string;
  message : string;
  type : string;
  priority : string;
  targetAudience : string;
  specificGroup : option string;
  sentBy : option Id;
  sentAt : Z;
  scheduledFor : option Z;
  status : string;
  totalRecipients : nat;
  deliveredCount : nat;
  readCount : nat
}.

Definition types : list string :=
  ["general"; "feature"; "maintenance"; "policy"; "announcement"].

Definition priorities : list string := ["low"; "medium"; "high"; "critical"].

Definition audiences : list string := ["all"; "premium"; "new"; "specific"].

Definition statuses : list string := ["draft"; "scheduled"; "sent"; "failed"].

(** Schema validation run by [save]. *)
Definition validate (n : t) : bool :=
  negb (String.eqb (title n) "")
  && Nat.leb (Js.length (title n)) 200
  && negb (String.eqb (message n) "")
  && Nat.leb (Js.length (message n)) 1000
  && Validator.isIn types (type n)
  && Validator.isIn priorities (priority n)
  && Validator.isIn audiences (targetAudience n)
  && Validator.isIn statuses (status n).

Definition set_deliveredCount (d : nat) (n : t) : t :=
  mk (_id n) (title n) (message n) (type n) (priority n) (targetAudience n)
     (specificGroup n) (sentBy n) (sentAt n) (scheduledFor n) (status n)
     (totalRecipients n) d (readCount n).

Section Audience.

Variable hasSubscription : User.t -> bool.   (* subscription is not null *)
Variable isPremium : User.t -> bool.         (* isPremium is true *)
Variable createdAt : User.t -> Z.

(** [adminNotificationSchema.statics.getTargetUsers] *)
Definition getTargetUsers (audience : option string) (group : option string)
    (clock : Z) (users : list User.t) : list User.t :=
  match audience with
  | Some a =>
      if String.eqb a "all" then users
      else if String.eqb a "premium"
      then filter (fun u => hasSubscription u || isPremium u) users
      else if String.eqb a "new"
      then filter (fun u =>
                     Z.leb (clock - 30 * 24 * 60 * 60 * 1000) (createdAt u))
                  users
      else if String.eqb a "specific" then []
      else users
  | None => users
  end.

End Audience.

End AdminNotification.

(** A document of models/Notification.js as the route builds it. *)
Record Notification : Type := mkNotification {
  recipient : Id;
  n_type : string;
  n_title : string;
  n_message : string;
  n_priority : option string;
  adminNotificationId : Id;
  notificationType : option string;
  isRead : bool;
  n_sentAt : Z
}.

Record Outbox : Type := mkOutbox {
  AdminNotifications : list AdminNotification.t;
  Notifications : list Notification
}.

Record NotifyBody : Type := mkNotifyBody {
  nb_title : option string;
  nb_message : option string;
  nb_type : option string;
  nb_priority : option string;
  nb_targetAudience : option string;
  nb_specificGroup : option string;
  nb_scheduledFor : option string
}.

Section Notify.

Variable hasSubscription : User.t -> bool.
Variable isPremium : User.t -> bool.
Variable createdAt : User.t -> Z.

(** [new Date(text)]; [None] is an invalid date. *)
Variable parseDate : string -> option Z.

(** Whether models/Notification.js accepts the documents of [insertMany]. *)
Variable notificationsValid : list Notification -> bool.

Definition notifyTargets (b : NotifyBody) (clock : Z) (users : list User.t)
  : list User.t :=
  AdminNotification.getTargetUsers hasSubscription isPremium createdAt
    (nb_targetAudience b) (nb_specificGroup b) clock users.

(** [scheduledFor ? new Date(scheduledFor) : null]; the outer [None] is an
    invalid date, which [save] refuses. *)
Definition scheduled (b : NotifyBody) : option (option Z) :=
  if Js.truthy (nb_scheduledFor b)
  then option_map Some (parseDate (Validator.toString (nb_scheduledFor b)))
  else Some None.

Definition notifyRecord (id : Id) (who : Id) (clock : Z) (b : NotifyBody)
    (at_ : option Z) (recipients : nat) : AdminNotification.t :=
  {| AdminNotification._id := id;
     AdminNotification.title := Validator.toString (nb_title b);
     AdminNotification.message := Validator.toString (nb_message b);
     AdminNotification.type := Js.or_else (nb_type b) "general";
     AdminNotification.priority := Js.or_else (nb_priority b) "medium";
     AdminNotification.targetAudience :=
       Js.or_else (nb_targetAudience b) "all";
     AdminNotification.specificGroup := nb_specificGroup b;
     AdminNotification.sentBy := if String.eqb who "" then None else Some who;
     AdminNotification.sentAt := clock;
     AdminNotification.scheduledFor := at_;
     AdminNotification.status :=
       if Js.truthy (nb_scheduledFor b) then "scheduled" else "sent";
     AdminNotification.totalRecipients := recipients;
     AdminNotification.deliveredCount := 0;
     AdminNotification.readCount := 0 |}.

Definition notifyOne (id : Id) (clock : Z) (b : NotifyBody) (u : User.t)
  : Notification :=
  {| recipient := User._id u;
     n_type := "admin";
     n_title := Validator.toString (nb_title b);
     n_message := Validator.toString (nb_message b);
     n_priority := nb_priority b;
     adminNotificationId := id;
     notificationType := nb_type b;
     isRead := false;
     n_sentAt := clock |}.

(** [router.post('/notifications/send')], for the caller [who], the clock
    and the [_id] of the new record. *)
Definition post_notifications_send (users : list User.t) (box : Outbox)
    (who : Id) (clock : Z) (id : Id) (b : NotifyBody) : Response * Outbox :=
  if negb (Js.truthy (nb_title b)) || negb (Js.truthy (nb_message b))
  then (mkResponse 400 "Title and message are required", box)
  else
    let targets := notifyTargets b clock users in
    match scheduled b with
    | None => (mkResponse 500 "", box)
    | Some at_ =>
        let record := notifyRecord id who clock b at_ (length targets) in
        if negb (AdminNotification.validate record)
        then (mkResponse 500 "", box)
        else
          let box1 :=
            mkOutbox (AdminNotifications box ++ [record])%list
                     (Notifications box) in
          let notes := map (notifyOne id clock b) targets in
          match notes with
          | [] => (mkResponse 200 "Notification sent successfully", box1)
          | _ :: _ =>
              if notificationsValid notes then
                (mkResponse 200 "Notification sent successfully",
                 mkOutbox
                   (AdminNotifications box
                    ++ [AdminNotification.set_deliveredCount (length notes)
                          record])%list
                   (Notifications box ++ notes)%list)
              else (mkResponse 500 "", box1)
          end
    end.

End Notify.

(** The body without its [scheduledFor]. *)
Definition unscheduled (b : NotifyBody) : NotifyBody :=
  mkNotifyBody (nb_title b) (nb_message b) (nb_type b) (nb_priority b)
               (nb_targetAudience b) (nb_specificGroup b) None.

(** Sample parameters of the notification route: Bob is the one premium
    user, every user joined at time 0, every date text is day one, every
    batch of notifications is accepted. *)
Definition bobIsPremium (u : User.t) : bool := String.eqb (User._id u) Sample.bob.

Definition noSubscription (u : User.t) : bool := false.

Definition joinedAtZero (u : User.t) : Z := 0%Z.

Definition dayOne (text : string) : option Z := Some 86400000%Z.

Definition acceptAll (notes : list Notification) : bool := true.

Definition emptyOutbox : Outbox := mkOutbox [] [].

Definition notifyBody (audience when : option string) : NotifyBody :=
  mkNotifyBody (Some "Maintenance") (Some "The service restarts at noon.")
               (Some "maintenance") None audience None when.

(** ** The script that seeds sample reports

    [seedReports] of the seeding script. Its model of a report
    (models/Report.js) is not the one of the routes; whether [insertMany]
    accepts the documents is a parameter. *)

Module Seed.

Record Report : Type := mk {
  reporterId : Id;
  reportedUserId : Id;
  reportType : string;
  reason : string;
  evidence : string;
  status : string;
  priority : string
}.

Definition set_reported (target : Id) (r : Report) : Report :=
  mk (reporterId r) target (reportType r) (reason r) (evidence r) (status r)
     (priority r).

(** The literal [sampleReports]; it reads the [_id] of five users. *)
Definition sampleReports (u0 u1 u2 u3 u4 : User.t) : list Report :=
  [ mk (User._id u0) (User._id u1) "inappropriate"
       "This post contains inappropriate content that violates community guidelines"
       "Screenshot attached showing explicit content" "pending" "high";
    mk (User._id u1) (User._id u2) "spam"
       "User is constantly posting spam content and promotional materials"
       "Multiple spam posts in short time period" "pending" "medium";
    mk (User._id u2) (User._id u3) "harassment"
       "User is harassing me with offensive comments and messages"
       "Screenshot of offensive comments" "investigating" "high";
    mk (User._id u3) (User._id u4) "fake_profile"
       "This appears to be a fake profile impersonating someone else"
       "Profile picture appears to be stolen from social media" "pending"
       "medium";
    mk (User._id u4) (User._id u0) "other"
       "User is spreading misinformation about health topics"
       "Post contains false medical claims" "pending" "urgent" ].

(** The loop over [reportsToCreate], from index [i] on. *)
Fixpoint retarget (users : list User.t) (i : nat) (rs : list Report)
  : list Report :=
  match rs with
  | [] => []
  | r :: rest =>
      match nth_error users (i + 1) with
      | Some u => set_reported (User._id u) r
      | None => r
      end :: retarget users (S i) rest
  end.

(** The script on the stored users and reports: its exit code and the
    reports stored when it ends. Reading [users[k]._id] for a [k] past the
    end throws, and the [catch] exits with 1. *)
Definition seedReports (accepts : list Report -> bool)
    (allUsers : list User.t) (stored : list Report) : Z * list Report :=
  let users := firstn 10 allUsers in
  if Nat.ltb (length users) 2 then (1%Z, stored)
  else
    (* Report.deleteMany({}) *)
    match users with
    | u0 :: u1 :: u2 :: u3 :: u4 :: _ =>
        let reportsToCreate :=
          retarget users 0
            (firstn (Nat.min 5 (length users - 1))
                    (sampleReports u0 u1 u2 u3 u4)) in
        if accepts reportsToCreate then (0%Z, reportsToCreate)
        else (1%Z, [])
    | _ => (1%Z, [])
    end.

End Seed.

(** * Properties *)

(** ** Collections *)

Lemma find_In_some {A : Type} (p : A -> bool) (l : list A) (x : A) :
  In x l -> p x = true -> exists y, find p l = Some y.
Proof.
  intros Hin Hp.
  destruct (find p l) as [y|] eqn:E.
  - now exists y.
  - rewrite (find_none p l E x Hin) in Hp. discriminate.
Qed.

Lemma ContentReport_save_appends r coll coll' :
  ContentReport.save r coll = Some coll' ->
  coll' = (coll ++ [r])%list /\ ContentReport.validate r = true.
Proof.
  unfold ContentReport.save.
  destruct (ContentReport.validate r); [|discriminate].
  intros H. injection H as <-. now split.
Qed.

(** ** ObjectIds *)

Lemma spells_cast s id :
  ObjectId.spells s id = true <-> ObjectId.cast s = Some id.
Proof.
  unfold ObjectId.spells, ObjectId.cast.
  destruct (ObjectId.isValid s); cbn; split; intros H; try discriminate.
  - apply String.eqb_eq in H. now subst.
  - injection H as <-. apply String.eqb_refl.
Qed.

Lemma spells_valid s id : ObjectId.spells s id = true -> ObjectId.isValid s = true.
Proof.
  unfold ObjectId.spells. intros H.
  now apply Bool.andb_true_iff in H.
Qed.

Lemma invalid_spells s id : ObjectId.isValid s = false -> ObjectId.spells s id = false.
Proof. unfold ObjectId.spells. now intros ->. Qed.

Lemma spells_unique s id id' :
  ObjectId.spells s id = true -> ObjectId.spells s id' = true -> id = id'.
Proof.
  intros H H'. apply spells_cast in H. apply spells_cast in H'. congruence.
Qed.

Lemma Post_findById_valid id db :
  Post_findById id db = true -> ObjectId.isValid id = true.
Proof.
  unfold Post_findById. intros H. apply existsb_exists in H.
  destruct H as (x & _ & H). now apply spells_valid with x.
Qed.

Lemma ContentRouter_exists_cast db b :
  ContentRouter.targetExists db b = true -> ContentRouter.castError b = false.
Proof.
  unfold ContentRouter.targetExists, ContentRouter.castError.
  destruct (String.eqb _ "post"); [|discriminate].
  intros H. now rewrite (Post_findById_valid _ _ H).
Qed.

Lemma ReportRouter_exists_cast db b :
  ReportRouter.targetExists db b = true -> ReportRouter.castError b = false.
Proof.
  unfold ReportRouter.targetExists, ReportRouter.castError.
  destruct (String.eqb _ "post"); [|discriminate].
  intros H. now rewrite (Post_findById_valid _ _ H).
Qed.

(** ** Deduplication (C1) *)

Section Dedup.

Variable db : Db.
Variable rq : Request.

Let kind := Validator.toString (type (body rq)).
Let target := Validator.toString (targetId (body rq)).

(** A stored report of the same reporter for the same target answers the
    content-report route with the duplicate error, whatever its status. *)
Lemma ContentRouter_duplicate r :
  In r (ContentReports db) ->
  ContentReport.matches (user_id rq) kind target r = true ->
  ContentRouter.validation (body rq) = true ->
  ContentRouter.targetExists db (body rq) = true ->
  ContentRouter.post_root db rq
  = respond 400 "You have already reported this content" db.
Proof.
  intros Hin Hm Hv Ht.
  unfold ContentRouter.post_root.
  rewrite Hv, (ContentRouter_exists_cast _ _ Ht), Ht. cbn [negb].
  destruct (find_In_some _ _ _ Hin Hm) as [y Hy].
  unfold ContentReport.findOne. fold kind target. now rewrite Hy.
Qed.

Lemma handleContentReport_duplicate r :
  In r (ContentReports db) ->
  ContentReport.matches (user_id rq) kind target r = true ->
  Js.truthy (type (body rq)) = true ->
  Js.truthy (targetId (body rq)) = true ->
  Js.truthy (reason (body rq)) = true ->
  ReportRouter.targetExists db (body rq) = true ->
  ReportRouter.handleContentReport db rq
  = respond 400 "You have already reported this content" db.
Proof.
  intros Hin Hm H1 H2 H3 Ht.
  unfold ReportRouter.handleContentReport.
  rewrite H1, H2, H3, (ReportRouter_exists_cast _ _ Ht), Ht. cbn.
  destruct (find_In_some _ _ _ Hin Hm) as [y Hy].
  unfold ContentReport.findOne. fold kind target. now rewrite Hy.
Qed.

(** An accepted submission found no stored report of that reporter for
    that target, of any status. *)
Lemma ContentRouter_accepted_fresh :
  code (fst (ContentRouter.post_root db rq)) = 201%Z ->
  forall r, In r (ContentReports db) ->
            ContentReport.matches (user_id rq) kind target r = false.
Proof.
  unfold ContentRouter.post_root.
  destruct (negb (ContentRouter.validation (body rq))); [discriminate|].
  destruct (ContentRouter.castError (body rq)); [discriminate|].
  destruct (negb (ContentRouter.targetExists db (body rq))); [discriminate|].
  unfold ContentReport.findOne. fold kind target.
  destruct (find _ (ContentReports db)) eqn:E; [discriminate|].
  intros _ r Hin. exact (find_none _ _ E r Hin).
Qed.

Lemma handleContentReport_accepted_fresh :
  code (fst (ReportRouter.handleContentReport db rq)) = 201%Z ->
  forall r, In r (ContentReports db) ->
            ContentReport.matches (user_id rq) kind target r = false.
Proof.
  unfold ReportRouter.handleContentReport.
  destruct (_ || _ || _); [discriminate|].
  destruct (ReportRouter.castError (body rq)); [discriminate|].
  destruct (negb (ReportRouter.targetExists db (body rq))); [discriminate|].
  unfold ContentReport.findOne. fold kind target.
  destruct (find _ (ContentReports db)) eqn:E; [discriminate|].
  intros _ r Hin. exact (find_none _ _ E r Hin).
Qed.

End Dedup.

(** C1, as the code has it: a stored content report of reporter R for a
    target answers every later submission of R for that target with the
    duplicate error (400, "You have already reported this content") and
    stores nothing, whatever the status of the stored report, resolved and
    dismissed included; on both content-report routes a submission is
    accepted only when no report of R for that target is stored. *)
Theorem C1_duplicate_whatever_status :
  forall (db : Db) (rq : Request) (r : ContentReport.t),
    In r (ContentReports db) ->
    ContentReport.matches (user_id rq)
      (Validator.toString (type (body rq)))
      (Validator.toString (targetId (body rq))) r = true ->
    (ContentRouter.validation (body rq) = true ->
     ContentRouter.targetExists db (body rq) = true ->
     ContentRouter.post_root db rq
     = respond 400 "You have already reported this content" db)
    /\ (Js.truthy (type (body rq)) = true ->
        Js.truthy (targetId (body rq)) = true ->
        Js.truthy (reason (body rq)) = true ->
        ReportRouter.targetExists db (body rq) = true ->
        ReportRouter.handleContentReport db rq
        = respond 400 "You have already reported this content" db)
    /\ code (fst (ContentRouter.post_root db rq)) <> 201%Z
    /\ code (fst (ReportRouter.handleContentReport db rq)) <> 201%Z.
Proof.
  intros db rq r Hin Hm. repeat split.
  - now apply ContentRouter_duplicate with r.
  - now apply handleContentReport_duplicate with r.
  - intros H. pose proof (ContentRouter_accepted_fresh db rq H r Hin) as E.
    rewrite E in Hm. discriminate.
  - intros H. pose proof (handleContentReport_accepted_fresh db rq H r Hin) as E.
    rewrite E in Hm. discriminate.
Qed.

Lemma C1_witness :
  ContentRouter.post_root dismissed_db refile_request
  = respond 400 "You have already reported this content" dismissed_db.
Proof.
  refine (proj1 (C1_duplicate_whatever_status dismissed_db refile_request
                   (Sample.aliceOnPost1 "dismissed") _ _) _ _).
  - simpl. left. reflexivity.
  - vm_compute. reflexivity.
  - vm_compute. reflexivity.
  - vm_compute. reflexivity.
Defined.

(** C1 as stated fails: the earlier report is dismissed, the post exists,
    the body is valid, and the new submission is still refused as a
    duplicate on both routes; nothing is stored. *)
Lemma C1_counterexample :
  Spec.terminal (ContentReport.status (Sample.aliceOnPost1 "dismissed")) = true
  /\ Spec.open (ContentReport.status (Sample.aliceOnPost1 "dismissed")) = false
  /\ ContentRouter.post_root dismissed_db refile_request
     = (mkResponse 400 "You have already reported this content", dismissed_db)
  /\ ReportRouter.post_root SpecModel.model dismissed_db refile_request
     = (mkResponse 400 "You have already reported this content", dismissed_db).
Proof. repeat split. Qed.

(** ** Priority (C2) *)

Lemma ContentRouter_accepted db rq :
  code (fst (ContentRouter.post_root db rq)) = 201%Z ->
  ContentRouter.validation (body rq) = true
  /\ ContentRouter.targetExists db (body rq) = true
  /\ ContentReport.validate
       (ContentReport.new (new_id rq) (ContentRouter.fields rq)) = true
  /\ ContentRouter.post_root db rq
     = respond 201 "Content reported successfully"
         (with_ContentReports
            (ContentReports db
             ++ [ContentReport.new (new_id rq) (ContentRouter.fields rq)])%list
            db).
Proof.
  unfold ContentRouter.post_root.
  destruct (ContentRouter.validation (body rq)); [|discriminate].
  destruct (ContentRouter.castError (body rq)); [discriminate|].
  destruct (ContentRouter.targetExists db (body rq)); [|discriminate].
  cbn [negb].
  destruct (ContentReport.findOne _ _ _ _); [discriminate|].
  destruct (ContentReport.save _ _) as [coll|] eqn:E; [|discriminate].
  apply ContentReport_save_appends in E. destruct E as [-> Hv].
  intros _. repeat split; assumption.
Qed.

Lemma handleContentReport_accepted db rq :
  code (fst (ReportRouter.handleContentReport db rq)) = 201%Z ->
  Js.truthy (reason (body rq)) = true
  /\ ReportRouter.targetExists db (body rq) = true
  /\ ContentReport.validate
       (ContentReport.new (new_id rq) (ReportRouter.contentFields rq)) = true
  /\ ReportRouter.handleContentReport db rq
     = respond 201 "Content reported successfully"
         (with_ContentReports
            (ContentReports db
             ++ [ContentReport.new (new_id rq) (ReportRouter.contentFields rq)])%list
            db).
Proof.
  unfold ReportRouter.handleContentReport.
  destruct (Js.truthy (type (body rq))); [|discriminate].
  destruct (Js.truthy (targetId (body rq))); [|discriminate].
  destruct (Js.truthy (reason (body rq))); [|discriminate].
  cbn [negb orb].
  destruct (ReportRouter.castError (body rq)); [discriminate|].
  destruct (ReportRouter.targetExists db (body rq)); [|discriminate].
  cbn [negb].
  destruct (ContentReport.findOne _ _ _ _); [discriminate|].
  destruct (ContentReport.save _ _) as [coll|] eqn:E; [|discriminate].
  apply ContentReport_save_appends in E. destruct E as [-> Hv].
  intros _. repeat split; assumption.
Qed.

(** The priority the specification's [priorityOf] gives to its own second
    example: 8 normalises to urgent, not to high. *)
Lemma Spec_priorityOf_spam_8 : Spec.priorityOf "spam" (JNum 8) = Some "urgent".
Proof. reflexivity. Qed.

Lemma Spec_priorityOf_other_2 : Spec.priorityOf "other" (JNum 2) = Some "low".
Proof. reflexivity. Qed.

(** C2, as the code has it: every content report accepted by either
    submission route is stored with the reason code and the severity of the
    request and with priority "medium", the default of the schema; the
    priority is the same for every reason code and every severity, and no
    function of them is computed. *)
Theorem C2_stored_priority_is_schema_default :
  forall (db : Db) (rq : Request),
    (code (fst (ContentRouter.post_root db rq)) = 201%Z ->
     exists r,
       ContentReports (snd (ContentRouter.post_root db rq))
       = (ContentReports db ++ [r])%list
       /\ ContentReport.reportType r = Validator.toString (reason (body rq))
       /\ ContentReport.severity r
          = match severity (body rq) with Some v => v | None => JStr "medium" end
       /\ ContentReport.priority r = "medium")
    /\ (code (fst (ReportRouter.handleContentReport db rq)) = 201%Z ->
        exists r,
          ContentReports (snd (ReportRouter.handleContentReport db rq))
          = (ContentReports db ++ [r])%list
          /\ ContentReport.reportType r
             = Js.replaceSpaces
                 (Js.toLowerCase (Validator.toString (reason (body rq))))
          /\ ContentReport.severity r
             = match severity (body rq) with Some v => v | None => JStr "medium" end
          /\ ContentReport.priority r = "medium").
Proof.
  intros db rq. split; intros H.
  - destruct (ContentRouter_accepted db rq H) as (_ & _ & _ & E).
    rewrite E. eexists. cbn. repeat split.
  - destruct (handleContentReport_accepted db rq H) as (_ & _ & _ & E).
    rewrite E. eexists. cbn. repeat split.
Qed.

Lemma C2_witness :
  exists r,
    ContentReports (snd (ContentRouter.post_root Sample.db0 self_harm_request))
    = (ContentReports Sample.db0 ++ [r])%list
    /\ ContentReport.reportType r = "self_harm"
    /\ ContentReport.severity r = JStr "low"
    /\ ContentReport.priority r = "medium".
Proof.
  apply (proj1 (C2_stored_priority_is_schema_default Sample.db0 self_harm_request)).
  vm_compute. reflexivity.
Defined.

(** C2 as stated fails: a report for self-harm with severity low is
    accepted and stored with priority "medium", where the specification's
    [priorityOf] gives "high"; one of reason "other" with severity low is
    stored with "medium" where it gives "low". *)
Lemma C2_counterexample :
  (exists r,
      ContentRouter.post_root Sample.db0 self_harm_request
      = (mkResponse 201 "Content reported successfully",
         with_ContentReports [r] Sample.db0)
      /\ ContentReport.reportType r = "self_harm"
      /\ ContentReport.severity r = JStr "low"
      /\ ContentReport.priority r = "medium"
      /\ Spec.priorityOf (ContentReport.reportType r) (ContentReport.severity r)
         = Some "high")
  /\ (exists r,
         ReportRouter.post_root SpecModel.model Sample.db0
           (Sample.request Sample.alice 5000 "65b000000000000000000009" ""
              (Sample.contentBody "post" Sample.post1 "other" None
                 (Some (JStr "low"))))
         = (mkResponse 201 "Content reported successfully",
            with_ContentReports [r] Sample.db0)
         /\ ContentReport.priority r = "medium"
         /\ Spec.priorityOf (ContentReport.reportType r)
              (ContentReport.severity r) = Some "low").
Proof.
  split; eexists; repeat split.
Qed.

(** ** Terminal reports (C3) *)

Lemma Report_findById_id id coll r :
  Report.findById id coll = Some r -> ObjectId.spells id (Report._id r) = true.
Proof.
  unfold Report.findById. intros H.
  apply find_some in H. now destruct H as [_ H].
Qed.

Lemma Report_findById_valid id coll r :
  Report.findById id coll = Some r -> ObjectId.isValid id = true.
Proof.
  intros H. apply Report_findById_id in H. now apply spells_valid in H.
Qed.

Lemma Report_findById_In id coll r :
  Report.findById id coll = Some r -> In r coll.
Proof.
  unfold Report.findById. intros H. now apply find_some in H.
Qed.

(** Reading back a document that was saved over the stored one. *)
Lemma Report_findById_replace id coll r0 r :
  Report.findById id coll = Some r0 ->
  Report._id r = Report._id r0 ->
  Report.findById id (Report.replace r coll) = Some r.
Proof.
  intros H Hid. pose proof (Report_findById_id _ _ _ H) as Hs.
  rewrite <- Hid in Hs. unfold Report.findById in *.
  induction coll as [|x rest IH]; cbn in *; [discriminate|].
  destruct (String.eqb (Report._id x) (Report._id r)) eqn:E.
  - cbn. now rewrite Hs.
  - destruct (ObjectId.spells id (Report._id x)) eqn:Ex.
    + injection H as <-. rewrite Hid, String.eqb_refl in E. discriminate.
    + cbn. rewrite Ex. now apply IH.
Qed.

Section Terminal.

Variable M : Report.Model.
Variable db : Db.
Variable rq : Request.
Variable report : Report.t.

Hypothesis found : Report.findById (param rq) (Reports db) = Some report.

Let a := Validator.toString (action (body rq)).

Lemma patch_moderate_saved :
  Validator.isIn ["approve"; "reject"; "mark_safe"] a = true ->
  Report.validate M (AdminRouter.moderated rq a report) = true ->
  AdminRouter.patch_moderate M db rq
  = respond 200 ("Content " ++ a ++ "d successfully")
      (with_Reports
         (Report.replace (AdminRouter.moderated rq a report) (Reports db)) db).
Proof.
  intros Ha Hv. unfold AdminRouter.patch_moderate. fold a.
  rewrite Ha, (Report_findById_valid _ _ _ found), found. cbn [negb].
  unfold Report.save. now rewrite Hv.
Qed.

Lemma patch_resolve_saved :
  Report.validate M (AdminRouter.resolved rq report) = true ->
  AdminRouter.patch_resolve M db rq
  = respond 200 "Report resolved successfully"
      (with_Reports
         (Report.replace (AdminRouter.resolved rq report) (Reports db)) db).
Proof.
  intros Hv. unfold AdminRouter.patch_resolve.
  rewrite (Report_findById_valid _ _ _ found), found. cbn [negb].
  unfold Report.save. now rewrite Hv.
Qed.

End Terminal.

(** C3, as the code has it: the moderation routes of the admin router do
    not look at the status of the report. For a report that is resolved or
    dismissed, a moderate call with one of the actions approve, reject,
    mark_safe, and a resolve call, are answered 200 whenever the schema
    accepts the saved document; the stored status is overwritten (resolved
    for approve, mark_safe and resolve, dismissed for reject) and exactly
    one entry is appended to actionsTaken. *)
Theorem C3_terminal_report_is_moderated :
  forall (M : Report.Model) (db : Db) (rq : Request) (report : Report.t),
    Report.findById (param rq) (Reports db) = Some report ->
    Spec.terminal (Report.status report) = true ->
    let a := Validator.toString (action (body rq)) in
    (Validator.isIn ["approve"; "reject"; "mark_safe"] a = true ->
     Report.validate M (AdminRouter.moderated rq a report) = true ->
     exists stored entry,
       code (fst (AdminRouter.patch_moderate M db rq)) = 200%Z
       /\ Report.findById (param rq)
            (Reports (snd (AdminRouter.patch_moderate M db rq))) = Some stored
       /\ Report.status stored = AdminRouter.moderateStatus a
       /\ Report.actionsTaken stored
          = (Report.actionsTaken report ++ [entry])%list)
    /\ (Report.validate M (AdminRouter.resolved rq report) = true ->
        exists stored entry,
          code (fst (AdminRouter.patch_resolve M db rq)) = 200%Z
          /\ Report.findById (param rq)
               (Reports (snd (AdminRouter.patch_resolve M db rq))) = Some stored
          /\ Report.status stored = "resolved"
          /\ Report.actionsTaken stored
             = (Report.actionsTaken report ++ [entry])%list).
Proof.
  intros M db rq report Hf _ a. split.
  - intros Ha Hv.
    rewrite (patch_moderate_saved M db rq report Hf Ha Hv).
    exists (AdminRouter.moderated rq a report). eexists.
    split; [reflexivity|]. split.
    + cbn. apply Report_findById_replace with report; [exact Hf|].
      unfold AdminRouter.moderated.
      destruct (Js.truthy (adminNotes (body rq))); reflexivity.
    + unfold AdminRouter.moderated.
      destruct (Js.truthy (adminNotes (body rq))); cbn; split; reflexivity.
  - intros Hv.
    rewrite (patch_resolve_saved M db rq report Hf Hv).
    exists (AdminRouter.resolved rq report). eexists.
    split; [reflexivity|]. split.
    + cbn. apply Report_findById_replace with report; [exact Hf|].
      reflexivity.
    + cbn. split; reflexivity.
Qed.

Lemma C3_witness :
  exists stored entry,
    code (fst (AdminRouter.patch_moderate SpecModel.model resolved_db reject_request))
    = 200%Z
    /\ Report.findById Sample.report1
         (Reports (snd (AdminRouter.patch_moderate SpecModel.model resolved_db
                          reject_request))) = Some stored
    /\ Report.status stored = "dismissed"
    /\ Report.actionsTaken stored = [entry].
Proof.
  refine (proj1 (C3_terminal_report_is_moderated SpecModel.model resolved_db
                   reject_request (Sample.aliceOnBob Sample.report1 "resolved" [])
                   _ _) _ _).
  - vm_compute. reflexivity.
  - vm_compute. reflexivity.
  - vm_compute. reflexivity.
  - vm_compute. reflexivity.
Defined.

(** C3 as stated fails: a moderate call on a resolved report is answered
    200, not refused; the stored status changes from resolved to dismissed
    and actionsTaken gains an entry. *)
Lemma C3_counterexample :
  Report.findById Sample.report1 (Reports resolved_db)
  = Some (Sample.aliceOnBob Sample.report1 "resolved" [])
  /\ fst (AdminRouter.patch_moderate SpecModel.model resolved_db reject_request)
     = mkResponse 200 "Content rejectd successfully"
  /\ Report.findById Sample.report1
       (Reports (snd (AdminRouter.patch_moderate SpecModel.model resolved_db
                        reject_request)))
     = Some (Sample.aliceOnBob Sample.report1 "dismissed"
               [Report.mkAction "content_removal" "Content rejectd by admin"
                  (Some Sample.admin) 9000 None]).
Proof. repeat split. Qed.

(** ** Texts and their characters *)

Lemma continues_allBytes ch :
  isChar ch -> Js.continues ch = true -> Js.allBytes Js.isContinuation ch = true.
Proof.
  destruct ch as [|c r]; cbn; [contradiction|]. intros -> ->. reflexivity.
Qed.

Lemma chars_wellCut s : wellCut (Js.chars s).
Proof.
  induction s as [|c r [IH1 IH2]]; cbn.
  - split; constructor.
  - destruct (Js.chars r) as [|ch rest].
    + split; repeat constructor.
    + inversion IH1 as [|? ? Hch Hrest]. subst.
      destruct (Js.continues ch) eqn:E.
      * split.
        -- constructor; [|exact Hrest]. cbn. now apply continues_allBytes.
        -- exact IH2.
      * split.
        -- constructor; [reflexivity|exact IH1].
        -- cbn. constructor; [exact E|exact IH2].
Qed.

Lemma chars_char c r t :
  Js.allBytes Js.isContinuation r = true ->
  match Js.chars t with ch :: _ => Js.continues ch = false | [] => True end ->
  Js.chars (String c (r ++ t)) = String c r :: Js.chars t.
Proof.
  revert c. induction r as [|d r IH]; intros c Hr Ht.
  - cbn. destruct (Js.chars t) as [|ch rest]; [reflexivity|]. now rewrite Ht.
  - cbn in Hr. apply Bool.andb_true_iff in Hr. destruct Hr as [Hd Hr].
    change (Js.chars (String c (String d r ++ t)))
      with (match Js.chars (String d (r ++ t)) with
            | ch :: rest =>
                if Js.continues ch then String c ch :: rest
                else String c EmptyString :: ch :: rest
            | [] => [String c EmptyString]
            end).
    rewrite (IH d Hr Ht). cbn. now rewrite Hd.
Qed.

Lemma chars_join l : wellCut l -> Js.chars (Js.join l) = l.
Proof.
  induction l as [|ch rest IH]; intros [H1 H2]; [reflexivity|].
  inversion H1 as [|? ? Hch Hrest]. subst. cbn in H2.
  assert (Hw : wellCut rest).
  { split; [exact Hrest|]. destruct rest; [constructor|].
    inversion H2. assumption. }
  specialize (IH Hw).
  destruct ch as [|c r]; [contradiction|]. cbn in Hch.
  change (Js.join (String c r :: rest)) with (String c (r ++ Js.join rest)).
  rewrite chars_char; [now rewrite IH|exact Hch|].
  rewrite IH. destruct rest; [exact I|]. now inversion H2.
Qed.

Lemma join_chars s : Js.join (Js.chars s) = s.
Proof.
  induction s as [|c r IH]; [reflexivity|]. cbn.
  destruct (Js.chars r) as [|ch rest].
  - cbn in *. now rewrite <- IH.
  - destruct (Js.continues ch); cbn in *; now rewrite <- IH.
Qed.

Lemma Forall_dropSpaces (P : string -> Prop) l :
  Forall P l -> Forall P (Js.dropSpaces l).
Proof.
  induction 1 as [|ch rest Hch Hrest IH]; cbn; [constructor|].
  destruct (Js.isSpace ch); [exact IH|now constructor].
Qed.

Lemma Forall_dropSpacesEnd (P : string -> Prop) l :
  Forall P l -> Forall P (Js.dropSpacesEnd l).
Proof.
  induction 1 as [|ch rest Hch Hrest IH]; cbn; [constructor|].
  destruct (Js.dropSpacesEnd rest) as [|x rest'].
  - destruct (Js.isSpace ch); [constructor|now repeat constructor].
  - now constructor.
Qed.

Lemma wellCut_tail ch rest : wellCut (ch :: rest) -> wellCut rest.
Proof.
  intros [H1 H2]. inversion H1. subst. split; [assumption|].
  cbn in H2. destruct rest; [constructor|]. now inversion H2.
Qed.

Lemma wellCut_dropSpaces l : wellCut l -> wellCut (Js.dropSpaces l).
Proof.
  induction l as [|ch rest IH]; intros H; cbn; [exact H|].
  destruct (Js.isSpace ch); [|exact H].
  apply IH. now apply wellCut_tail with ch.
Qed.

Lemma wellCut_dropSpacesEnd l : wellCut l -> wellCut (Js.dropSpacesEnd l).
Proof.
  intros [H1 H2]. split; [now apply Forall_dropSpacesEnd|].
  destruct l as [|ch rest]; [constructor|]. cbn in *.
  pose proof (Forall_dropSpacesEnd _ _ H2) as H.
  destruct (Js.dropSpacesEnd rest) as [|x rest'].
  - destruct (Js.isSpace ch); constructor.
  - exact H.
Qed.

Lemma dropSpaces_length l : length (Js.dropSpaces l) <= length l.
Proof.
  induction l as [|ch rest IH]; cbn; [lia|].
  destruct (Js.isSpace ch); cbn; lia.
Qed.

Lemma dropSpacesEnd_length l : length (Js.dropSpacesEnd l) <= length l.
Proof.
  induction l as [|ch rest IH]; cbn; [lia|].
  destruct (Js.dropSpacesEnd rest) as [|x rest'].
  - destruct (Js.isSpace ch); cbn; lia.
  - cbn in *. lia.
Qed.

(** The characters of a trimmed text are those of the text without the
    white space at its two ends. *)
Lemma chars_trim s :
  Js.chars (Js.trim s) = Js.dropSpacesEnd (Js.dropSpaces (Js.chars s)).
Proof.
  unfold Js.trim. apply chars_join.
  apply wellCut_dropSpacesEnd, wellCut_dropSpaces, chars_wellCut.
Qed.

Lemma trim_codePoints s : Js.codePoints (Js.trim s) <= Js.codePoints s.
Proof.
  unfold Js.codePoints. rewrite chars_trim.
  pose proof (dropSpacesEnd_length (Js.dropSpaces (Js.chars s))).
  pose proof (dropSpaces_length (Js.chars s)). lia.
Qed.

Lemma filter_length_le {A : Type} (p : A -> bool) (l : list A) :
  length (filter p l) <= length l.
Proof.
  induction l as [|x l IH]; cbn; [lia|]. destruct (p x); cbn; lia.
Qed.

(** What [isLength] measures is at most the number of characters. *)
Lemma Validator_length_codePoints s : Validator.length s <= Js.codePoints s.
Proof. unfold Validator.length, Js.codePoints. apply filter_length_le. Qed.

(** ** The action route (C4, C5, C7) *)

Lemma userOf_update id upd db :
  find (fun u => String.eqb (User._id u) id)
       (User.findByIdAndUpdate id upd (Users db))
  = option_map (User.apply upd) (userOf id db).
Proof.
  unfold userOf.
  induction (Users db) as [|u rest IH]; cbn; [reflexivity|].
  destruct (String.eqb (User._id u) id) eqn:E; cbn.
  - now rewrite E.
  - now rewrite E.
Qed.

Section ActionRoute.

Variable M : Report.Model.
Variable db : Db.
Variable rq : Request.

Let a := Validator.toString (action (body rq)).
Let why := Js.trim (Validator.toString (details (body rq))).

(** What an answer 200 of the action route says about the run. *)
Lemma put_action_ok :
  code (fst (fst (ReportRouter.put_action_run M db rq))) = 200%Z ->
  exists report report',
    ReportRouter.actionValidation (body rq) = true
    /\ Report.findById (param rq) (Reports db) = Some report
    /\ Report.takeAction M report a why (user_id rq) (now rq) = Some report'
    /\ ReportRouter.put_action_run M db rq
       = let db1 := with_Reports (Report.replace report' (Reports db)) db in
         if ReportRouter.isBan a then
           (respond 200 "Action taken successfully"
              (with_Users
                 (User.findByIdAndUpdate (Report.reportedUser report')
                    (ReportRouter.banUpdate a (now rq)) (Users db1)) db1),
            Some (Report.reportedUser report',
                  ReportRouter.banUpdate a (now rq)))
         else (respond 200 "Action taken successfully" db1, None).
Proof.
  unfold ReportRouter.put_action_run. fold a why.
  destruct (ReportRouter.actionValidation (body rq)) eqn:Hv; [|discriminate].
  cbn [negb].
  destruct (ReportRouter.isModerator db rq) as [[|]|]; try discriminate.
  destruct (ObjectId.isValid (param rq)); [|discriminate]. cbn [negb].
  destruct (Report.findById (param rq) (Reports db)) as [report|] eqn:Hf;
    [|discriminate].
  destruct (Report.takeAction M report a why (user_id rq) (now rq))
    as [report'|] eqn:Ht; [|discriminate].
  intros _. exists report, report'.
  split; [reflexivity|]. split; [reflexivity|]. split; [exact Ht|].
  cbn zeta. destruct (ReportRouter.isBan a); reflexivity.
Qed.

(** A call that is not answered 200 writes nothing and calls nothing. *)
Lemma put_action_refused :
  code (fst (fst (ReportRouter.put_action_run M db rq))) <> 200%Z ->
  snd (fst (ReportRouter.put_action_run M db rq)) = db
  /\ snd (ReportRouter.put_action_run M db rq) = None.
Proof.
  unfold ReportRouter.put_action_run. fold a why.
  destruct (ReportRouter.actionValidation (body rq)); [|now split].
  cbn [negb].
  destruct (ReportRouter.isModerator db rq) as [[|]|]; try now split.
  destruct (ObjectId.isValid (param rq)); [|now split]. cbn [negb].
  destruct (Report.findById (param rq) (Reports db)) as [report|];
    [|now split].
  destruct (Report.takeAction M report a why (user_id rq) (now rq))
    as [report'|]; [|now split].
  destruct (ReportRouter.isBan a); cbn; intros H; now elim H.
Qed.

Lemma put_action_ban_calls :
  ReportRouter.isBan a = true ->
  code (fst (fst (ReportRouter.put_action_run M db rq))) = 200%Z ->
  calls (snd (ReportRouter.put_action_run M db rq)) = 1.
Proof.
  intros Hb H. destruct (put_action_ok H) as (r & r' & _ & _ & _ & E).
  rewrite E. cbn zeta. now rewrite Hb.
Qed.

End ActionRoute.

(** C4, on the code: an action call answered 200 with action temporary_ban
    or permanent_ban updates the reported user of the report once, with
    status "suspended" and, for a temporary ban, with suspendedUntil seven
    days after the clock of the call. The update of a permanent ban names
    no suspendedUntil at all: the stored path is left as it was, so a user
    who was stored with an expiry (that of an earlier temporary ban) is
    still stored with that expiry after the permanent ban, and is without
    one only when none was stored before. *)
Theorem C4_permanent_ban_keeps_stored_expiry :
  forall (M : Report.Model) (db : Db) (rq : Request),
    let a := Validator.toString (action (body rq)) in
    let run := ReportRouter.put_action_run M db rq in
    code (fst (fst run)) = 200%Z ->
    ReportRouter.isBan a = true ->
    exists report report' upd,
      Report.findById (param rq) (Reports db) = Some report
      /\ Report.takeAction M report a
           (Js.trim (Validator.toString (details (body rq))))
           (user_id rq) (now rq) = Some report'
      /\ snd run = Some (Report.reportedUser report', upd)
      /\ User.set_status upd = "suspended"
      /\ (a = "temporary_ban" ->
          User.set_suspendedUntil upd
          = Some (now rq + 7 * 24 * 60 * 60 * 1000)%Z)
      /\ (a = "permanent_ban" -> User.set_suspendedUntil upd = None)
      /\ forall u,
          userOf (Report.reportedUser report') db = Some u ->
          exists u',
            userOf (Report.reportedUser report') (snd (fst run)) = Some u'
            /\ User.status u' = "suspended"
            /\ (a = "temporary_ban" ->
                User.suspendedUntil u'
                = Some (now rq + 7 * 24 * 60 * 60 * 1000)%Z)
            /\ (a = "permanent_ban" ->
                User.suspendedUntil u' = User.suspendedUntil u
                /\ forall t, User.suspendedUntil u = Some t ->
                             User.suspendedUntil u' = Some t).
Proof.
  intros M db rq a run H Hb.
  destruct (put_action_ok M db rq H) as (r & r' & _ & Hf & Ht & E).
  fold a in Ht, E. subst run. rewrite E. cbn zeta. rewrite Hb.
  exists r, r', (ReportRouter.banUpdate a (now rq)).
  repeat split; try assumption.
  - intros ->. reflexivity.
  - intros ->. reflexivity.
  - intros u Hu. exists (User.apply (ReportRouter.banUpdate a (now rq)) u).
    split.
    + unfold userOf at 1.
      cbn [fst snd respond with_Users with_Reports Users].
      change (Users db)
        with (Users (with_Reports (Report.replace r' (Reports db)) db)) at 1.
      rewrite userOf_update.
      change (userOf (Report.reportedUser r')
                (with_Reports (Report.replace r' (Reports db)) db))
        with (userOf (Report.reportedUser r') db).
      now rewrite Hu.
    + cbn. split; [reflexivity|]. split; intros ->; [reflexivity|].
      split; [reflexivity|]. intros t Et. exact Et.
Qed.

(** The moderator bans Bob for good while Bob is under a temporary ban:
    the answer is 200 and Bob is still stored with the end of that ban. *)
Lemma C4_witness :
  let rq := ban_request "permanent_ban" 9000 in
  let run := ReportRouter.put_action_run SpecModel.model suspended_db rq in
  code (fst (fst run)) = 200%Z
  /\ ReportRouter.isBan (Validator.toString (action (body rq))) = true
  /\ exists upd u',
      snd run = Some (Sample.bob, upd)
      /\ User.set_suspendedUntil upd = None
      /\ userOf Sample.bob (snd (fst run)) = Some u'
      /\ User.status u' = "suspended"
      /\ User.suspendedUntil u' = Some 604805000%Z.
Proof.
  intros rq run.
  assert (H200 : code (fst (fst run)) = 200%Z) by (vm_compute; reflexivity).
  assert (Hban : ReportRouter.isBan (Validator.toString (action (body rq)))
                 = true) by (vm_compute; reflexivity).
  split; [exact H200|]. split; [exact Hban|].
  destruct (C4_permanent_ban_keeps_stored_expiry SpecModel.model suspended_db
              rq H200 Hban)
    as (r & r' & upd & Hf & Ht & Hc & _ & _ & Hperm & Hu).
  vm_compute in Hf. injection Hf as <-.
  vm_compute in Ht. injection Ht as <-.
  destruct (Hu (User.mk Sample.bob "bob" "user" "suspended"
                  (Some 604805000%Z) true None None None))
    as (u' & Hu' & Hst & _ & Hexp); [vm_compute; reflexivity|].
  exists upd, u'. repeat split.
  - exact Hc.
  - exact (Hperm eq_refl).
  - exact Hu'.
  - exact Hst.
  - exact (proj2 (Hexp eq_refl) _ eq_refl).
Defined.

(** C5, as the code has it: the action route keeps no idempotency key.
    Every ban call that is answered 200 makes its own update of the
    reported user, also when it repeats the report, the action and the
    actor of an earlier call: two such calls answered 200 make two updates.
    A call that is not answered 200 writes nothing. How many entries
    actionsTaken gains is decided by the model's takeAction alone. *)
Theorem C5_every_accepted_ban_updates_the_user :
  forall (M : Report.Model) (db : Db) (rq1 rq2 : Request),
    param rq2 = param rq1 ->
    action (body rq2) = action (body rq1) ->
    user_id rq2 = user_id rq1 ->
    ReportRouter.isBan (Validator.toString (action (body rq1))) = true ->
    let run1 := ReportRouter.put_action_run M db rq1 in
    let run2 := ReportRouter.put_action_run M (snd (fst run1)) rq2 in
    (code (fst (fst run2)) = 200%Z -> calls (snd run2) = 1)
    /\ (code (fst (fst run1)) = 200%Z -> code (fst (fst run2)) = 200%Z ->
        calls (snd run1) + calls (snd run2) = 2)
    /\ (code (fst (fst run2)) <> 200%Z ->
        snd (fst run2) = snd (fst run1) /\ calls (snd run2) = 0).
Proof.
  intros M db rq1 rq2 _ Ha _ Hb run1 run2.
  assert (Hb2 : ReportRouter.isBan (Validator.toString (action (body rq2)))
                = true) by now rewrite Ha.
  split; [|split].
  - intros H2. now apply put_action_ban_calls.
  - intros H1 H2.
    unfold run2, run1 in *.
    rewrite (put_action_ban_calls M db rq1 Hb H1).
    now rewrite (put_action_ban_calls M _ rq2 Hb2 H2).
  - intros H2. destruct (put_action_refused M _ rq2 H2) as [E1 E2].
    split; [exact E1|]. unfold run2. now rewrite E2.
Qed.

Lemma C5_witness :
  let run1 := ReportRouter.put_action_run SpecModel.model ban_db
                (ban_request "temporary_ban" 5000) in
  let run2 := ReportRouter.put_action_run SpecModel.model (snd (fst run1))
                (ban_request "temporary_ban" 9000) in
  calls (snd run1) + calls (snd run2) = 2.
Proof.
  intros run1 run2.
  refine (proj1 (proj2 (C5_every_accepted_ban_updates_the_user SpecModel.model
                          ban_db (ban_request "temporary_ban" 5000)
                          (ban_request "temporary_ban" 9000) _ _ _ _)) _ _).
  - reflexivity.
  - reflexivity.
  - reflexivity.
  - vm_compute. reflexivity.
  - vm_compute. reflexivity.
  - vm_compute. reflexivity.
Defined.

(** C5 as stated fails: the administrator sends the same temporary ban on
    the same report twice. Both calls are answered 200. The model's
    takeAction treats the second as a no-op, so actionsTaken holds one
    entry; the route still updates the user on each call, and the second
    update moves the end of the suspension. *)
Lemma C5_counterexample :
  let rq1 := ban_request "temporary_ban" 5000 in
  let rq2 := ban_request "temporary_ban" 9000 in
  let run1 := ReportRouter.put_action_run SpecModel.model ban_db rq1 in
  let run2 := ReportRouter.put_action_run SpecModel.model (snd (fst run1)) rq2 in
  (param rq1, action (body rq1), user_id rq1)
  = (param rq2, action (body rq2), user_id rq2)
  /\ code (fst (fst run1)) = 200%Z
  /\ code (fst (fst run2)) = 200%Z
  /\ option_map (fun r => length (Report.actionsTaken r))
       (Report.findById Sample.report1 (Reports (snd (fst run2)))) = Some 1
  /\ snd run1
     = Some (Sample.bob, User.mkUpdate "suspended" (Some 604805000%Z))
  /\ snd run2
     = Some (Sample.bob, User.mkUpdate "suspended" (Some 604809000%Z))
  /\ calls (snd run1) + calls (snd run2) <> 1
  /\ option_map User.suspendedUntil
       (User.findById Sample.bob (Users (snd (fst run1))))
     = Some (Some 604805000%Z)
  /\ option_map User.suspendedUntil
       (User.findById Sample.bob (Users (snd (fst run2))))
     = Some (Some 604809000%Z).
Proof.
  cbv zeta. repeat split. vm_compute. discriminate.
Qed.

(** C7: the action route checks the justification before anything else.
    A call whose details are absent, or count fewer than 10 characters once
    trimmed (as every text of fewer than 10 characters does), is answered
    400 "Validation failed"; the database is unchanged, the model's
    takeAction is not reached and no user is updated. A call answered 200
    had details of at least 10 characters after trimming; and a call with
    one of the six actions and details of 10 to 1000 characters after
    trimming is not answered 400. *)
Theorem C7_short_details_change_nothing :
  forall (M : Report.Model) (db : Db) (rq : Request),
    (match details (body rq) with
     | Some d => Validator.length (Js.trim d) < 10 \/ Js.codePoints d < 10
     | None => True
     end ->
     ReportRouter.put_action_run M db rq
     = (mkResponse 400 "Validation failed", db, None))
    /\ (code (fst (fst (ReportRouter.put_action_run M db rq))) = 200%Z ->
        exists d, details (body rq) = Some d
                  /\ 10 <= Validator.length (Js.trim d)
                  /\ Validator.length (Js.trim d) <= Js.codePoints (Js.trim d)
                  /\ Js.codePoints (Js.trim d) <= Js.codePoints d)
    /\ (forall d,
           Validator.isIn ReportRouter.actionValues
             (Validator.toString (action (body rq))) = true ->
           details (body rq) = Some d ->
           10 <= Validator.length (Js.trim d) <= 1000 ->
           code (fst (fst (ReportRouter.put_action_run M db rq))) <> 400%Z).
Proof.
  intros M db rq. split; [|split].
  - intros H. unfold ReportRouter.put_action_run, ReportRouter.actionValidation.
    destruct (details (body rq)) as [d|].
    + assert (Hlt : Validator.length (Js.trim d) < 10).
      { destruct H as [H|H]; [exact H|].
        pose proof (trim_codePoints d).
        pose proof (Validator_length_codePoints (Js.trim d)). lia. }
      unfold Validator.isLength.
      apply Nat.leb_gt in Hlt. rewrite Hlt.
      now rewrite Bool.andb_false_r.
    + now rewrite Bool.andb_false_r.
  - intros H. destruct (put_action_ok M db rq H) as (_ & _ & Hv & _).
    unfold ReportRouter.actionValidation in Hv.
    destruct (details (body rq)) as [d|];
      [|rewrite Bool.andb_false_r in Hv; discriminate].
    exists d. split; [reflexivity|].
    apply Bool.andb_true_iff in Hv. destruct Hv as [_ Hv].
    unfold Validator.isLength in Hv.
    apply Bool.andb_true_iff in Hv. destruct Hv as [Hv _].
    apply Nat.leb_le in Hv.
    split; [exact Hv|]. split.
    + apply Validator_length_codePoints.
    + apply trim_codePoints.
  - intros d Ha Hd [Hmin Hmax].
    unfold ReportRouter.put_action_run, ReportRouter.actionValidation,
      Validator.isLength.
    rewrite Ha, Hd.
    apply Nat.leb_le in Hmin. apply Nat.leb_le in Hmax.
    rewrite Hmin, Hmax. cbn [andb negb].
    destruct (ReportRouter.isModerator db rq) as [[|]|]; try discriminate.
    destruct (negb (ObjectId.isValid _)); [discriminate|].
    destruct (Report.findById _ _); [|discriminate].
    destruct (Report.takeAction M _ _ _ _ _); [|discriminate].
    destruct (ReportRouter.isBan _); discriminate.
Qed.

(** Nine characters of justification, ten bytes, padded with blanks and
    no-break spaces. *)
Lemma C7_witness :
  ReportRouter.put_action_run SpecModel.model ban_db
    (Sample.request Sample.admin 5000 "" Sample.report1
       (Sample.actionBody "temporary_ban" short_details))
  = (mkResponse 400 "Validation failed", ban_db, None).
Proof.
  apply (proj1 (C7_short_details_change_nothing SpecModel.model ban_db
                  (Sample.request Sample.admin 5000 "" Sample.report1
                     (Sample.actionBody "temporary_ban" short_details)))).
  left. vm_compute. lia.
Defined.

(** ** Existence of the target (C6) *)

(** The content routes write to the database only with the answer 201. *)
Lemma ContentRouter_writes_on_201 db rq :
  code (fst (ContentRouter.post_root db rq)) <> 201%Z ->
  snd (ContentRouter.post_root db rq) = db.
Proof.
  unfold ContentRouter.post_root.
  destruct (negb _); [reflexivity|].
  destruct (ContentRouter.castError _); [reflexivity|].
  destruct (negb _); [reflexivity|].
  destruct (ContentReport.findOne _ _ _ _); [reflexivity|].
  destruct (ContentReport.save _ _); [|reflexivity].
  cbn. intros H. now elim H.
Qed.

Lemma handleContentReport_writes_on_201 db rq :
  code (fst (ReportRouter.handleContentReport db rq)) <> 201%Z ->
  snd (ReportRouter.handleContentReport db rq) = db.
Proof.
  unfold ReportRouter.handleContentReport.
  destruct (_ || _ || _); [reflexivity|].
  destruct (ReportRouter.castError _); [reflexivity|].
  destruct (negb _); [reflexivity|].
  destruct (ContentReport.findOne _ _ _ _); [reflexivity|].
  destruct (ContentReport.save _ _); [|reflexivity].
  cbn. intros H. now elim H.
Qed.

(** C6, on the code: the existence check looks up posts only. A
    submission for any other kind of target (a reel, a story, a comment:
    the kinds the validators of the content-report route and the schema
    accept beside a post) never reaches a lookup: [targetExists] keeps its
    initial [false], the answer is 404 "Content not found" and nothing is
    stored, whatever the database holds; on the universal route this is so
    for every type other than "post". *)
Theorem C6_only_posts_are_found :
  forall (db : Db) (rq : Request),
    String.eqb (Validator.toString (type (body rq))) "post" = false ->
    (ContentRouter.validation (body rq) = true ->
     In (Validator.toString (type (body rq))) ["reel"; "story"; "comment"]
     /\ ContentRouter.post_root db rq = respond 404 "Content not found" db)
    /\ (Js.truthy (type (body rq)) = true ->
        Js.truthy (targetId (body rq)) = true ->
        Js.truthy (reason (body rq)) = true ->
        ReportRouter.handleContentReport db rq
        = respond 404 "Content not found" db).
Proof.
  intros db rq Hk. split.
  - intros Hv. split.
    + unfold ContentRouter.validation in Hv.
      do 4 (apply Bool.andb_true_iff in Hv; destruct Hv as [Hv _]).
      unfold Validator.isIn in Hv. apply existsb_exists in Hv.
      destruct Hv as (x & Hin & E). apply String.eqb_eq in E. subst x.
      cbn in Hin. destruct Hin as [E|Hin].
      * rewrite <- E in Hk. discriminate.
      * cbn. tauto.
    + unfold ContentRouter.post_root, ContentRouter.castError,
        ContentRouter.targetExists.
      now rewrite Hv, Hk.
  - intros H1 H2 H3.
    unfold ReportRouter.handleContentReport, ReportRouter.castError,
      ReportRouter.targetExists.
    now rewrite H1, H2, H3, Hk.
Qed.

(** Alice reports a stored reel. *)
Lemma C6_witness :
  ContentRouter.validation (body reel_request) = true
  /\ In (Validator.toString (targetId (body reel_request))) (Reels Sample.db0)
  /\ ContentRouter.post_root Sample.db0 reel_request
     = respond 404 "Content not found" Sample.db0
  /\ ReportRouter.handleContentReport Sample.db0 reel_request
     = respond 404 "Content not found" Sample.db0.
Proof.
  split; [vm_compute; reflexivity|].
  split; [simpl; left; reflexivity|].
  destruct (C6_only_posts_are_found Sample.db0 reel_request)
    as [H1 H2]; [vm_compute; reflexivity|].
  split.
  - apply H1. vm_compute. reflexivity.
  - apply H2; vm_compute; reflexivity.
Defined.

(** ** Self-reports (C8) *)

Lemma Forall_snoc {A : Type} (P : A -> Prop) (l : list A) (x : A) :
  Forall P l -> P x -> Forall P (l ++ [x])%list.
Proof.
  intros H Hx. apply Forall_app. split; [assumption|now constructor].
Qed.

Lemma User_update_ids id upd coll :
  map User._id (User.findByIdAndUpdate id upd coll) = map User._id coll.
Proof.
  induction coll as [|u rest IH]; cbn; [reflexivity|].
  destruct (String.eqb (User._id u) id); cbn; [reflexivity|now rewrite IH].
Qed.

Lemma find_same {A : Type} (p q : A -> bool) (l : list A) :
  (forall x, p x = q x) -> find p l = find q l.
Proof.
  intros H. induction l as [|x l IH]; cbn; [reflexivity|].
  now rewrite H, IH.
Qed.

Lemma cast_spells_eqb s id x :
  ObjectId.cast s = Some id -> ObjectId.spells s x = String.eqb x id.
Proof.
  unfold ObjectId.cast, ObjectId.spells.
  destruct (ObjectId.isValid s); [|discriminate].
  intros H. injection H as <-. reflexivity.
Qed.

(** A string that casts to an ObjectId finds the user of that ObjectId. *)
Lemma User_findById_cast s id db :
  ObjectId.cast s = Some id -> User.findById s (Users db) = userOf id db.
Proof.
  intros H. unfold User.findById, userOf. apply find_same.
  intros u. now apply cast_spells_eqb.
Qed.

Lemma Report_findById_cast s id db :
  ObjectId.cast s = Some id -> Report.findById s (Reports db) = reportOf id db.
Proof.
  intros H. unfold Report.findById, reportOf. apply find_same.
  intros r. now apply cast_spells_eqb.
Qed.

Lemma cast_valid s id : ObjectId.cast s = Some id -> ObjectId.isValid s = true.
Proof. unfold ObjectId.cast. now destruct (ObjectId.isValid s). Qed.

Lemma cast_ofString s id : ObjectId.cast s = Some id -> ObjectId.ofString s = id.
Proof.
  unfold ObjectId.cast. destruct (ObjectId.isValid s); [|discriminate].
  now intros H; injection H.
Qed.

Lemma valid_nonempty s : ObjectId.isValid s = true -> s <> "".
Proof. intros H ->. discriminate H. Qed.

Section SelfReports.

Variable M : Report.Model.

(** The route refuses a report whose reportedUserId is, as a string, the
    id of the caller. *)
Lemma handleUserReport_self db rq :
  reportedUserId (body rq) = Some (user_id rq) ->
  code (fst (ReportRouter.handleUserReport M db rq)) = 400%Z
  /\ snd (ReportRouter.handleUserReport M db rq) = db
  /\ (Js.truthy (reportedUserId (body rq)) = true ->
      Js.truthy (reportType (body rq)) = true ->
      Js.truthy (reason (body rq)) = true ->
      ReportRouter.handleUserReport M db rq
      = respond 400 "Cannot report yourself" db).
Proof.
  intros E. unfold ReportRouter.handleUserReport. rewrite E.
  cbn [Validator.toString]. rewrite String.eqb_refl.
  destruct (_ || _ || _) eqn:H.
  - split; [reflexivity|]. split; [reflexivity|].
    intros H1 H2 H3. rewrite H1, H2, H3 in H. discriminate.
  - split; [reflexivity|]. split; reflexivity.
Qed.

(** Another spelling of the caller's id passes the comparison of strings;
    the lookups and the constructor cast it to the caller's ObjectId. *)
Lemma handleUserReport_own_id db rq me :
  let target := Validator.toString (reportedUserId (body rq)) in
  target <> user_id rq ->
  ObjectId.cast target = Some (user_id rq) ->
  Js.truthy (reportType (body rq)) = true ->
  Js.truthy (reason (body rq)) = true ->
  userOf (user_id rq) db = Some me ->
  (forall r, In r (Reports db) ->
             Report.reporter r = user_id rq ->
             Report.reportedUser r <> user_id rq) ->
  Report.validate M (Report.new M (new_id rq) (ReportRouter.userFields rq))
  = true ->
  ReportRouter.handleUserReport M db rq
  = respond 201 "User reported successfully"
      (with_Reports
         (Reports db
          ++ [Report.new M (new_id rq) (ReportRouter.userFields rq)])%list db)
  /\ Report.reportedUser (Report.new M (new_id rq) (ReportRouter.userFields rq))
     = user_id rq.
Proof.
  intros target Hne Hc H2 H3 Hme Hnone Hv.
  pose proof (cast_valid _ _ Hc) as Hvalid.
  assert (H1 : Js.truthy (reportedUserId (body rq)) = true).
  { pose proof (valid_nonempty _ Hvalid) as Hn. subst target.
    destruct (reportedUserId (body rq)) as [x|]; cbn in *; [|congruence].
    apply String.eqb_neq in Hn. now rewrite Hn. }
  assert (Hf : Report.findOne (user_id rq) target (Reports db) = None).
  { unfold Report.findOne.
    destruct (find _ (Reports db)) as [r|] eqn:E; [|reflexivity].
    apply find_some in E. destruct E as [Hin E].
    apply Bool.andb_true_iff in E. destruct E as [Er Et].
    apply String.eqb_eq in Er.
    rewrite (cast_spells_eqb _ _ _ Hc) in Et. apply String.eqb_eq in Et.
    now elim (Hnone r Hin Er). }
  split.
  - unfold ReportRouter.handleUserReport. fold target.
    rewrite H1, H2, H3. cbn [negb orb].
    apply String.eqb_neq in Hne. rewrite Hne, Hvalid. cbn [negb].
    rewrite (User_findById_cast _ _ _ Hc), Hme, Hf.
    unfold Report.insert. now rewrite Hv.
  - cbn. fold target. now apply cast_ofString.
Qed.

End SelfReports.

(** C8, on the code: the user-report handler compares the reportedUserId of
    the body with the caller's id as strings, and answers 400 "Cannot
    report yourself", storing nothing, when the two strings are equal. The
    lookups and the constructor that follow cast the string to an ObjectId:
    a reportedUserId that spells the caller's own ObjectId in another way
    (a hexadecimal digit in upper case) passes the comparison, finds the
    caller, and is stored as a report whose reported user is its
    reporter. *)
Theorem C8_self_report_by_another_spelling :
  forall (M : Report.Model) (db : Db) (rq : Request),
    let target := Validator.toString (reportedUserId (body rq)) in
    (reportedUserId (body rq) = Some (user_id rq) ->
     code (fst (ReportRouter.handleUserReport M db rq)) = 400%Z
     /\ snd (ReportRouter.handleUserReport M db rq) = db
     /\ (Js.truthy (reportedUserId (body rq)) = true ->
         Js.truthy (reportType (body rq)) = true ->
         Js.truthy (reason (body rq)) = true ->
         ReportRouter.handleUserReport M db rq
         = respond 400 "Cannot report yourself" db))
    /\ (target <> user_id rq ->
        ObjectId.cast target = Some (user_id rq) ->
        Js.truthy (reportType (body rq)) = true ->
        Js.truthy (reason (body rq)) = true ->
        (exists me, userOf (user_id rq) db = Some me) ->
        (forall r, In r (Reports db) ->
                   Report.reporter r = user_id rq ->
                   Report.reportedUser r <> user_id rq) ->
        Report.validate M
          (Report.new M (new_id rq) (ReportRouter.userFields rq)) = true ->
        exists r,
          ReportRouter.handleUserReport M db rq
          = respond 201 "User reported successfully"
              (with_Reports (Reports db ++ [r])%list db)
          /\ Report.reporter r = user_id rq
          /\ Report.reportedUser r = user_id rq).
Proof.
  intros M db rq target. split.
  - apply handleUserReport_self.
  - intros Hne Hc H2 H3 [me Hme] Hnone Hv.
    destruct (handleUserReport_own_id M db rq me Hne Hc H2 H3 Hme Hnone Hv)
      as [E Ht].
    eexists. split; [exact E|]. split; [reflexivity|exact Ht].
Qed.

(** Alice reports her own id, its one letter written in upper case. *)
Lemma C8_witness :
  exists r,
    ReportRouter.post_root SpecModel.model Sample.db0 own_id_request
    = respond 201 "User reported successfully" (with_Reports [r] Sample.db0)
    /\ Report.reporter r = Sample.alice
    /\ Report.reportedUser r = Sample.alice.
Proof.
  destruct (proj2 (C8_self_report_by_another_spelling SpecModel.model
                     Sample.db0 own_id_request))
    as (r & E & Hr & Ht).
  - vm_compute. discriminate.
  - vm_compute. reflexivity.
  - reflexivity.
  - reflexivity.
  - eexists. vm_compute. reflexivity.
  - intros r [].
  - vm_compute. reflexivity.
  - exists r. repeat split; assumption.
Defined.

(** ** What is stored as the reason (C9) *)

Lemma isIn_In values s : Validator.isIn values s = true -> In s values.
Proof.
  unfold Validator.isIn. intros H. apply existsb_exists in H.
  destruct H as (x & Hin & E). apply String.eqb_eq in E. now subst.
Qed.

(** A value of the taxonomy is its own normal form. *)
Lemma taxonomy_normal s :
  In s ContentReport.reportTypes -> Js.replaceSpaces (Js.toLowerCase s) = s.
Proof.
  cbn. intros H.
  repeat (destruct H as [<-|H]; [vm_compute; reflexivity|]). contradiction.
Qed.


Lemma validation_parts b :
  ContentRouter.validation b = true ->
  In (Validator.toString (type b)) ContentReport.targetTypes
  /\ Validator.isMongoId (Validator.toString (targetId b)) = true
  /\ In (Validator.toString (reason b)) ContentReport.reportTypes
  /\ optional (fun s => Validator.isLength 0 500 (Js.trim s)) (additionalInfo b)
     = true
  /\ optional (ContentReport.enumOk ContentReport.tiers) (severity b) = true.
Proof.
  unfold ContentRouter.validation. intros H.
  repeat (apply Bool.andb_true_iff in H; destruct H as [H ?]).
  repeat split; try assumption; now apply isIn_In.
Qed.

Lemma severity_default_ok (v : option JsValue) :
  optional (ContentReport.enumOk ContentReport.tiers) v = true ->
  ContentReport.enumOk ContentReport.tiers
    match v with Some x => x | None => JStr "medium" end = true.
Proof. destruct v; [now intros H|reflexivity]. Qed.


(** The schema accepts what the universal route builds from a body without
    additionalInfo whose type is a kind of target, whose reason text gives
    a value of the taxonomy and has at most 1000 code units, and whose
    severity, if any, is a tier. *)
Lemma contentFields_valid rq :
  additionalInfo (body rq) = None ->
  Validator.isIn ContentReport.targetTypes (Validator.toString (type (body rq)))
  = true ->
  Js.truthy (reason (body rq)) = true ->
  Validator.isIn ContentReport.reportTypes
    (Js.replaceSpaces (Js.toLowerCase (Validator.toString (reason (body rq)))))
  = true ->
  Js.length (Validator.toString (reason (body rq))) <= 1000 ->
  optional (ContentReport.enumOk ContentReport.tiers) (severity (body rq))
  = true ->
  ContentReport.validate
    (ContentReport.new (new_id rq) (ReportRouter.contentFields rq)) = true.
Proof.
  intros Hinfo Hty Hr Hnorm Hlen Hsev.
  unfold ContentReport.validate, ContentReport.new, ReportRouter.contentFields.
  cbn [ContentReport.targetType ContentReport.reportType ContentReport.reason
       ContentReport.additionalInfo ContentReport.severity
       ContentReport.status ContentReport.priority ContentReport.adminNotes
       ContentReport.actionsTaken ContentReport.f_targetType
       ContentReport.f_reportType ContentReport.f_reason
       ContentReport.f_additionalInfo ContentReport.f_severity].
  rewrite Hinfo. cbn [Js.or_else ContentReport.maxLengthOk forallb].
  rewrite Hty, Hnorm, (severity_default_ok _ Hsev).
  apply Nat.leb_le in Hlen. rewrite Hlen.
  assert (Hne : String.eqb (Validator.toString (reason (body rq))) "" = false).
  { destruct (reason (body rq)) as [x|]; cbn in *; [|discriminate].
    now destruct (String.eqb x ""). }
  rewrite Hne. reflexivity.
Qed.





(** ** Dispatch of the universal route (C10) *)

(** C10: the universal route hands a body with a non-empty type and a
    non-empty targetId to the content-report handler; any other body with
    a non-empty reportedUserId to the user-report handler; and answers
    every other body with 400 and the invalid-format message, storing
    nothing. *)
Theorem C10_universal_route_dispatch :
  forall (M : Report.Model) (db : Db) (rq : Request),
    let b := body rq in
    let content := Js.truthy (type b) && Js.truthy (targetId b) in
    (content = true ->
     ReportRouter.post_root M db rq = ReportRouter.handleContentReport db rq)
    /\ (content = false -> Js.truthy (reportedUserId b) = true ->
        ReportRouter.post_root M db rq = ReportRouter.handleUserReport M db rq)
    /\ (content = false -> Js.truthy (reportedUserId b) = false ->
        ReportRouter.post_root M db rq
        = (mkResponse 400 ReportRouter.invalidFormat, db)).
Proof.
  intros M db rq b content. unfold ReportRouter.post_root. fold b content.
  repeat split.
  - intros ->. reflexivity.
  - intros -> ->. reflexivity.
  - intros -> ->. reflexivity.
Qed.

Lemma C10_witness :
  ReportRouter.post_root SpecModel.model Sample.db0 malformed_request
  = (mkResponse 400 ReportRouter.invalidFormat, Sample.db0).
Proof.
  refine (proj2 (proj2 (C10_universal_route_dispatch SpecModel.model Sample.db0
                          malformed_request)) _ _).
  - reflexivity.
  - reflexivity.
Defined.

(** * Further properties of the routes *)

(** ** User reports through the universal route *)

Lemma User_findById_In id coll u :
  User.findById id coll = Some u ->
  In u coll /\ ObjectId.cast id = Some (User._id u).
Proof.
  unfold User.findById. intros H. apply find_some in H.
  destruct H as [Hin H]. split; [exact Hin|]. now apply spells_cast.
Qed.

Section UserReports.

Variable M : Report.Model.
Variable db : Db.
Variable rq : Request.

Let target := Validator.toString (reportedUserId (body rq)).

(** What an answer 201 of the user-report handler says about the run. *)
Lemma handleUserReport_accepted :
  code (fst (ReportRouter.handleUserReport M db rq)) = 201%Z ->
  Js.truthy (reportedUserId (body rq)) = true
  /\ Js.truthy (reportType (body rq)) = true
  /\ Js.truthy (reason (body rq)) = true
  /\ String.eqb target (user_id rq) = false
  /\ (exists u, User.findById target (Users db) = Some u)
  /\ Report.findOne (user_id rq) target (Reports db) = None
  /\ Report.validate M (Report.new M (new_id rq) (ReportRouter.userFields rq))
     = true
  /\ ReportRouter.handleUserReport M db rq
     = respond 201 "User reported successfully"
         (with_Reports
            (Reports db
             ++ [Report.new M (new_id rq) (ReportRouter.userFields rq)])%list
            db).
Proof.
  unfold ReportRouter.handleUserReport. fold target.
  destruct (Js.truthy (reportedUserId (body rq))); [|discriminate].
  destruct (Js.truthy (reportType (body rq))); [|discriminate].
  destruct (Js.truthy (reason (body rq))); [|discriminate].
  cbn [negb orb].
  destruct (String.eqb target (user_id rq)); [discriminate|].
  destruct (ObjectId.isValid target); [|discriminate]. cbn [negb].
  destruct (User.findById target (Users db)) as [u|]; [|discriminate].
  destruct (Report.findOne (user_id rq) target (Reports db)); [discriminate|].
  unfold Report.insert.
  destruct (Report.validate M _) eqn:Hv; [|discriminate].
  intros _. repeat split; try reflexivity. now exists u.
Qed.

Lemma handleUserReport_duplicate r :
  In r (Reports db) ->
  Report.reporter r = user_id rq ->
  ObjectId.spells target (Report.reportedUser r) = true ->
  Js.truthy (reportedUserId (body rq)) = true ->
  Js.truthy (reportType (body rq)) = true ->
  Js.truthy (reason (body rq)) = true ->
  target <> user_id rq ->
  (exists u, User.findById target (Users db) = Some u) ->
  ReportRouter.handleUserReport M db rq
  = respond 400 "You have already reported this user" db.
Proof.
  intros Hin Hr Ht H1 H2 H3 Hne [u Hu].
  unfold ReportRouter.handleUserReport. fold target.
  rewrite H1, H2, H3. cbn [negb orb].
  apply String.eqb_neq in Hne.
  rewrite Hne, (spells_valid _ _ Ht), Hu. cbn [negb].
  assert (Hm : (fun x => String.eqb (Report.reporter x) (user_id rq)
                         && ObjectId.spells target (Report.reportedUser x)) r
               = true).
  { cbn. now rewrite Hr, Ht, String.eqb_refl. }
  destruct (find_In_some _ _ _ Hin Hm) as [y Hy].
  unfold Report.findOne. now rewrite Hy.
Qed.

End UserReports.

(** X1: a stored user report of the caller against the user that the
    reportedUserId of the body spells answers every later report of the
    caller against that user with 400 "You have already reported this
    user" and stores nothing, whatever the status of the stored report; the
    handler answers 201 only when no report of the caller against that user
    is stored. *)
Theorem X1_user_report_duplicate_whatever_status :
  forall (M : Report.Model) (db : Db) (rq : Request) (r : Report.t),
    let target := Validator.toString (reportedUserId (body rq)) in
    In r (Reports db) ->
    Report.reporter r = user_id rq ->
    ObjectId.spells target (Report.reportedUser r) = true ->
    (Js.truthy (reportedUserId (body rq)) = true ->
     Js.truthy (reportType (body rq)) = true ->
     Js.truthy (reason (body rq)) = true ->
     target <> user_id rq ->
     (exists u, User.findById target (Users db) = Some u) ->
     ReportRouter.handleUserReport M db rq
     = respond 400 "You have already reported this user" db)
    /\ code (fst (ReportRouter.handleUserReport M db rq)) <> 201%Z.
Proof.
  intros M db rq r target Hin Hr Ht. split.
  - now apply handleUserReport_duplicate with r.
  - intros H.
    destruct (handleUserReport_accepted M db rq H) as (_ & _ & _ & _ & _ & Hf & _).
    unfold Report.findOne in Hf.
    pose proof (find_none _ _ Hf r Hin) as E. cbn in E.
    fold target in E. rewrite Hr, Ht, String.eqb_refl in E. discriminate.
Qed.

Lemma X1_witness :
  ReportRouter.handleUserReport SpecModel.model
    (with_Reports [Sample.aliceOnBob Sample.report1 "dismissed" []] Sample.db0)
    report_bob_request
  = respond 400 "You have already reported this user"
      (with_Reports [Sample.aliceOnBob Sample.report1 "dismissed" []] Sample.db0).
Proof.
  refine (proj1 (X1_user_report_duplicate_whatever_status SpecModel.model
                   (with_Reports
                      [Sample.aliceOnBob Sample.report1 "dismissed" []]
                      Sample.db0)
                   report_bob_request
                   (Sample.aliceOnBob Sample.report1 "dismissed" []) _ _ _)
            _ _ _ _ _).
  - simpl. left. reflexivity.
  - reflexivity.
  - reflexivity.
  - reflexivity.
  - reflexivity.
  - reflexivity.
  - vm_compute. discriminate.
  - eexists. vm_compute. reflexivity.
Defined.

(** X2: a user report that is answered 201 is stored last in the report
    collection with the caller as reporter and, as reported user, the
    ObjectId that the reportedUserId of the body casts to, which is the
    [_id] of a stored user; that reportedUserId is not, as a string, the
    caller's id. Its category is "behavior" unless the body gives one, its
    severity is 5 unless the body gives a truthy one, it has the status the
    schema starts with and an empty actionsTaken; nothing else in the
    database changes. *)
Theorem X2_accepted_user_report :
  forall (M : Report.Model) (db : Db) (rq : Request),
    let target := Validator.toString (reportedUserId (body rq)) in
    let db' := snd (ReportRouter.handleUserReport M db rq) in
    code (fst (ReportRouter.handleUserReport M db rq)) = 201%Z ->
    exists r,
      Reports db' = (Reports db ++ [r])%list
      /\ Report._id r = new_id rq
      /\ Report.reporter r = user_id rq
      /\ ObjectId.cast target = Some (Report.reportedUser r)
      /\ (exists u, In u (Users db) /\ User._id u = Report.reportedUser r)
      /\ target <> user_id rq
      /\ (Js.truthy (category (body rq)) = false ->
          Report.category r = "behavior")
      /\ (JsValue_truthy_opt (severity (body rq)) = false ->
          Report.severity r = JNum 5)
      /\ JsValue_truthy (Report.severity r) = true
      /\ Report.status r = Report.default_status M
      /\ Report.actionsTaken r = []
      /\ Users db' = Users db
      /\ Posts db' = Posts db
      /\ ContentReports db' = ContentReports db.
Proof.
  intros M db rq target db' H.
  destruct (handleUserReport_accepted M db rq H)
    as (_ & _ & _ & Hne & [u Hu] & _ & _ & E).
  apply User_findById_In in Hu. destruct Hu as [Hin Hc].
  fold target in Hc.
  subst db'. rewrite E.
  exists (Report.new M (new_id rq) (ReportRouter.userFields rq)).
  cbn. fold target. rewrite (cast_ofString _ _ Hc).
  repeat split; try reflexivity.
  - exact Hc.
  - now exists u.
  - now apply String.eqb_neq.
  - unfold Js.truthy, Js.or_else.
    destruct (category (body rq)) as [s|]; [|reflexivity].
    destruct (String.eqb s ""); [reflexivity|discriminate].
  - destruct (severity (body rq)) as [v|]; [|reflexivity].
    cbn. now intros ->.
  - destruct (severity (body rq)) as [v|]; [|reflexivity].
    destruct (JsValue_truthy v) eqn:Ev; [exact Ev|reflexivity].
Qed.

Lemma X2_witness :
  exists r,
    Reports (snd (ReportRouter.handleUserReport SpecModel.model Sample.db0
                    report_bob_request)) = [r]
    /\ Report.reporter r = Sample.alice
    /\ Report.reportedUser r = Sample.bob
    /\ Report.category r = "behavior"
    /\ Report.severity r = JNum 5
    /\ Report.status r = "pending".
Proof.
  destruct (X2_accepted_user_report SpecModel.model Sample.db0
              report_bob_request)
    as (r & Hs & _ & Hr & Ht & _ & _ & Hc & Hv & _ & Hst & _);
    [vm_compute; reflexivity|].
  exists r. repeat split.
  - exact Hs.
  - exact Hr.
  - vm_compute in Ht. now injection Ht.
  - apply Hc. reflexivity.
  - apply Hv. reflexivity.
  - exact Hst.
Defined.

(** ** Who may act on a report *)

Lemma isModerator_role db rq :
  (forall u, User.findById (user_id rq) (Users db) = Some u ->
             User.role u <> "admin" /\ User.role u <> "moderator") ->
  ReportRouter.isModerator db rq <> Some true.
Proof.
  intros H. unfold ReportRouter.isModerator.
  destruct (User.findById (user_id rq) (Users db)) as [u|]; [|discriminate].
  destruct (H u eq_refl) as [Ha Hm].
  apply String.eqb_neq in Ha. apply String.eqb_neq in Hm.
  rewrite Ha, Hm. discriminate.
Qed.

(** X3: a caller who is not stored with the role admin or moderator
    changes nothing through the status route and the action route: the
    database is as before, no user is updated, and the answer is not 200;
    when the caller is a stored user and the body passes the validators,
    the answer is 403 with the access-denied message. *)
Theorem X3_only_moderators_act :
  forall (M : Report.Model) (db : Db) (rq : Request),
    (forall u, User.findById (user_id rq) (Users db) = Some u ->
               User.role u <> "admin" /\ User.role u <> "moderator") ->
    (ReportRouter.put_action_run M db rq
     = (fst (fst (ReportRouter.put_action_run M db rq)), db, None)
     /\ code (fst (fst (ReportRouter.put_action_run M db rq))) <> 200%Z
     /\ snd (ReportRouter.put_status M db rq) = db
     /\ code (fst (ReportRouter.put_status M db rq)) <> 200%Z)
    /\ ((exists u, User.findById (user_id rq) (Users db) = Some u) ->
        (ReportRouter.actionValidation (body rq) = true ->
         fst (fst (ReportRouter.put_action_run M db rq))
         = mkResponse 403 ReportRouter.accessDenied)
        /\ (Validator.isIn ReportRouter.statusValues
              (Validator.toString (status (body rq))) = true ->
            fst (ReportRouter.put_status M db rq)
            = mkResponse 403 ReportRouter.accessDenied)).
Proof.
  intros M db rq H. pose proof (isModerator_role db rq H) as Hm.
  split.
  - unfold ReportRouter.put_action_run, ReportRouter.put_status.
    destruct (ReportRouter.actionValidation (body rq));
      destruct (Validator.isIn ReportRouter.statusValues _);
      destruct (ReportRouter.isModerator db rq) as [[|]|];
      cbn; try (now elim Hm); repeat split; discriminate.
  - intros [u Hu]. unfold ReportRouter.put_action_run, ReportRouter.put_status.
    unfold ReportRouter.isModerator in *. rewrite Hu in *.
    destruct (String.eqb (User.role u) "admin" || String.eqb (User.role u) "moderator");
      [now elim Hm|].
    split; intros ->; reflexivity.
Qed.

Lemma X3_witness :
  fst (fst (ReportRouter.put_action_run SpecModel.model ban_db
              (Sample.request Sample.alice 5000 "" Sample.report1
                 (Sample.actionBody "permanent_ban"
                    "repeated harassment confirmed"))))
  = mkResponse 403 ReportRouter.accessDenied.
Proof.
  refine (proj1 (proj2 (X3_only_moderators_act SpecModel.model ban_db
                          (Sample.request Sample.alice 5000 "" Sample.report1
                             (Sample.actionBody "permanent_ban"
                                "repeated harassment confirmed")) _) _) _).
  - intros u Hu. vm_compute in Hu. injection Hu as <-.
    split; discriminate.
  - eexists. vm_compute. reflexivity.
  - vm_compute. reflexivity.
Defined.

(** ** What the action route leaves alone *)

Lemma userOf_update_other id t upd db :
  id <> t ->
  userOf id (with_Users (User.findByIdAndUpdate t upd (Users db)) db)
  = userOf id db.
Proof.
  intros Hne. unfold userOf. cbn [Users with_Users].
  induction (Users db) as [|u rest IH]; cbn; [reflexivity|].
  destruct (String.eqb (User._id u) t) eqn:Et; cbn.
  - apply String.eqb_eq in Et.
    assert (E : String.eqb (User._id u) id = false).
    { apply String.eqb_neq. congruence. }
    now rewrite E.
  - destruct (String.eqb (User._id u) id); [reflexivity|exact IH].
Qed.

Lemma User_update_roles t upd coll :
  map User.role (User.findByIdAndUpdate t upd coll) = map User.role coll.
Proof.
  induction coll as [|u rest IH]; cbn; [reflexivity|].
  destruct (String.eqb (User._id u) t); cbn; [reflexivity|now rewrite IH].
Qed.

(** The action route either refuses, or runs as [put_action_ok] says. *)
Lemma put_action_cases M db rq :
  (ReportRouter.put_action_run M db rq
   = (fst (fst (ReportRouter.put_action_run M db rq)), db, None))
  \/ (exists report',
        let a := Validator.toString (action (body rq)) in
        let db1 := with_Reports (Report.replace report' (Reports db)) db in
        ReportRouter.put_action_run M db rq
        = if ReportRouter.isBan a then
            (respond 200 "Action taken successfully"
               (with_Users
                  (User.findByIdAndUpdate (Report.reportedUser report')
                     (ReportRouter.banUpdate a (now rq)) (Users db1)) db1),
             Some (Report.reportedUser report',
                   ReportRouter.banUpdate a (now rq)))
          else (respond 200 "Action taken successfully" db1, None)).
Proof.
  destruct (Z.eq_dec (code (fst (fst (ReportRouter.put_action_run M db rq))))
              200) as [H|H].
  - right. destruct (put_action_ok M db rq H) as (r & r' & _ & _ & _ & E).
    exists r'. exact E.
  - left. destruct (put_action_refused M db rq H) as [E1 E2].
    destruct (ReportRouter.put_action_run M db rq) as [[res d] c].
    cbn in *. now subst.
Qed.

(** X4: the action route never adds, removes or renames a user and never
    changes a role; it writes no post and no content report; with an action
    other than a ban it leaves the users as they are, and with a ban every
    user other than the one it names in its update stays as stored. *)
Theorem X4_action_touches_one_user :
  forall (M : Report.Model) (db : Db) (rq : Request),
    let run := ReportRouter.put_action_run M db rq in
    let db' := snd (fst run) in
    Posts db' = Posts db
    /\ ContentReports db' = ContentReports db
    /\ map User._id (Users db') = map User._id (Users db)
    /\ map User.role (Users db') = map User.role (Users db)
    /\ (ReportRouter.isBan (Validator.toString (action (body rq))) = false ->
        Users db' = Users db /\ snd run = None)
    /\ (forall id,
           (forall t upd, snd run = Some (t, upd) -> id <> t) ->
           userOf id db' = userOf id db).
Proof.
  intros M db rq run db'. subst db' run.
  destruct (put_action_cases M db rq) as [E|[r' E]].
  - rewrite E. cbn. repeat split; reflexivity.
  - cbn zeta in E. rewrite E.
    destruct (ReportRouter.isBan _); cbn.
    + repeat split; try reflexivity.
      * apply User_update_ids.
      * apply User_update_roles.
      * discriminate.
      * discriminate.
      * intros id Hid.
        apply (userOf_update_other id _ _
                 (with_Reports (Report.replace r' (Reports db)) db)).
        now apply (Hid _ _ eq_refl).
    + repeat split; reflexivity.
Qed.

(** ** The report type the universal route stores *)

Lemma lowerChar_not_upper c : isUpper (Js.lowerChar c) = false.
Proof. destruct c as [[] [] [] [] [] [] [] []]; reflexivity. Qed.

Lemma lowerChar_fixed c : isUpper c = false -> Js.lowerChar c = c.
Proof. unfold isUpper, Js.lowerChar. cbn zeta. now intros ->. Qed.

Lemma lowerChar_ascii c :
  Nat.ltb (nat_of_ascii c) 128 = true ->
  Nat.ltb (nat_of_ascii (Js.lowerChar c)) 128 = true.
Proof. destruct c as [[] [] [] [] [] [] [] []]; intros H; try exact H; reflexivity. Qed.

Lemma toLowerCase_noUpper s : noUpper (Js.toLowerCase s) = true.
Proof.
  induction s as [|c r IH]; cbn; [reflexivity|].
  rewrite lowerChar_not_upper. exact IH.
Qed.

Lemma toLowerCase_ascii s :
  Js.isAscii s = true -> Js.isAscii (Js.toLowerCase s) = true.
Proof.
  unfold Js.isAscii.
  induction s as [|c r IH]; cbn [Js.allBytes Js.toLowerCase]; [reflexivity|].
  intros H. apply Bool.andb_true_iff in H. destruct H as [Hc Hr].
  rewrite (lowerChar_ascii c Hc). now apply IH.
Qed.

Lemma toLowerCase_fixed s : noUpper s = true -> Js.toLowerCase s = s.
Proof.
  induction s as [|c r IH]; cbn; [reflexivity|].
  intros H. apply Bool.andb_true_iff in H. destruct H as [Hc Hr].
  apply Bool.negb_true_iff in Hc.
  now rewrite (lowerChar_fixed c Hc), (IH Hr).
Qed.

Lemma allBytes_app p a b :
  Js.allBytes p (a ++ b) = Js.allBytes p a && Js.allBytes p b.
Proof.
  induction a as [|c a IH]; cbn; [reflexivity|].
  now rewrite IH, Bool.andb_assoc.
Qed.

Lemma allBytes_join p l :
  Js.allBytes p (Js.join l) = forallb (Js.allBytes p) l.
Proof.
  induction l as [|ch l IH]; [reflexivity|].
  change (Js.join (ch :: l)) with (ch ++ Js.join l).
  rewrite allBytes_app, IH. reflexivity.
Qed.

Lemma allBytes_chars p s :
  forallb (Js.allBytes p) (Js.chars s) = Js.allBytes p s.
Proof. now rewrite <- allBytes_join, join_chars. Qed.

Lemma Forall_replaceSpacesFrom (P : string -> Prop) b l :
  P "_" -> Forall P l -> Forall P (Js.replaceSpacesFrom b l).
Proof.
  intros Hu H. revert b.
  induction H as [|ch rest Hch Hrest IH]; intros b; cbn; [constructor|].
  destruct (Js.isSpace ch).
  - destruct b; [apply IH|constructor; [exact Hu|apply IH]].
  - constructor; [exact Hch|apply IH].
Qed.

Lemma forallb_replaceSpacesFrom (q : string -> bool) b l :
  q "_" = true -> forallb q l = true ->
  forallb q (Js.replaceSpacesFrom b l) = true.
Proof.
  intros Hu H. apply forallb_forall. rewrite forallb_forall in H.
  apply Forall_forall. apply Forall_replaceSpacesFrom; [exact Hu|].
  now apply Forall_forall.
Qed.

Lemma wellCut_replaceSpacesFrom b l :
  wellCut l -> wellCut (Js.replaceSpacesFrom b l).
Proof.
  intros [H1 H2]. split.
  - apply Forall_replaceSpacesFrom; [reflexivity|exact H1].
  - destruct l as [|ch rest]; [constructor|]. cbn in *.
    pose proof (Forall_replaceSpacesFrom
                  (fun ch => Js.continues ch = false) true rest eq_refl H2).
    pose proof (Forall_replaceSpacesFrom
                  (fun ch => Js.continues ch = false) false rest eq_refl H2).
    destruct (Js.isSpace ch); [destruct b|]; cbn; try assumption.
    destruct (Js.replaceSpacesFrom true rest) as [|x l']; [constructor|].
    now inversion H.
Qed.

(** The characters of the text with its white space replaced. *)
Lemma chars_replaceSpaces s :
  Js.chars (Js.replaceSpaces s) = Js.replaceSpacesFrom false (Js.chars s).
Proof.
  unfold Js.replaceSpaces. apply chars_join.
  apply wellCut_replaceSpacesFrom, chars_wellCut.
Qed.

Lemma replaceSpacesFrom_noSpace b l :
  forallb (fun ch => negb (Js.isSpace ch)) (Js.replaceSpacesFrom b l) = true.
Proof.
  revert b. induction l as [|ch rest IH]; intros b; cbn; [reflexivity|].
  destruct (Js.isSpace ch) eqn:E.
  - destruct b; [apply IH|].
    cbn. now rewrite IH.
  - cbn. rewrite E. cbn. apply IH.
Qed.

Lemma replaceSpacesFrom_fixed b l :
  forallb (fun ch => negb (Js.isSpace ch)) l = true ->
  Js.replaceSpacesFrom b l = l.
Proof.
  revert b. induction l as [|ch rest IH]; intros b; cbn; [reflexivity|].
  intros H. apply Bool.andb_true_iff in H. destruct H as [Hc Hr].
  apply Bool.negb_true_iff in Hc. rewrite Hc. now rewrite (IH false Hr).
Qed.

Lemma replaceSpaces_allBytes p s :
  p "_"%char = true -> Js.allBytes p s = true ->
  Js.allBytes p (Js.replaceSpaces s) = true.
Proof.
  intros Hu H. unfold Js.replaceSpaces. rewrite allBytes_join.
  apply forallb_replaceSpacesFrom; [cbn; now rewrite Hu|].
  now rewrite allBytes_chars.
Qed.

(** X5: for a reason text of ASCII characters, where the lower-casing of
    the embedding is that of JavaScript, the report type the universal
    route derives from it holds no white space and no upper-case letter, is
    again a text of ASCII characters, and is its own normal form: deriving
    it again changes it no more. *)
Theorem X5_report_type_normal_form :
  forall (rq : Request),
    let text := Validator.toString (reason (body rq)) in
    let stored := ContentReport.f_reportType (ReportRouter.contentFields rq) in
    Js.isAscii text = true ->
    noSpace stored = true
    /\ noUpper stored = true
    /\ Js.isAscii stored = true
    /\ Js.replaceSpaces (Js.toLowerCase stored) = stored.
Proof.
  intros rq text stored Hascii. subst stored. cbn. fold text.
  assert (Hs : noSpace (Js.replaceSpaces (Js.toLowerCase text)) = true).
  { unfold noSpace. rewrite chars_replaceSpaces.
    apply replaceSpacesFrom_noSpace. }
  assert (Hu : noUpper (Js.replaceSpaces (Js.toLowerCase text)) = true).
  { apply replaceSpaces_allBytes; [reflexivity|apply toLowerCase_noUpper]. }
  repeat split.
  - exact Hs.
  - exact Hu.
  - apply replaceSpaces_allBytes; [reflexivity|].
    now apply toLowerCase_ascii.
  - rewrite (toLowerCase_fixed _ Hu).
    change (Js.join (Js.replaceSpacesFrom false
                       (Js.chars (Js.replaceSpaces (Js.toLowerCase text))))
            = Js.replaceSpaces (Js.toLowerCase text)).
    rewrite (replaceSpacesFrom_fixed false _ Hs). apply join_chars.
Qed.

Lemma X5_witness :
  ContentReport.f_reportType (ReportRouter.contentFields bare_reason_request)
  = "inappropriate_content"
  /\ Js.replaceSpaces (Js.toLowerCase "inappropriate_content")
     = "inappropriate_content".
Proof.
  split; [reflexivity|].
  exact (proj2 (proj2 (proj2 (X5_report_type_normal_form bare_reason_request
                                eq_refl)))).
Defined.

(** ** The two content-report routes side by side *)

Lemma isMongoId_truthy s : Validator.isMongoId s = true -> s <> "".
Proof.
  unfold Validator.isMongoId. intros H -> . cbn in H. discriminate.
Qed.

Lemma truthy_toString v : Validator.toString v <> "" -> Js.truthy v = true.
Proof.
  destruct v as [s|]; cbn; [|congruence].
  intros H. apply String.eqb_neq in H. now rewrite H.
Qed.

Lemma targetTypes_nonempty s : In s ContentReport.targetTypes -> s <> "".
Proof.
  cbn. intros H. repeat (destruct H as [<-|H]; [discriminate|]). contradiction.
Qed.

Lemma reportTypes_bounds s :
  In s ContentReport.reportTypes ->
  s <> "" /\ Js.length s <= 1000.
Proof.
  cbn. intros H.
  repeat (destruct H as [<-|H]; [split; [discriminate|vm_compute; lia]|]).
  contradiction.
Qed.

(** A body without additionalInfo that the validated route accepts is
    accepted by the content handler of the universal route. *)
Lemma validated_then_universal db rq :
  additionalInfo (body rq) = None ->
  code (fst (ContentRouter.post_root db rq)) = 201%Z ->
  ReportRouter.handleContentReport db rq
  = respond 201 "Content reported successfully"
      (with_ContentReports
         (ContentReports db
          ++ [ContentReport.new (new_id rq) (ReportRouter.contentFields rq)])%list
         db)
  /\ ContentReport.f_reportType (ReportRouter.contentFields rq)
     = Validator.toString (reason (body rq)).
Proof.
  intros Hinfo H.
  pose proof (ContentRouter_accepted_fresh db rq H) as Hfresh.
  destruct (ContentRouter_accepted db rq H) as (Hv & Ht & Hval & _).
  destruct (validation_parts _ Hv) as (Hty & Hid & Hre & _ & Hsev).
  pose proof (reportTypes_bounds _ Hre) as [Hne Hlen].
  assert (Hnorm : ContentReport.f_reportType (ReportRouter.contentFields rq)
                  = Validator.toString (reason (body rq))).
  { cbn. now apply taxonomy_normal. }
  split; [|exact Hnorm].
  assert (Htr : Js.truthy (reason (body rq)) = true)
    by exact (truthy_toString _ Hne).
  unfold ReportRouter.handleContentReport.
  rewrite (truthy_toString _ (targetTypes_nonempty _ Hty)).
  rewrite (truthy_toString _ (isMongoId_truthy _ Hid)).
  rewrite Htr. cbn [negb orb].
  change (ReportRouter.castError (body rq))
    with (ContentRouter.castError (body rq)).
  change (ReportRouter.targetExists db (body rq))
    with (ContentRouter.targetExists db (body rq)).
  rewrite (ContentRouter_exists_cast _ _ Ht), Ht. cbn [negb].
  destruct (ContentReport.findOne _ _ _ _) as [y|] eqn:Ef.
  { unfold ContentReport.findOne in Ef. apply find_some in Ef.
    destruct Ef as [Hin Hm]. rewrite (Hfresh y Hin) in Hm. discriminate. }
  unfold ContentReport.save.
  rewrite contentFields_valid; try assumption.
  - reflexivity.
  - unfold Validator.isIn. apply existsb_exists.
    exists (Validator.toString (type (body rq))).
    split; [exact Hty|apply String.eqb_refl].
  - cbn in Hnorm. rewrite Hnorm.
    unfold Validator.isIn. apply existsb_exists.
    exists (Validator.toString (reason (body rq))).
    split; [exact Hre|apply String.eqb_refl].
Qed.

(** X6: a body without additionalInfo that the validated content-report
    route accepts is accepted by the universal route as well, from the same
    database; the two stored documents agree on every path but the reason,
    which is the placeholder on the validated route and the reason code on
    the universal one. *)
Theorem X6_validated_implies_universal :
  forall (M : Report.Model) (db : Db) (rq : Request),
    additionalInfo (body rq) = None ->
    code (fst (ContentRouter.post_root db rq)) = 201%Z ->
    code (fst (ReportRouter.post_root M db rq)) = 201%Z
    /\ exists r1 r2,
        ContentReports (snd (ContentRouter.post_root db rq))
        = (ContentReports db ++ [r1])%list
        /\ ContentReports (snd (ReportRouter.post_root M db rq))
           = (ContentReports db ++ [r2])%list
        /\ ContentReport.reason r1 = ContentRouter.placeholder
        /\ ContentReport.reason r2 = ContentReport.reportType r2
        /\ r2 = ContentReport.mk (ContentReport._id r1)
                  (ContentReport.reporter r1) (ContentReport.targetType r1)
                  (ContentReport.targetId r1) (ContentReport.reportType r1)
                  (ContentReport.reportType r1)
                  (ContentReport.additionalInfo r1) (ContentReport.severity r1)
                  (ContentReport.status r1) (ContentReport.priority r1)
                  (ContentReport.adminNotes r1) (ContentReport.actionsTaken r1)
                  (ContentReport.assignedTo r1) (ContentReport.metadata r1).
Proof.
  intros M db rq Hinfo H.
  destruct (validated_then_universal db rq Hinfo H) as [E Hnorm].
  destruct (ContentRouter_accepted db rq H) as (Hv & _ & _ & E1).
  destruct (validation_parts _ Hv) as (Hty & Hid & _).
  assert (Ed : ReportRouter.post_root M db rq
               = ReportRouter.handleContentReport db rq).
  { unfold ReportRouter.post_root.
    rewrite (truthy_toString _ (targetTypes_nonempty _ Hty)).
    now rewrite (truthy_toString _ (isMongoId_truthy _ Hid)). }
  rewrite Ed, E, E1. split; [reflexivity|].
  eexists. eexists. split; [reflexivity|]. split; [reflexivity|].
  cbn in Hnorm. cbn.
  unfold ContentRouter.sanitized_additionalInfo. rewrite Hinfo. cbn.
  rewrite Hnorm. split; [reflexivity|]. split; [reflexivity|].
  unfold ContentReport.new. cbn. rewrite Hinfo, Hnorm. reflexivity.
Qed.

Lemma X6_witness :
  code (fst (ReportRouter.post_root SpecModel.model Sample.db0
               self_harm_request)) = 201%Z.
Proof.
  refine (proj1 (X6_validated_implies_universal SpecModel.model Sample.db0
                   self_harm_request _ _)).
  - reflexivity.
  - vm_compute. reflexivity.
Defined.

(** X7: when a content report is accepted with an additionalInfo in the
    body, the validated route stores the trimmed text (white space of the
    class [\s] removed at both ends), which counts at most 500 characters
    and 500 code units, and the universal route the text itself, of at most
    500 code units. A stored text that is not empty is repeated as the
    reason; an empty one gives the placeholder on the validated route and
    the reason text on the universal one. *)
Theorem X7_reason_repeats_additionalInfo :
  forall (db : Db) (rq : Request) (info : string),
    additionalInfo (body rq) = Some info ->
    (code (fst (ContentRouter.post_root db rq)) = 201%Z ->
     exists r,
       ContentReports (snd (ContentRouter.post_root db rq))
       = (ContentReports db ++ [r])%list
       /\ ContentReport.additionalInfo r = Some (Js.trim info)
       /\ Validator.length (Js.trim info) <= 500
       /\ Js.length (Js.trim info) <= 500
       /\ (Js.trim info <> "" -> ContentReport.reason r = Js.trim info)
       /\ (Js.trim info = "" ->
           ContentReport.reason r = ContentRouter.placeholder))
    /\ (code (fst (ReportRouter.handleContentReport db rq)) = 201%Z ->
        exists r,
          ContentReports (snd (ReportRouter.handleContentReport db rq))
          = (ContentReports db ++ [r])%list
          /\ ContentReport.additionalInfo r = Some info
          /\ Js.length info <= 500
          /\ (info <> "" -> ContentReport.reason r = info)
          /\ (info = "" ->
              ContentReport.reason r = Validator.toString (reason (body rq)))).
Proof.
  intros db rq info Hinfo. split; intros H.
  - destruct (ContentRouter_accepted db rq H) as (Hv & _ & Hval & E).
    destruct (validation_parts _ Hv) as (_ & _ & _ & Hlen & _).
    rewrite Hinfo in Hlen. cbn in Hlen.
    unfold Validator.isLength in Hlen. cbn in Hlen. apply Nat.leb_le in Hlen.
    unfold ContentReport.validate in Hval. cbn in Hval.
    unfold ContentRouter.sanitized_additionalInfo in Hval.
    rewrite Hinfo in Hval. cbn in Hval.
    do 5 (apply Bool.andb_true_iff in Hval; destruct Hval as [Hval _]).
    apply Bool.andb_true_iff in Hval. destruct Hval as [_ Hunits].
    apply Nat.leb_le in Hunits.
    rewrite E. eexists. split; [reflexivity|]. cbn.
    unfold ContentRouter.sanitized_additionalInfo. rewrite Hinfo. cbn.
    repeat split; try assumption.
    + intros Hne. apply String.eqb_neq in Hne. now rewrite Hne.
    + intros ->. reflexivity.
  - destruct (handleContentReport_accepted db rq H) as (_ & _ & Hval & E).
    rewrite E. eexists. split; [reflexivity|]. cbn. rewrite Hinfo.
    unfold ContentReport.validate in Hval. cbn in Hval.
    rewrite Hinfo in Hval. cbn in Hval.
    do 5 (apply Bool.andb_true_iff in Hval; destruct Hval as [Hval _]).
    apply Bool.andb_true_iff in Hval. destruct Hval as [_ Hlen].
    apply Nat.leb_le in Hlen.
    repeat split; try assumption.
    + intros Hne. cbn. apply String.eqb_neq in Hne. now rewrite Hne.
    + intros ->. reflexivity.
Qed.

(** The text "sells followers" between a no-break space and blanks. *)
Lemma X7_witness :
  exists r,
    ContentReports
      (snd (ContentRouter.post_root Sample.db0
              (Sample.request Sample.alice 5000 "65b000000000000000000009" ""
                 (Sample.contentBody "post" Sample.post1 "spam"
                    (Some padded_info) None))))
    = [r]
    /\ ContentReport.additionalInfo r = Some "sells followers"
    /\ ContentReport.reason r = "sells followers".
Proof.
  destruct (proj1 (X7_reason_repeats_additionalInfo Sample.db0
                     (Sample.request Sample.alice 5000
                        "65b000000000000000000009" ""
                        (Sample.contentBody "post" Sample.post1 "spam"
                           (Some padded_info) None))
                     padded_info eq_refl))
    as (r & Hs & Ha & _ & _ & Hr & _); [vm_compute; reflexivity|].
  exists r. repeat split.
  - exact Hs.
  - exact Ha.
  - apply Hr. vm_compute. discriminate.
Defined.

(** ** Deleting and moderating a stored report *)

Lemma Report_delete_length id coll r :
  Report.findById id coll = Some r ->
  S (length (Report.delete id coll)) = length coll.
Proof.
  unfold Report.findById.
  induction coll as [|x rest IH]; cbn; [discriminate|].
  destruct (ObjectId.spells id (Report._id x)); [reflexivity|].
  intros H. cbn. now rewrite (IH H).
Qed.

Lemma Report_delete_other id id' coll r :
  Report.findById id coll = Some r ->
  id' <> Report._id r ->
  find (fun x => String.eqb (Report._id x) id') (Report.delete id coll)
  = find (fun x => String.eqb (Report._id x) id') coll.
Proof.
  unfold Report.findById. intros H Hne.
  induction coll as [|x rest IH]; cbn in *; [reflexivity|].
  destruct (ObjectId.spells id (Report._id x)) eqn:E.
  - injection H as <-.
    assert (E' : String.eqb (Report._id x) id' = false).
    { apply String.eqb_neq. congruence. }
    now rewrite E'.
  - cbn. destruct (String.eqb (Report._id x) id'); [reflexivity|now apply IH].
Qed.

Lemma Report_findById_absent id coll :
  (forall x, In x coll -> ObjectId.spells id (Report._id x) = false) ->
  Report.findById id coll = None.
Proof.
  unfold Report.findById.
  induction coll as [|x rest IH]; cbn; [reflexivity|].
  intros H. rewrite (H x (or_introl eq_refl)).
  apply IH. intros y Hy. apply H. now right.
Qed.

Lemma Report_delete_gone id coll :
  NoDup (map Report._id coll) -> Report.findById id (Report.delete id coll) = None.
Proof.
  induction coll as [|x rest IH]; cbn; [reflexivity|].
  intros Hnd. inversion Hnd as [|? ? Hnot Hrest]. subst.
  destruct (ObjectId.spells id (Report._id x)) eqn:E.
  - apply Report_findById_absent. intros y Hy.
    destruct (ObjectId.spells id (Report._id y)) eqn:Ey; [|reflexivity].
    elim Hnot. rewrite (spells_unique _ _ _ E Ey).
    apply in_map_iff. now exists y.
  - unfold Report.findById in *. cbn. rewrite E. now apply IH.
Qed.



(** X8: the delete route answers an [:id] that is no ObjectId with 500
    and one that spells no stored report with 404, changing nothing. For an
    [:id] that spells a stored report, in either case of its letters, it
    answers 200, removes exactly one document, leaves every report with
    another ObjectId as it was, and, when the stored ids are pairwise
    different, the deleted report is found no more. *)
Theorem X8_delete_removes_the_report :
  forall (db : Db) (rq : Request),
    let db' := snd (AdminRouter.delete_content db rq) in
    (ObjectId.isValid (param rq) = false ->
     AdminRouter.delete_content db rq = respond 500 AdminRouter.error_message db)
    /\ (ObjectId.isValid (param rq) = true ->
        Report.findById (param rq) (Reports db) = None ->
        AdminRouter.delete_content db rq = respond 404 "Report not found" db)
    /\ (forall r,
           Report.findById (param rq) (Reports db) = Some r ->
           code (fst (AdminRouter.delete_content db rq)) = 200%Z
           /\ S (length (Reports db')) = length (Reports db)
           /\ (forall id, id <> Report._id r ->
                          reportOf id db' = reportOf id db)
           /\ (NoDup (map Report._id (Reports db)) ->
               Report.findById (param rq) (Reports db') = None)
           /\ Users db' = Users db
           /\ ContentReports db' = ContentReports db).
Proof.
  intros db rq db'. subst db'. unfold AdminRouter.delete_content.
  split; [|split].
  - intros ->. reflexivity.
  - intros -> ->. reflexivity.
  - intros r Hr. rewrite (Report_findById_valid _ _ _ Hr), Hr. cbn.
    repeat split.
    + now apply Report_delete_length with r.
    + intros id Hne. unfold reportOf. cbn.
      now apply Report_delete_other with r.
    + apply Report_delete_gone.
Qed.

(** The report is deleted under the upper-case spelling of its id. *)
Lemma X8_witness :
  Report.findById (param upper_id_request) (Reports resolved_db)
  = Some (Sample.aliceOnBob Sample.report1 "resolved" [])
  /\ Report.findById (param upper_id_request)
       (Reports (snd (AdminRouter.delete_content resolved_db upper_id_request)))
     = None
  /\ length (Reports (snd (AdminRouter.delete_content resolved_db
                             upper_id_request))) = 0.
Proof.
  split; [reflexivity|].
  destruct (proj2 (proj2 (X8_delete_removes_the_report resolved_db
                            upper_id_request))
              (Sample.aliceOnBob Sample.report1 "resolved" []) eq_refl)
    as (_ & Hl & _ & Hg & _).
  split.
  - apply Hg. cbn. repeat constructor. intros [].
  - apply eq_add_S. rewrite Hl. reflexivity.
Defined.



(** ** Banning a user from the moderation panel *)

Lemma User_findById_userOf id db u :
  User.findById id (Users db) = Some u -> userOf (User._id u) db = Some u.
Proof.
  intros H. pose proof (proj2 (User_findById_In _ _ _ H)) as Hc.
  now rewrite <- (User_findById_cast _ _ _ Hc).
Qed.

Lemma User_findById_valid id coll u :
  User.findById id coll = Some u -> ObjectId.isValid id = true.
Proof.
  intros H. apply User_findById_In in H. destruct H as [_ H].
  now apply cast_valid in H.
Qed.

Lemma userOf_replace id db u u' :
  userOf id db = Some u ->
  User._id u' = id ->
  userOf id (with_Users (User.replace u' (Users db)) db) = Some u'.
Proof.
  intros H Hid. subst id. unfold userOf in *. cbn [Users with_Users].
  induction (Users db) as [|x rest IH]; cbn in *; [discriminate|].
  destruct (String.eqb (User._id x) (User._id u')) eqn:E; cbn.
  - now rewrite String.eqb_refl.
  - rewrite E. now apply IH.
Qed.

Lemma userOf_replace_other u' id' db :
  id' <> User._id u' ->
  userOf id' (with_Users (User.replace u' (Users db)) db) = userOf id' db.
Proof.
  intros Hne. unfold userOf. cbn [Users with_Users].
  induction (Users db) as [|x rest IH]; cbn; [reflexivity|].
  destruct (String.eqb (User._id x) (User._id u')) eqn:E; cbn.
  - apply String.eqb_eq in E.
    assert (E1 : String.eqb (User._id u') id' = false).
    { apply String.eqb_neq. congruence. }
    assert (E2 : String.eqb (User._id x) id' = false).
    { apply String.eqb_neq. congruence. }
    now rewrite E1, E2.
  - destruct (String.eqb (User._id x) id'); [reflexivity|exact IH].
Qed.

Section BanUser.

Variable M : Report.Model.
Variable parseInt : string -> option Z.
Variable db : Db.
Variable rq : Request.
Variable user : User.t.
Variable ends : option Z.

Hypothesis has_reason : Js.truthy (reason (body rq)) = true.
Hypothesis found : User.findById (param rq) (Users db) = Some user.
Hypothesis end_date : AdminRouter.banEndDate parseInt rq = Some ends.

Let run := AdminRouter.post_ban_user M parseInt db rq.
Let user' :=
  User.ban (Validator.toString (reason (body rq))) (now rq) ends user.

(** The users after the call, whatever becomes of the report. *)
Lemma post_ban_user_users :
  snd run = with_Reports (Reports (snd run))
              (with_Users (User.replace user' (Users db)) db).
Proof.
  unfold run, AdminRouter.post_ban_user.
  rewrite has_reason, (User_findById_valid _ _ _ found), found, end_date.
  cbn [negb]. fold user'.
  destruct (Js.truthy (reportId (body rq))); [|reflexivity].
  destruct (ObjectId.isValid _); [|reflexivity].
  cbn [with_Users Reports negb].
  destruct (Report.findById _ (Reports db)); [|reflexivity].
  destruct (Report.save M _ _); reflexivity.
Qed.

Lemma post_ban_user_code :
  code (fst run) = 200%Z \/ code (fst run) = 500%Z.
Proof.
  unfold run, AdminRouter.post_ban_user.
  rewrite has_reason, (User_findById_valid _ _ _ found), found, end_date.
  cbn [negb].
  destruct (Js.truthy (reportId (body rq))); [|now left].
  destruct (ObjectId.isValid _); [|now right]. cbn [negb].
  destruct (Report.findById _ _); [|now left].
  destruct (Report.save M _ _); [now left|now right].
Qed.

Lemma post_ban_user_stored :
  userOf (User._id user) (snd run) = Some user'.
Proof.
  rewrite post_ban_user_users.
  change (userOf (User._id user)
            (with_Users (User.replace user' (Users db)) db) = Some user').
  apply userOf_replace with user; [|reflexivity].
  now apply User_findById_userOf with (param rq).
Qed.

Lemma post_ban_user_others id :
  id <> User._id user -> userOf id (snd run) = userOf id db.
Proof.
  intros Hne. rewrite post_ban_user_users.
  change (userOf id (with_Users (User.replace user' (Users db)) db)
          = userOf id db).
  now apply userOf_replace_other.
Qed.

(** A reportId that is no ObjectId throws after the user is saved. *)
Lemma post_ban_user_cast :
  Js.truthy (reportId (body rq)) = true ->
  ObjectId.isValid (Validator.toString (reportId (body rq))) = false ->
  code (fst run) = 500%Z /\ Reports (snd run) = Reports db.
Proof.
  intros Hid Hc. unfold run, AdminRouter.post_ban_user.
  rewrite has_reason, (User_findById_valid _ _ _ found), found, end_date, Hid,
    Hc.
  now split.
Qed.

Lemma post_ban_user_refused report :
  Js.truthy (reportId (body rq)) = true ->
  Report.findById (Validator.toString (reportId (body rq))) (Reports db)
  = Some report ->
  Report.validate M (AdminRouter.banned parseInt rq report) = false ->
  code (fst run) = 500%Z /\ Reports (snd run) = Reports db.
Proof.
  intros Hid Hf Hv. unfold run, AdminRouter.post_ban_user.
  rewrite has_reason, (User_findById_valid _ _ _ found), found, end_date, Hid.
  rewrite (Report_findById_valid _ _ _ Hf).
  cbn [negb with_Users Reports].
  rewrite Hf. unfold Report.save. rewrite Hv. now split.
Qed.

End BanUser.

(** X10: the ban route answers a body without reason with 400, then a
    [:userId] that is no ObjectId with 500, then one that spells no stored
    user with 404, changing nothing. For a stored user and a reason, when
    the end of the ban is no date or a valid one, it saves the user before
    it looks at the report: the stored user is then inactive with the
    reason, the clock and the end date of the ban, every other user is
    untouched, and this holds also when the answer is 500 because the
    reportId of the body is no ObjectId or because the schema refused the
    report; in both cases the reports are as before, so the ban stands
    without its entry in the report. *)
Theorem X10_ban_is_saved_before_the_report :
  forall (M : Report.Model) (parseInt : string -> option Z)
         (db : Db) (rq : Request),
    let run := AdminRouter.post_ban_user M parseInt db rq in
    (Js.truthy (reason (body rq)) = false ->
     run = respond 400 "Ban reason is required" db)
    /\ (Js.truthy (reason (body rq)) = true ->
        ObjectId.isValid (param rq) = false ->
        run = respond 500 AdminRouter.error_message db)
    /\ (Js.truthy (reason (body rq)) = true ->
        ObjectId.isValid (param rq) = true ->
        User.findById (param rq) (Users db) = None ->
        run = respond 404 "User not found" db)
    /\ (forall user ends,
           Js.truthy (reason (body rq)) = true ->
           User.findById (param rq) (Users db) = Some user ->
           Date_valid (now rq) = true ->
           AdminRouter.banEndDate parseInt rq = Some ends ->
           (exists user',
               userOf (User._id user) (snd run) = Some user'
               /\ User.isActive user' = false
               /\ User.banReason user'
                  = Some (Validator.toString (reason (body rq)))
               /\ User.bannedAt user' = Some (now rq)
               /\ User.banEndDate user' = ends
               /\ User.role user' = User.role user
               /\ User.status user' = User.status user)
           /\ (forall id, id <> User._id user ->
                          userOf id (snd run) = userOf id db)
           /\ (code (fst run) = 200%Z \/ code (fst run) = 500%Z)
           /\ (Js.truthy (reportId (body rq)) = true ->
               ObjectId.isValid (Validator.toString (reportId (body rq)))
               = false ->
               code (fst run) = 500%Z /\ Reports (snd run) = Reports db)
           /\ (forall report,
                  Js.truthy (reportId (body rq)) = true ->
                  Report.findById (Validator.toString (reportId (body rq)))
                    (Reports db) = Some report ->
                  Report.validate M (AdminRouter.banned parseInt rq report)
                  = false ->
                  code (fst run) = 500%Z /\ Reports (snd run) = Reports db)).
Proof.
  intros M parseInt db rq run. subst run.
  split; [|split; [|split]].
  - unfold AdminRouter.post_ban_user. intros ->. reflexivity.
  - unfold AdminRouter.post_ban_user. intros -> ->. reflexivity.
  - unfold AdminRouter.post_ban_user. intros -> -> ->. reflexivity.
  - intros user ends Hr Hu _ Hd. split; [|split; [|split; [|split]]].
    + eexists. split.
      * now apply post_ban_user_stored with (ends := ends).
      * repeat split.
    + intros id. now apply post_ban_user_others with ends.
    + now apply post_ban_user_code with user ends.
    + now apply post_ban_user_cast with user ends.
    + intros report. now apply post_ban_user_refused with user ends.
Qed.

(** Bob is banned for three days; the body names a report by a text that
    is no ObjectId. *)
Lemma X10_witness :
  let run := AdminRouter.post_ban_user SpecModel.model Sample.noParse ban_db
               (Sample.request Sample.admin 7000 "" Sample.bob
                  (banBody "repeated harassment" (Some (JNum 3))
                     (Some "report-1"))) in
  code (fst run) = 500%Z
  /\ Reports (snd run) = Reports ban_db
  /\ exists user',
      userOf Sample.bob (snd run) = Some user'
      /\ User.isActive user' = false
      /\ User.banEndDate user' = Some 259207000%Z.
Proof.
  intros run.
  destruct (proj2 (proj2 (proj2 (X10_ban_is_saved_before_the_report
                                   SpecModel.model Sample.noParse ban_db
                                   (Sample.request Sample.admin 7000 ""
                                      Sample.bob
                                      (banBody "repeated harassment"
                                         (Some (JNum 3))
                                         (Some "report-1"))))))
              (Sample.user Sample.bob "bob" "user") (Some 259207000%Z)
              eq_refl eq_refl eq_refl eq_refl)
    as ((u' & Hf & Ha & _ & _ & He & _) & _ & _ & Hcast & _).
  destruct (Hcast eq_refl eq_refl) as [Hc Hr].
  split; [exact Hc|]. split; [exact Hr|].
  exists u'. repeat split; assumption.
Defined.



(** ** What a submission stores *)

Lemma handleUserReport_writes_on_201 M db rq :
  code (fst (ReportRouter.handleUserReport M db rq)) <> 201%Z ->
  snd (ReportRouter.handleUserReport M db rq) = db.
Proof.
  unfold ReportRouter.handleUserReport.
  destruct (_ || _ || _); [reflexivity|].
  destruct (String.eqb _ _); [reflexivity|].
  destruct (negb (ObjectId.isValid _)); [reflexivity|].
  destruct (User.findById _ _); [|reflexivity].
  destruct (Report.findOne _ _ _); [reflexivity|].
  destruct (Report.insert M _ _); [|reflexivity].
  cbn. intros H. now elim H.
Qed.

(** X12: the universal route answers with 201, 400, 404 or 500; it
    changes the database only with the answer 201, and then by exactly one
    document: either one content report or one user report is appended,
    and nothing else is touched. *)
Theorem X12_submission_stores_one_document :
  forall (M : Report.Model) (db : Db) (rq : Request),
    let res := fst (ReportRouter.post_root M db rq) in
    let db' := snd (ReportRouter.post_root M db rq) in
    In (code res) [201; 400; 404; 500]%Z
    /\ (code res <> 201%Z -> db' = db)
    /\ (code res = 201%Z ->
        Posts db' = Posts db /\ Users db' = Users db
        /\ ((exists r, ContentReports db' = (ContentReports db ++ [r])%list
                       /\ Reports db' = Reports db)
            \/ (exists r, Reports db' = (Reports db ++ [r])%list
                          /\ ContentReports db' = ContentReports db))).
Proof.
  intros M db rq res db'. subst res db'.
  unfold ReportRouter.post_root.
  destruct (_ && _).
  - split; [|split].
    + unfold ReportRouter.handleContentReport.
      destruct (_ || _ || _); [cbn; tauto|].
      destruct (ReportRouter.castError _); [cbn; tauto|].
      destruct (negb _); [cbn; tauto|].
      destruct (ContentReport.findOne _ _ _ _); [cbn; tauto|].
      destruct (ContentReport.save _ _); cbn; tauto.
    + apply handleContentReport_writes_on_201.
    + intros H.
      destruct (handleContentReport_accepted db rq H) as (_ & _ & _ & E).
      rewrite E. cbn. repeat split. left. eexists. split; reflexivity.
  - destruct (Js.truthy (reportedUserId (body rq))).
    + split; [|split].
      * unfold ReportRouter.handleUserReport.
        destruct (_ || _ || _); [cbn; tauto|].
        destruct (String.eqb _ _); [cbn; tauto|].
        destruct (negb (ObjectId.isValid _)); [cbn; tauto|].
        destruct (User.findById _ _); [|cbn; tauto].
        destruct (Report.findOne _ _ _); [cbn; tauto|].
        destruct (Report.insert M _ _); cbn; tauto.
      * apply handleUserReport_writes_on_201.
      * intros H.
        destruct (handleUserReport_accepted M db rq H)
          as (_ & _ & _ & _ & _ & _ & _ & E).
        rewrite E. cbn. repeat split. right. eexists. split; reflexivity.
    + cbn. split; [tauto|]. split; [reflexivity|discriminate].
Qed.

Lemma X12_witness :
  snd (ReportRouter.post_root SpecModel.model dismissed_db refile_request)
  = dismissed_db.
Proof.
  apply (proj1 (proj2 (X12_submission_stores_one_document SpecModel.model
                         dismissed_db refile_request))).
  vm_compute. discriminate.
Defined.

(** ** Content reports along a run *)

Lemma NoDup_snoc {A : Type} (l : list A) (x : A) :
  NoDup l -> ~ In x l -> NoDup (l ++ [x])%list.
Proof.
  induction l as [|y l IH]; cbn; intros Hnd Hx.
  - constructor; [intros []|constructor].
  - inversion Hnd as [|? ? Hy Hl]. subst. constructor.
    + intros Hin. apply in_app_or in Hin. destruct Hin as [Hin|[<-|[]]].
      * now apply Hy.
      * apply Hx. now left.
    + apply IH; [exact Hl|]. intros Hin. apply Hx. now right.
Qed.

Lemma matches_key who kind target x :
  ObjectId.isValid target = true ->
  ContentReport.matches who kind target x = false ->
  contentKey x <> (who, kind, ObjectId.ofString target).
Proof.
  unfold ContentReport.matches, contentKey, ObjectId.spells. intros Hv H E.
  injection E as E1 E2 E3.
  rewrite E1, E2, E3, Hv, !String.eqb_refl in H. discriminate.
Qed.

Lemma ContentRouter_exists_valid db b :
  ContentRouter.targetExists db b = true ->
  ObjectId.isValid (Validator.toString (targetId b)) = true.
Proof.
  unfold ContentRouter.targetExists.
  destruct (String.eqb _ "post"); [|discriminate].
  apply Post_findById_valid.
Qed.

Lemma ContentRouter_appended db rq :
  appended db (snd (ContentRouter.post_root db rq)).
Proof.
  destruct (Z.eq_dec (code (fst (ContentRouter.post_root db rq))) 201) as [H|H].
  - right.
    pose proof (ContentRouter_accepted_fresh db rq H) as Hfresh.
    destruct (ContentRouter_accepted db rq H) as (_ & Ht & Hval & E).
    rewrite E. eexists. split; [reflexivity|]. split.
    + unfold ContentRouter.targetExists in Ht.
      destruct (String.eqb _ "post") eqn:Ep; [|discriminate].
      apply String.eqb_eq in Ep.
      unfold asCreated. cbn. repeat split; try assumption.
    + intros x Hin.
      apply (matches_key (user_id rq) (Validator.toString (type (body rq)))
               (Validator.toString (targetId (body rq)))).
      * now apply ContentRouter_exists_valid with db.
      * now apply Hfresh.
  - left. now rewrite (ContentRouter_writes_on_201 db rq H).
Qed.

Lemma handleContentReport_appended db rq :
  appended db (snd (ReportRouter.handleContentReport db rq)).
Proof.
  destruct (Z.eq_dec (code (fst (ReportRouter.handleContentReport db rq))) 201)
    as [H|H].
  - right.
    pose proof (handleContentReport_accepted_fresh db rq H) as Hfresh.
    destruct (handleContentReport_accepted db rq H) as (_ & Ht & Hval & E).
    rewrite E. eexists. split; [reflexivity|]. split.
    + unfold ReportRouter.targetExists in Ht.
      destruct (String.eqb _ "post") eqn:Ep; [|discriminate].
      apply String.eqb_eq in Ep.
      unfold asCreated. cbn. repeat split; try assumption.
    + intros x Hin.
      apply (matches_key (user_id rq) (Validator.toString (type (body rq)))
               (Validator.toString (targetId (body rq)))).
      * now apply ContentRouter_exists_valid with db.
      * now apply Hfresh.
  - left. now rewrite (handleContentReport_writes_on_201 db rq H).
Qed.

Lemma step_appended M parseInt db db' :
  step M parseInt db db' -> appended db db'.
Proof.
  intros Hs.
  destruct Hs as [db rq|db rq|db rq|db rq|db rq|db rq|db rq|db rq|db rq
                  |db rq|db us Hnd|db ps rs].
  - apply ContentRouter_appended.
  - unfold ReportRouter.post_root.
    destruct (_ && _); [apply handleContentReport_appended|].
    destruct (Js.truthy _); [|now left].
    left. unfold ReportRouter.handleUserReport.
    destruct (_ || _ || _); [reflexivity|].
    destruct (String.eqb _ _); [reflexivity|].
    destruct (negb (ObjectId.isValid _)); [reflexivity|].
    destruct (User.findById _ _); [|reflexivity].
    destruct (Report.findOne _ _ _); [reflexivity|].
    destruct (Report.insert M _ _); reflexivity.
  - left. unfold ReportRouter.put_status.
    destruct (negb _); [reflexivity|].
    destruct (ReportRouter.isModerator db rq) as [[|]|]; try reflexivity.
    destruct (negb (ObjectId.isValid _)); [reflexivity|].
    destruct (Report.findById _ _); [|reflexivity].
    destruct (Report.updateStatus M _ _ _ _ _); reflexivity.
  - left. unfold ReportRouter.put_action.
    destruct (put_action_cases M db rq) as [E|[r' E]].
    + now rewrite E.
    + cbn zeta in E. rewrite E. destruct (ReportRouter.isBan _); reflexivity.
  - left. unfold AdminRouter.patch_moderate.
    destruct (negb _); [reflexivity|].
    destruct (negb (ObjectId.isValid _)); [reflexivity|].
    destruct (Report.findById _ _); [|reflexivity].
    destruct (Report.save M _ _); reflexivity.
  - left. unfold AdminRouter.delete_content.
    destruct (negb (ObjectId.isValid _)); [reflexivity|].
    destruct (Report.findById _ _); reflexivity.
  - left. unfold AdminRouter.patch_resolve.
    destruct (negb (ObjectId.isValid _)); [reflexivity|].
    destruct (Report.findById _ _); [|reflexivity].
    destruct (Report.save M _ _); reflexivity.
  - left. unfold AdminRouter.post_ban_user.
    destruct (negb _); [reflexivity|].
    destruct (negb (ObjectId.isValid _)); [reflexivity|].
    destruct (User.findById _ _); [|reflexivity].
    destruct (AdminRouter.banEndDate parseInt rq); [|reflexivity].
    destruct (Js.truthy (reportId (body rq))); [|reflexivity].
    destruct (negb (ObjectId.isValid _)); [reflexivity|].
    cbn [with_Users Reports].
    destruct (Report.findById _ _); [|reflexivity].
    destruct (Report.save M _ _); reflexivity.
  - left. unfold AdminRouter.post_create_test_report.
    destruct (firstn 2 (Users db)) as [|x [|y [|z rest]]]; try reflexivity.
    destruct (Report.insert M _ _); reflexivity.
  - left. unfold AdminOldRouter.patch_report.
    destruct (negb (ObjectId.isValid _)); reflexivity.
  - now left.
  - now left.
Qed.

(** X13: no route changes or removes a stored content report. Along
    every run of the service the content reports of the start are still
    stored, in their places and as they were; what the run has added comes
    after them, and each added report is for a post, pending, of priority
    "medium", without admin notes, actions or assignee, and valid for the
    schema. *)
Theorem X13_content_reports_are_append_only :
  forall (M : Report.Model) (parseInt : string -> option Z) (db db' : Db),
    steps M parseInt db db' ->
    exists added,
      ContentReports db' = (ContentReports db ++ added)%list
      /\ Forall asCreated added
      /\ forall i r, nth_error (ContentReports db) i = Some r ->
                     nth_error (ContentReports db') i = Some r.
Proof.
  intros M parseInt db db' Hs.
  assert (H : exists added,
             ContentReports db' = (ContentReports db ++ added)%list
             /\ Forall asCreated added).
  { induction Hs as [db|db db1 db2 _ IH Hstep].
    - exists []. split; [now rewrite app_nil_r|constructor].
    - destruct IH as (added & E & Ha).
      destruct (step_appended M parseInt db1 db2 Hstep) as [E2|(r & E2 & Hr & _)].
      + exists added. now rewrite E2.
      + exists (added ++ [r])%list. split.
        * now rewrite E2, E, app_assoc.
        * now apply Forall_snoc. }
  destruct H as (added & E & Ha). exists added.
  split; [exact E|]. split; [exact Ha|].
  intros i r Hi. rewrite E. rewrite nth_error_app1; [exact Hi|].
  apply nth_error_Some. now rewrite Hi.
Qed.

(** Alice files a content report, then a moderator bans Bob. *)
Lemma X13_witness :
  exists added,
    ContentReports
      (snd (ReportRouter.put_action SpecModel.model
              (snd (ContentRouter.post_root ban_db self_harm_request))
              (ban_request "permanent_ban" 6000)))
    = (ContentReports ban_db ++ added)%list
    /\ Forall asCreated added.
Proof.
  destruct (X13_content_reports_are_append_only SpecModel.model Sample.noParse
              ban_db
              (snd (ReportRouter.put_action SpecModel.model
                      (snd (ContentRouter.post_root ban_db self_harm_request))
                      (ban_request "permanent_ban" 6000))))
    as (added & E & Ha & _).
  - eapply steps_more; [eapply steps_more; [apply steps_none|]|].
    + apply step_content_post.
    + apply step_put_action.
  - exists added. now split.
Defined.

(** The validated route is its check followed at once by its store. *)
Lemma post_root_split db rq :
  ContentRouter.post_root db rq
  = match ContentRouter.check db rq with
    | inl res => (res, db)
    | inr report => ContentRouter.store report db
    end.
Proof.
  unfold ContentRouter.post_root, ContentRouter.check, ContentRouter.store.
  destruct (negb _); [reflexivity|].
  destruct (ContentRouter.castError _); [reflexivity|].
  destruct (negb _); [reflexivity|].
  destruct (ContentReport.findOne _ _ _ _); reflexivity.
Qed.

(** What the check hands to the store. *)
Lemma check_passed db rq report :
  ContentRouter.check db rq = inr report ->
  report = ContentReport.new (new_id rq) (ContentRouter.fields rq).
Proof.
  unfold ContentRouter.check.
  destruct (negb _); [discriminate|].
  destruct (ContentRouter.castError _); [discriminate|].
  destruct (negb _); [discriminate|].
  destruct (ContentReport.findOne _ _ _ _); [discriminate|].
  now intros H; injection H.
Qed.

(** X14: the duplicate check and the save of a content report are two
    calls to the database. When every request is served to its end before
    the next begins, content reports with pairwise different (reporter,
    targetType, targetId) stay so along every run. When the checks of two
    submissions both run before either save, both documents are stored
    (the schema has no unique index to refuse the second), also when the
    two are of one reporter for one target. *)
Theorem X14_one_content_report_per_target :
  forall (M : Report.Model) (parseInt : string -> option Z) (db : Db),
    (forall db', steps M parseInt db db' ->
                 NoDup (map contentKey (ContentReports db)) ->
                 NoDup (map contentKey (ContentReports db')))
    /\ (forall rq1 rq2 r1 r2,
           ContentRouter.check db rq1 = inr r1 ->
           ContentRouter.check db rq2 = inr r2 ->
           ContentReport.validate r1 = true ->
           ContentReport.validate r2 = true ->
           let run1 := ContentRouter.store r1 db in
           let run2 := ContentRouter.store r2 (snd run1) in
           code (fst run1) = 201%Z
           /\ code (fst run2) = 201%Z
           /\ ContentReports (snd run2) = (ContentReports db ++ [r1; r2])%list
           /\ (user_id rq1 = user_id rq2 ->
               type (body rq1) = type (body rq2) ->
               targetId (body rq1) = targetId (body rq2) ->
               contentKey r1 = contentKey r2)).
Proof.
  intros M parseInt db. split.
  - intros db' Hs.
    induction Hs as [db|db db1 db2 _ IH Hstep]; [tauto|].
    intros Hnd. specialize (IH Hnd).
    destruct (step_appended M parseInt db1 db2 Hstep) as [E|(r & E & _ & Hk)].
    + now rewrite E.
    + rewrite E, map_app. cbn. apply NoDup_snoc; [exact IH|].
      intros Hin. apply in_map_iff in Hin. destruct Hin as (x & Ex & Hx).
      now apply (Hk x Hx).
  - intros rq1 rq2 r1 r2 H1 H2 Hv1 Hv2 run1 run2. subst run1 run2.
    unfold ContentRouter.store, ContentReport.save.
    rewrite Hv1. cbn. rewrite Hv2. cbn.
    split; [reflexivity|]. split; [reflexivity|].
    split; [now rewrite <- app_assoc|].
    intros Ew Et Ei.
    rewrite (check_passed _ _ _ H1), (check_passed _ _ _ H2).
    unfold contentKey. cbn. now rewrite Ew, Et, Ei.
Qed.

(** Alice sends the same report twice; the second check runs before the
    first save, and both reports are stored. *)
Lemma X14_witness :
  exists r1 r2,
    ContentRouter.check Sample.db0 self_harm_request = inr r1
    /\ ContentRouter.check Sample.db0 self_harm_again = inr r2
    /\ ContentReports
         (snd (ContentRouter.store r2
                 (snd (ContentRouter.store r1 Sample.db0)))) = [r1; r2]
    /\ contentKey r1 = contentKey r2.
Proof.
  eexists. eexists.
  split; [vm_compute; reflexivity|]. split; [vm_compute; reflexivity|].
  destruct (proj2 (X14_one_content_report_per_target SpecModel.model
                     Sample.noParse Sample.db0)
              self_harm_request self_harm_again _ _ eq_refl eq_refl)
    as (_ & _ & E & K); [vm_compute; reflexivity|vm_compute; reflexivity|].
  split; [exact E|]. now apply K.
Defined.

(** ** The queues of the content-report schema *)

Lemma run_from_empty_asCreated M parseInt db db' :
  steps M parseInt db db' ->
  ContentReports db = [] ->
  Forall asCreated (ContentReports db').
Proof.
  intros Hs Hempty. induction Hs as [db|db db1 db2 _ IH Hstep].
  - rewrite Hempty. constructor.
  - specialize (IH Hempty).
    destruct (step_appended M parseInt db1 db2 Hstep) as [E|(r & E & Hr & _)].
    + now rewrite E.
    + rewrite E. now apply Forall_snoc.
Qed.

Lemma filter_all {A : Type} (p : A -> bool) (l : list A) :
  Forall (fun x => p x = true) l -> filter p l = l.
Proof.
  induction 1 as [|x l Hx _ IH]; cbn; [reflexivity|]. now rewrite Hx, IH.
Qed.

Lemma filter_none {A : Type} (p : A -> bool) (l : list A) :
  Forall (fun x => p x = false) l -> filter p l = [].
Proof.
  induction 1 as [|x l Hx _ IH]; cbn; [reflexivity|]. now rewrite Hx.
Qed.

Lemma filter_agree {A : Type} (p q : A -> bool) (l : list A) :
  Forall (fun x => p x = q x) l -> filter p l = filter q l.
Proof.
  induction 1 as [|x l Hx _ IH]; cbn; [reflexivity|]. now rewrite Hx, IH.
Qed.

(** X15: getReportsByStatus lists exactly the stored content reports of the
    status asked for. Since no route changes the status of a content
    report, after every run that starts without content reports the queue
    of "pending" is the whole collection, newest first, and the queue of
    every other status is empty. *)
Theorem X15_status_queues_along_a_run :
  forall (M : Report.Model) (parseInt : string -> option Z) (db db' : Db),
    (forall s r,
        In r (getReportsByStatus s (ContentReports db'))
        <-> In r (ContentReports db') /\ ContentReport.status r = s)
    /\ (steps M parseInt db db' ->
        ContentReports db = [] ->
        getReportsByStatus "pending" (ContentReports db')
        = newestFirst (ContentReports db')
        /\ forall s, s <> "pending" ->
                     getReportsByStatus s (ContentReports db') = []).
Proof.
  intros M parseInt db db'. split.
  - intros s r. unfold getReportsByStatus, newestFirst, hasStatus.
    rewrite <- in_rev, filter_In. now rewrite String.eqb_eq.
  - intros Hs Hempty.
    pose proof (run_from_empty_asCreated M parseInt db db' Hs Hempty) as Hall.
    split.
    + unfold getReportsByStatus. f_equal. apply filter_all.
      eapply Forall_impl; [|exact Hall].
      intros r (_ & Hst & _). unfold hasStatus. now rewrite Hst.
    + intros s Hne. unfold getReportsByStatus.
      rewrite filter_none; [reflexivity|].
      eapply Forall_impl; [|exact Hall].
      intros r (_ & Hst & _). unfold hasStatus. rewrite Hst.
      apply String.eqb_neq. congruence.
Qed.

Lemma X15_witness :
  getReportsByStatus "under_review"
    (ContentReports (snd (ContentRouter.post_root Sample.db0 self_harm_request)))
  = [].
Proof.
  refine (proj2 (proj2 (X15_status_queues_along_a_run SpecModel.model
                          Sample.noParse Sample.db0
                          (snd (ContentRouter.post_root Sample.db0
                                  self_harm_request))) _ _)
            "under_review" _).
  - eapply steps_more; [apply steps_none|apply step_content_post].
  - reflexivity.
  - discriminate.
Defined.

(** X16: getHighPriorityReports lists exactly the stored content reports
    whose priority or severity is "high" or "urgent". After every run that
    starts without content reports the priority selects none, every stored
    priority being "medium": the list is that of the reports whose
    severity is "high" or "urgent", so a report of severity "low" or
    "medium" is not listed, whatever its reason code. *)
Theorem X16_high_priority_is_high_severity :
  forall (M : Report.Model) (parseInt : string -> option Z) (db db' : Db),
    (forall r,
        In r (getHighPriorityReports (ContentReports db'))
        <-> In r (ContentReports db')
            /\ (ContentReport.priority r = "high"
                \/ ContentReport.priority r = "urgent"
                \/ ContentReport.severity r = JStr "high"
                \/ ContentReport.severity r = JStr "urgent"))
    /\ (steps M parseInt db db' ->
        ContentReports db = [] ->
        getHighPriorityReports (ContentReports db')
        = newestFirst
            (filter (fun r => severityIs "high" r || severityIs "urgent" r)
                    (ContentReports db'))
        /\ forall r,
            In r (getHighPriorityReports (ContentReports db')) ->
            ContentReport.severity r = JStr "high"
            \/ ContentReport.severity r = JStr "urgent").
Proof.
  intros M parseInt db db'.
  assert (Hsev : forall s r,
             severityIs s r = true <-> ContentReport.severity r = JStr s).
  { intros s r. unfold severityIs.
    destruct (ContentReport.severity r) as [x|n].
    - rewrite String.eqb_eq. split; [now intros ->|now intros [= ->]].
    - split; discriminate. }
  assert (Hin : forall r,
             In r (getHighPriorityReports (ContentReports db'))
             <-> In r (ContentReports db')
                 /\ (ContentReport.priority r = "high"
                     \/ ContentReport.priority r = "urgent"
                     \/ ContentReport.severity r = JStr "high"
                     \/ ContentReport.severity r = JStr "urgent")).
  { intros r. unfold getHighPriorityReports, newestFirst, isHighPriority.
    rewrite <- in_rev, filter_In, !Bool.orb_true_iff, !String.eqb_eq, !Hsev.
    tauto. }
  split; [exact Hin|].
  intros Hs Hempty.
  pose proof (run_from_empty_asCreated M parseInt db db' Hs Hempty) as Hall.
  split.
  - unfold getHighPriorityReports. f_equal. apply filter_agree.
    eapply Forall_impl; [|exact Hall].
    intros r (_ & _ & Hp & _). unfold isHighPriority. now rewrite Hp.
  - intros r Hr. apply Hin in Hr. destruct Hr as [Hr Hc].
    pose proof (proj1 (Forall_forall _ _) Hall r Hr) as (_ & _ & Hp & _).
    rewrite Hp in Hc. destruct Hc as [Hc|[Hc|Hc]]; [discriminate..|exact Hc].
Qed.

(** The report for self-harm with severity low is not in the list. *)
Lemma X16_witness :
  getHighPriorityReports
    (ContentReports (snd (ContentRouter.post_root Sample.db0 self_harm_request)))
  = newestFirst
      (filter (fun r => severityIs "high" r || severityIs "urgent" r)
              (ContentReports
                 (snd (ContentRouter.post_root Sample.db0 self_harm_request))))
  /\ getHighPriorityReports
       (ContentReports
          (snd (ContentRouter.post_root Sample.db0 self_harm_request))) = [].
Proof.
  split; [|vm_compute; reflexivity].
  refine (proj1 (proj2 (X16_high_priority_is_high_severity SpecModel.model
                          Sample.noParse Sample.db0
                          (snd (ContentRouter.post_root Sample.db0
                                  self_harm_request))) _ _)).
  - eapply steps_more; [apply steps_none|apply step_content_post].
  - reflexivity.
Defined.

(** ** The caller's own content reports, page by page *)

Lemma ceilDiv_bounds a b :
  (0 <= a)%Z -> (1 <= b)%Z ->
  ((ceilDiv a b - 1) * b < a <= ceilDiv a b * b)%Z.
Proof.
  intros Ha Hb. unfold ceilDiv.
  pose proof (Z.div_mod (- a) b ltac:(lia)) as E.
  pose proof (Z.mod_pos_bound (- a) b ltac:(lia)) as Hr.
  nia.
Qed.

Lemma In_firstn {A : Type} (n : nat) (l : list A) (x : A) :
  In x (firstn n l) -> In x l.
Proof.
  intros H. rewrite <- (firstn_skipn n l). apply in_or_app. now left.
Qed.

Lemma In_skipn {A : Type} (n : nat) (l : list A) (x : A) :
  In x (skipn n l) -> In x l.
Proof.
  intros H. rewrite <- (firstn_skipn n l). apply in_or_app. now right.
Qed.

Section MyReports.

Variable db : Db.
Variable who : Id.
Variables qpage qlimit : option Z.

Let p := orDefault qpage 1.
Let l := orDefault qlimit 10.
Let own := mine who (ContentReports db).

Hypothesis page_ok : (1 <= p)%Z.
Hypothesis limit_ok : (1 <= l)%Z.

Let shown : list ContentReport.t :=
  firstn (Z.to_nat l) (skipn (Z.to_nat ((p - 1) * l)) (newestFirst own)).

Lemma get_my_reports_ok :
  get_my_reports db who qpage qlimit
  = (mkResponse 200 "",
     Some (mkListing shown (Z.of_nat (length own)) p
                     (ceilDiv (Z.of_nat (length own)) l))).
Proof.
  unfold get_my_reports, skipLimit. fold p l own.
  assert (H : ((p - 1) * l <? 0)%Z = false) by (apply Z.ltb_ge; nia).
  rewrite H. unfold shown. now rewrite (Z.abs_eq l) by lia.
Qed.

Lemma shown_own : Forall (fun r => In r own) shown.
Proof.
  apply Forall_forall. intros r Hr. unfold shown in Hr.
  apply In_firstn, In_skipn in Hr. unfold newestFirst in Hr.
  now apply in_rev in Hr.
Qed.

Lemma shown_length : (Z.of_nat (length shown) <= l)%Z.
Proof.
  unfold shown. rewrite length_firstn. lia.
Qed.

Lemma shown_beyond :
  (ceilDiv (Z.of_nat (length own)) l < p)%Z -> shown = [].
Proof.
  intros H. unfold shown. rewrite skipn_all2; [now rewrite firstn_nil|].
  unfold newestFirst. rewrite length_rev.
  pose proof (ceilDiv_bounds (Z.of_nat (length own)) l ltac:(lia) limit_ok).
  nia.
Qed.

Lemma shown_within :
  (p <= ceilDiv (Z.of_nat (length own)) l)%Z -> shown <> [].
Proof.
  intros H E.
  pose proof (ceilDiv_bounds (Z.of_nat (length own)) l ltac:(lia) limit_ok).
  assert (Hlen : length shown = 0) by now rewrite E.
  unfold shown in Hlen. rewrite length_firstn, length_skipn in Hlen.
  unfold newestFirst in Hlen. rewrite length_rev in Hlen. nia.
Qed.

End MyReports.

(** X17: for a page and a limit of at least 1 (absent, unparsable and 0
    count as page 1 and limit 10), the listing of the caller's content
    reports is answered 200; it shows only stored reports of the caller, at
    most limit of them; total is the number of the caller's reports and
    pages the least number of pages of that limit that hold them; a page
    up to pages is not empty and every page after it is. *)
Theorem X17_my_reports_page :
  forall (db : Db) (who : Id) (qpage qlimit : option Z),
    let p := orDefault qpage 1 in
    let l := orDefault qlimit 10 in
    (1 <= p)%Z -> (1 <= l)%Z ->
    exists ls,
      get_my_reports db who qpage qlimit = (mkResponse 200 "", Some ls)
      /\ page ls = p
      /\ Forall (fun r => ContentReport.reporter r = who
                          /\ In r (ContentReports db)) (listed ls)
      /\ (Z.of_nat (length (listed ls)) <= l)%Z
      /\ total ls = Z.of_nat (length (mine who (ContentReports db)))
      /\ ((pages ls - 1) * l < total ls <= pages ls * l)%Z
      /\ ((p <= pages ls)%Z -> listed ls <> [])
      /\ ((pages ls < p)%Z -> listed ls = []).
Proof.
  intros db who qpage qlimit p l Hp Hl.
  eexists. split; [now apply get_my_reports_ok|].
  cbn. repeat split.
  - eapply Forall_impl; [|now apply shown_own].
    intros r Hr. unfold mine in Hr. apply filter_In in Hr.
    destruct Hr as [Hin E]. apply String.eqb_eq in E. now split.
  - now apply shown_length.
  - apply ceilDiv_bounds; [lia|exact Hl].
  - apply ceilDiv_bounds; [lia|exact Hl].
  - now apply shown_within.
  - now apply shown_beyond.
Qed.

(** Alice asks for her reports with no query: page 1 of 10. *)
Lemma X17_witness :
  exists ls,
    get_my_reports dismissed_db Sample.alice None None
    = (mkResponse 200 "", Some ls)
    /\ page ls = 1%Z
    /\ total ls = 1%Z
    /\ pages ls = 1%Z
    /\ length (listed ls) = 1.
Proof.
  destruct (X17_my_reports_page dismissed_db Sample.alice None None)
    as (ls & E & Hp & _ & _ & Ht & _); [cbn; lia|cbn; lia|].
  exists ls. split; [exact E|].
  vm_compute in E. injection E as <-. repeat split.
Defined.

(** X18: every content report of the caller is on one page: the report
    at place i of the caller's reports, newest first and counted from 0, is
    at place i mod limit of page i / limit + 1, and that page is not after
    the last one. *)
Theorem X18_every_report_is_on_its_page :
  forall (db : Db) (who : Id) (limit : Z) (i : nat) (r : ContentReport.t),
    (1 <= limit)%Z ->
    nth_error (newestFirst (mine who (ContentReports db))) i = Some r ->
    let p := (Z.of_nat (i / Z.to_nat limit) + 1)%Z in
    exists ls,
      get_my_reports db who (Some p) (Some limit)
      = (mkResponse 200 "", Some ls)
      /\ nth_error (listed ls) (i mod Z.to_nat limit) = Some r
      /\ (p <= pages ls)%Z.
Proof.
  intros db who limit i r Hl Hi p.
  assert (Hp : (1 <= p)%Z) by (subst p; lia).
  assert (Ep : orDefault (Some p) 1 = p).
  { cbn. destruct (Z.eqb_spec p 0); [lia|reflexivity]. }
  assert (El : orDefault (Some limit) 10 = limit).
  { cbn. destruct (Z.eqb_spec limit 0); [lia|reflexivity]. }
  pose proof (get_my_reports_ok db who (Some p) (Some limit)) as E.
  rewrite Ep, El in E. specialize (E Hp Hl).
  eexists. split; [exact E|]. cbn.
  set (L := Z.to_nat limit) in *.
  assert (HL : L <> 0) by (subst L; lia).
  assert (Hskip : Z.to_nat ((p - 1) * limit) = L * (i / L)).
  { subst p L. replace (Z.of_nat (i / Z.to_nat limit) + 1 - 1)%Z
      with (Z.of_nat (i / Z.to_nat limit)) by lia.
    rewrite Z2Nat.inj_mul by lia. rewrite Nat2Z.id. lia. }
  split.
  - rewrite nth_error_firstn.
    pose proof (Nat.mod_upper_bound i L HL) as Hm.
    apply Nat.ltb_lt in Hm. rewrite Hm.
    rewrite nth_error_skipn, Hskip, <- Nat.div_mod_eq. exact Hi.
  - assert (Hlt : i < length (mine who (ContentReports db))).
    { rewrite <- (length_rev (mine who (ContentReports db))).
      apply nth_error_Some. unfold newestFirst in Hi. now rewrite Hi. }
    pose proof (ceilDiv_bounds
                  (Z.of_nat (length (mine who (ContentReports db)))) limit
                  ltac:(lia) Hl) as Hb.
    pose proof (Nat.div_mod_eq i L) as Hd.
    assert (Hz : (Z.of_nat L = limit)%Z) by (subst L; lia).
    subst p. nia.
Qed.

Lemma X18_witness :
  exists ls,
    get_my_reports dismissed_db Sample.alice (Some 1%Z) (Some 5%Z)
    = (mkResponse 200 "", Some ls)
    /\ nth_error (listed ls) 0 = Some (Sample.aliceOnPost1 "dismissed").
Proof.
  destruct (X18_every_report_is_on_its_page dismissed_db Sample.alice 5 0
              (Sample.aliceOnPost1 "dismissed"))
    as (ls & E & Hn & _); [lia|reflexivity|].
  exists ls. split; [exact E|exact Hn].
Defined.

(** ** The statistics of the user reports *)

Lemma sumCounts_bump k acc : sumCounts (bump k acc) = S (sumCounts acc).
Proof.
  unfold sumCounts.
  induction acc as [|[k' n] rest IH]; cbn; [reflexivity|].
  destruct (String.eqb k' k); cbn; [reflexivity|]. rewrite IH. lia.
Qed.

Lemma countOf_bump k k' acc :
  countOf k (bump k' acc)
  = countOf k acc + (if String.eqb k' k then 1 else 0).
Proof.
  unfold countOf.
  induction acc as [|[k0 n] rest IH]; cbn.
  - destruct (String.eqb k' k); reflexivity.
  - destruct (String.eqb k0 k') eqn:E0; cbn.
    + apply String.eqb_eq in E0. subst k0.
      destruct (String.eqb k' k); cbn; lia.
    + destruct (String.eqb k0 k) eqn:E1; cbn.
      * apply String.eqb_eq in E1. subst k0.
        rewrite String.eqb_sym, E0. lia.
      * exact IH.
Qed.

Lemma keys_bump k acc :
  NoDup (map fst acc) ->
  NoDup (map fst (bump k acc))
  /\ forall x, In x (map fst (bump k acc)) -> x = k \/ In x (map fst acc).
Proof.
  induction acc as [|[k' n] rest IH]; cbn; intros Hnd.
  - split; [constructor; [intros []|constructor]|]. intros x [<-|[]]. now left.
  - inversion Hnd as [|? ? Hnot Hrest]. subst.
    destruct (String.eqb k' k) eqn:E; cbn.
    + split; [exact Hnd|]. intros x Hx. now right.
    + destruct (IH Hrest) as [IH1 IH2]. split.
      * constructor; [|exact IH1]. intros Hin.
        destruct (IH2 _ Hin) as [->|Hin']; [|now apply Hnot].
        now rewrite String.eqb_refl in E.
      * intros x [<-|Hx]; [right; now left|].
        destruct (IH2 _ Hx) as [->|Hin']; [now left|right; now right].
Qed.

Lemma positive_bump k acc :
  Forall (fun g => 1 <= snd g) acc -> Forall (fun g => 1 <= snd g) (bump k acc).
Proof.
  induction 1 as [|[k' n] rest Hg Hrest IH]; cbn.
  - constructor; [cbn; lia|constructor].
  - destruct (String.eqb k' k); constructor; cbn in *; try lia; assumption.
Qed.

Section Groups.

Variable key : Report.t -> string.

Lemma groupCount_from acc coll :
  NoDup (map fst acc) ->
  Forall (fun g => 1 <= snd g) acc ->
  sumCounts (fold_left (fun a r => bump (key r) a) coll acc)
  = sumCounts acc + length coll
  /\ (forall k,
         countOf k (fold_left (fun a r => bump (key r) a) coll acc)
         = countOf k acc + countWhere (fun r => String.eqb (key r) k) coll)
  /\ NoDup (map fst (fold_left (fun a r => bump (key r) a) coll acc))
  /\ Forall (fun g => 1 <= snd g)
            (fold_left (fun a r => bump (key r) a) coll acc).
Proof.
  revert acc.
  induction coll as [|r rest IH]; intros acc Hnd Hpos; cbn [fold_left length].
  - split; [now rewrite Nat.add_0_r|]. split; [|split; assumption].
    intros k. unfold countWhere. cbn [filter length]. now rewrite Nat.add_0_r.
  - destruct (IH (bump (key r) acc) (proj1 (keys_bump _ _ Hnd))
                 (positive_bump _ _ Hpos)) as (H1 & H2 & H3 & H4).
    split; [|split; [|split; assumption]].
    + rewrite H1, sumCounts_bump. lia.
    + intros k. rewrite H2, countOf_bump. unfold countWhere. cbn.
      destruct (String.eqb (key r) k); cbn; lia.
Qed.

Lemma groupCount_facts coll :
  sumCounts (groupCount key coll) = length coll
  /\ (forall k, countOf k (groupCount key coll)
                = countWhere (fun r => String.eqb (key r) k) coll)
  /\ NoDup (map fst (groupCount key coll))
  /\ Forall (fun g => 1 <= snd g) (groupCount key coll).
Proof.
  destruct (groupCount_from [] coll) as (H1 & H2 & H3 & H4);
    [constructor|constructor|].
  unfold groupCount. split; [exact H1|]. split; [|split; assumption].
  intros k. now rewrite H2.
Qed.

End Groups.

Lemma countWhere_le (p q : Report.t -> bool) coll :
  (forall r, p r = true -> q r = true) ->
  countWhere p coll <= countWhere q coll.
Proof.
  intros H. unfold countWhere.
  induction coll as [|r rest IH]; cbn; [lia|].
  destruct (p r) eqn:E.
  - rewrite (H r E). cbn. lia.
  - destruct (q r); cbn; lia.
Qed.

Lemma countWhere_split (p p1 p2 : Report.t -> bool) coll :
  (forall r, p r = p1 r || p2 r) ->
  (forall r, p1 r && p2 r = false) ->
  countWhere p coll = countWhere p1 coll + countWhere p2 coll.
Proof.
  intros H Hd. unfold countWhere.
  induction coll as [|r rest IH]; cbn [filter length]; [reflexivity|].
  rewrite (H r). specialize (Hd r).
  destruct (p1 r), (p2 r); cbn [orb length] in *; try discriminate; lia.
Qed.

Lemma countWhere_high_or_urgent coll :
  countWhere (fun r => Validator.isIn ["high"; "urgent"] (Report.priority r))
             coll
  = countWhere (fun r => String.eqb (Report.priority r) "high") coll
    + countWhere (fun r => String.eqb (Report.priority r) "urgent") coll.
Proof.
  apply countWhere_split.
  - intros r. unfold Validator.isIn. cbn. now rewrite Bool.orb_false_r.
  - intros r. destruct (String.eqb (Report.priority r) "high") eqn:E;
      [|reflexivity].
    apply String.eqb_eq in E. now rewrite E.
Qed.

(** X19: the statistics are given to a stored admin or moderator only; any
    other caller gets none. In them every report is counted once in each
    grouping: the counts by status, by type and by priority each add up to
    the total, no key is listed twice and no group is empty; pending is the
    count of the status "pending", and highPriority is at most the counts
    of the priorities "high" and "urgent" together. *)
Theorem X19_statistics_add_up :
  forall (db : Db) (rq : Request),
    (ReportRouter.isModerator db rq <> Some true ->
     snd (get_stats db rq) = None /\ code (fst (get_stats db rq)) <> 200%Z)
    /\ (ReportRouter.isModerator db rq = Some true ->
        exists st,
          get_stats db rq = (mkResponse 200 "", Some st)
          /\ st_total st = length (Reports db)
          /\ sumCounts (byStatus st) = st_total st
          /\ sumCounts (byType st) = st_total st
          /\ sumCounts (byPriority st) = st_total st
          /\ NoDup (map fst (byStatus st))
          /\ NoDup (map fst (byType st))
          /\ NoDup (map fst (byPriority st))
          /\ Forall (fun g => 1 <= snd g) (byStatus st)
          /\ Forall (fun g => 1 <= snd g) (byType st)
          /\ Forall (fun g => 1 <= snd g) (byPriority st)
          /\ st_pending st = countOf "pending" (byStatus st)
          /\ st_highPriority st
             <= countOf "high" (byPriority st)
                + countOf "urgent" (byPriority st)).
Proof.
  intros db rq. unfold get_stats. split.
  - destruct (ReportRouter.isModerator db rq) as [[|]|]; intros H;
      try (now elim H); split; try reflexivity; discriminate.
  - intros ->. eexists. split; [reflexivity|]. cbn.
    destruct (groupCount_facts Report.status (Reports db))
      as (S1 & S2 & S3 & S4).
    destruct (groupCount_facts Report.reportType (Reports db))
      as (T1 & _ & T3 & T4).
    destruct (groupCount_facts Report.priority (Reports db))
      as (P1 & P2 & P3 & P4).
    repeat split; try assumption.
    + now rewrite S2.
    + rewrite !P2, <- countWhere_high_or_urgent.
      apply countWhere_le. unfold isOpenHigh. intros r H.
      apply Bool.andb_true_iff in H. tauto.
Qed.

Lemma X19_witness :
  exists st,
    get_stats resolved_db reject_request = (mkResponse 200 "", Some st)
    /\ st_total st = 1
    /\ byStatus st = [("resolved", 1)]
    /\ st_pending st = 0.
Proof.
  destruct (proj2 (X19_statistics_add_up resolved_db reject_request))
    as (st & E & _); [vm_compute; reflexivity|].
  exists st. split; [exact E|].
  vm_compute in E. injection E as <-. repeat split.
Defined.

(** ** Sending a notification from the admin panel *)

Section NotifyFacts.

Variable hasSubscription : User.t -> bool.
Variable isPremium : User.t -> bool.
Variable createdAt : User.t -> Z.
Variable parseDate : string -> option Z.
Variable notificationsValid : list Notification -> bool.

Variable users : list User.t.
Variable box : Outbox.
Variable who : Id.
Variable clock : Z.
Variable id : Id.
Variable b : NotifyBody.

Let send :=
  post_notifications_send hasSubscription isPremium createdAt parseDate
    notificationsValid users box who clock id b.
Let targets := notifyTargets hasSubscription isPremium createdAt b clock users.
Let notes := map (notifyOne id clock b) targets.

(** What an answer 200 says about the run. *)
Lemma send_ok :
  code (fst send) = 200%Z ->
  exists at_,
    scheduled parseDate b = Some at_
    /\ AdminNotification.validate
         (notifyRecord id who clock b at_ (length targets)) = true
    /\ snd send
       = mkOutbox
           (AdminNotifications box
            ++ [AdminNotification.set_deliveredCount (length notes)
                  (notifyRecord id who clock b at_ (length targets))])%list
           (Notifications box ++ notes)%list.
Proof.
  unfold send, post_notifications_send. fold targets.
  destruct (negb _ || negb _); [discriminate|].
  destruct (scheduled parseDate b) as [at_|]; [|discriminate].
  destruct (AdminNotification.validate _) eqn:Hv; [|discriminate].
  cbn [negb]. subst notes.
  destruct (map (notifyOne id clock b) targets) as [|n rest].
  - intros _. exists at_. split; [reflexivity|]. split; [exact Hv|].
    cbn. now rewrite app_nil_r.
  - destruct (notificationsValid (n :: rest)); [|discriminate].
    intros _. exists at_. split; [reflexivity|]. split; [exact Hv|].
    reflexivity.
Qed.

(** A call that is not answered 200 notifies no user. *)
Lemma send_refused :
  code (fst send) <> 200%Z -> Notifications (snd send) = Notifications box.
Proof.
  unfold send, post_notifications_send. fold targets.
  destruct (negb _ || negb _); [reflexivity|].
  destruct (scheduled parseDate b); [|reflexivity].
  destruct (negb _); [reflexivity|].
  destruct (map _ targets) as [|n rest]; [intros H; now elim H|].
  destruct (notificationsValid (n :: rest)); [intros H; now elim H|reflexivity].
Qed.

Lemma targets_stored : incl targets users.
Proof.
  unfold targets, notifyTargets, AdminNotification.getTargetUsers.
  destruct (nb_targetAudience b) as [a|]; [|apply incl_refl].
  destruct (String.eqb a "all"); [apply incl_refl|].
  destruct (String.eqb a "premium"); [apply incl_filter|].
  destruct (String.eqb a "new"); [apply incl_filter|].
  destruct (String.eqb a "specific"); [apply incl_nil_l|apply incl_refl].
Qed.

End NotifyFacts.

(** X20: a notification that is sent (answer 200) appends one record and
    one unread notification for each user of the audience, in their order:
    the record counts as many recipients as delivered, the number of those
    users, and the recipients are stored users. A call that is not answered
    200 notifies no one, and a body without title or message is answered
    400 with nothing stored. *)
Theorem X20_one_notification_per_target :
  forall (hasSubscription isPremium : User.t -> bool) (createdAt : User.t -> Z)
         (parseDate : string -> option Z)
         (notificationsValid : list Notification -> bool)
         (users : list User.t) (box : Outbox) (who : Id) (clock : Z) (id : Id)
         (b : NotifyBody),
    let send :=
      post_notifications_send hasSubscription isPremium createdAt parseDate
        notificationsValid users box who clock id b in
    let targets :=
      notifyTargets hasSubscription isPremium createdAt b clock users in
    (code (fst send) = 200%Z ->
     exists record added,
       AdminNotifications (snd send) = (AdminNotifications box ++ [record])%list
       /\ Notifications (snd send) = (Notifications box ++ added)%list
       /\ AdminNotification.totalRecipients record = length targets
       /\ AdminNotification.deliveredCount record = length targets
       /\ map recipient added = map User._id targets
       /\ Forall (fun n => isRead n = false /\ adminNotificationId n = id)
                 added
       /\ incl targets users)
    /\ (code (fst send) <> 200%Z ->
        Notifications (snd send) = Notifications box)
    /\ (Js.truthy (nb_title b) = false \/ Js.truthy (nb_message b) = false ->
        send = (mkResponse 400 "Title and message are required", box)).
Proof.
  intros hasSubscription isPremium createdAt parseDate notificationsValid
         users box who clock id b send targets.
  split; [|split].
  - intros H.
    destruct (send_ok hasSubscription isPremium createdAt parseDate
                notificationsValid users box who clock id b H)
      as (at_ & _ & _ & E).
    subst send. rewrite E. fold targets.
    eexists. eexists. split; [reflexivity|]. split; [reflexivity|].
    cbn. rewrite length_map. split; [reflexivity|]. split; [reflexivity|].
    split; [|split].
    + rewrite map_map. reflexivity.
    + apply Forall_forall. intros n Hn. apply in_map_iff in Hn.
      destruct Hn as (u & <- & _). now split.
    + apply targets_stored.
  - apply send_refused.
  - intros H. subst send. unfold post_notifications_send.
    destruct H as [-> | ->]; [reflexivity|].
    now rewrite Bool.orb_true_r.
Qed.

Lemma X20_witness :
  exists record added,
    snd (post_notifications_send noSubscription bobIsPremium joinedAtZero
           dayOne acceptAll Sample.users emptyOutbox Sample.admin 5000
           "65d000000000000000000001" (notifyBody (Some "premium") None))
    = mkOutbox [record] added
    /\ AdminNotification.totalRecipients record = 1
    /\ AdminNotification.deliveredCount record = 1
    /\ map recipient added = [Sample.bob].
Proof.
  destruct (proj1 (X20_one_notification_per_target noSubscription bobIsPremium
                     joinedAtZero dayOne acceptAll Sample.users emptyOutbox
                     Sample.admin 5000 "65d000000000000000000001"
                     (notifyBody (Some "premium") None)))
    as (record & added & Ha & Hn & Ht & Hd & Hr & _);
    [vm_compute; reflexivity|].
  exists record, added. repeat split.
  - destruct (snd (post_notifications_send _ _ _ _ _ _ _ _ _ _ _)) as [an ns].
    cbn in Ha, Hn. now subst.
  - exact Ht.
  - exact Hd.
  - exact Hr.
Defined.

Section Audiences.

Variable hasSubscription : User.t -> bool.
Variable isPremium : User.t -> bool.
Variable createdAt : User.t -> Z.
Variable parseDate : string -> option Z.
Variable notificationsValid : list Notification -> bool.

Variable users : list User.t.
Variable box : Outbox.
Variable who : Id.
Variable clock : Z.
Variable id : Id.
Variable b : NotifyBody.

Let send :=
  post_notifications_send hasSubscription isPremium createdAt parseDate
    notificationsValid users box who clock id b.
Let targets := notifyTargets hasSubscription isPremium createdAt b clock users.

Lemma no_target_no_note :
  targets = [] -> Notifications (snd send) = Notifications box.
Proof.
  intros E. unfold send, post_notifications_send. fold targets. rewrite E.
  destruct (negb _ || negb _); [reflexivity|].
  destruct (scheduled parseDate b); [|reflexivity].
  destruct (negb _); reflexivity.
Qed.

Lemma unknown_audience a :
  nb_targetAudience b = Some a -> a <> "" ->
  ~ In a AdminNotification.audiences ->
  code (fst send) <> 200%Z /\ snd send = box.
Proof.
  intros Ea Hne Hnot. unfold send, post_notifications_send.
  destruct (negb _ || negb _); [split; [discriminate|reflexivity]|].
  destruct (scheduled parseDate b) as [at_|];
    [|split; [discriminate|reflexivity]].
  assert (Hv : AdminNotification.validate
                 (notifyRecord id who clock b at_
                    (length (notifyTargets hasSubscription isPremium createdAt
                               b clock users))) = false).
  { assert (Hin : Validator.isIn AdminNotification.audiences a = false).
    { destruct (Validator.isIn AdminNotification.audiences a) eqn:E;
        [|reflexivity].
      elim Hnot. now apply isIn_In. }
    unfold AdminNotification.validate.
    change (AdminNotification.targetAudience (notifyRecord _ _ _ b _ _))
      with (Js.or_else (nb_targetAudience b) "all").
    rewrite Ea. unfold Js.or_else.
    apply String.eqb_neq in Hne. rewrite Hne, Hin.
    now rewrite Bool.andb_false_r. }
  rewrite Hv. split; [discriminate|reflexivity].
Qed.

End Audiences.

(** X21: the audiences of a notification. With no audience, the empty
    text or "all", every stored user is a target; "premium" targets
    the users with a subscription or the premium mark; "specific" targets
    no one, whatever group the body names, so no notification is created;
    and a text that is none of the four audiences is refused: the answer is
    not 200 and nothing is stored. *)
Theorem X21_audiences_of_a_notification :
  forall (hasSubscription isPremium : User.t -> bool) (createdAt : User.t -> Z)
         (parseDate : string -> option Z)
         (notificationsValid : list Notification -> bool)
         (users : list User.t) (box : Outbox) (who : Id) (clock : Z) (id : Id)
         (b : NotifyBody),
    let send :=
      post_notifications_send hasSubscription isPremium createdAt parseDate
        notificationsValid users box who clock id b in
    let targets :=
      notifyTargets hasSubscription isPremium createdAt b clock users in
    (nb_targetAudience b = None \/ nb_targetAudience b = Some ""
     \/ nb_targetAudience b = Some "all" -> targets = users)
    /\ (nb_targetAudience b = Some "premium" ->
        forall u, In u targets
                  <-> In u users
                      /\ (hasSubscription u = true \/ isPremium u = true))
    /\ (nb_targetAudience b = Some "specific" ->
        targets = [] /\ Notifications (snd send) = Notifications box)
    /\ (forall a, nb_targetAudience b = Some a -> a <> "" ->
                  ~ In a AdminNotification.audiences ->
                  code (fst send) <> 200%Z /\ snd send = box).
Proof.
  intros hasSubscription isPremium createdAt parseDate notificationsValid
         users box who clock id b send targets.
  split; [|split; [|split]].
  - subst targets. unfold notifyTargets, AdminNotification.getTargetUsers.
    intros [-> | [-> | ->]]; reflexivity.
  - subst targets. unfold notifyTargets, AdminNotification.getTargetUsers.
    intros -> u. cbn. rewrite filter_In, Bool.orb_true_iff. tauto.
  - intros Ea.
    assert (E : targets = []).
    { subst targets. unfold notifyTargets, AdminNotification.getTargetUsers.
      now rewrite Ea. }
    split; [exact E|]. now apply no_target_no_note.
  - intros a. apply unknown_audience.
Qed.

Lemma X21_witness :
  snd (post_notifications_send noSubscription bobIsPremium joinedAtZero dayOne
         acceptAll Sample.users emptyOutbox Sample.admin 5000
         "65d000000000000000000001" (notifyBody (Some "moderators") None))
  = emptyOutbox.
Proof.
  refine (proj2 (proj2 (proj2 (proj2
            (X21_audiences_of_a_notification noSubscription bobIsPremium
               joinedAtZero dayOne acceptAll Sample.users emptyOutbox
               Sample.admin 5000 "65d000000000000000000001"
               (notifyBody (Some "moderators") None))))
            "moderators" _ _ _)).
  - reflexivity.
  - discriminate.
  - cbn. intros H. repeat (destruct H as [H|H]; [discriminate H|]). exact H.
Defined.

Section Scheduled.

Variable hasSubscription : User.t -> bool.
Variable isPremium : User.t -> bool.
Variable createdAt : User.t -> Z.
Variable parseDate : string -> option Z.
Variable notificationsValid : list Notification -> bool.

Variable users : list User.t.
Variable box : Outbox.
Variable who : Id.
Variable clock : Z.
Variable id : Id.
Variable b : NotifyBody.
Variable date : string.
Variable at_ : Z.

Hypothesis has_date : nb_scheduledFor b = Some date.
Hypothesis date_given : date <> "".
Hypothesis date_parsed : parseDate date = Some at_.

Let send (body : NotifyBody) :=
  post_notifications_send hasSubscription isPremium createdAt parseDate
    notificationsValid users box who clock id body.
Let targets := notifyTargets hasSubscription isPremium createdAt b clock users.

Lemma scheduled_date : scheduled parseDate b = Some (Some at_).
Proof.
  unfold scheduled. rewrite has_date. cbn.
  apply String.eqb_neq in date_given. rewrite date_given. cbn.
  now rewrite date_parsed.
Qed.

Lemma scheduled_valid n :
  AdminNotification.validate (notifyRecord id who clock b (Some at_) n)
  = AdminNotification.validate
      (notifyRecord id who clock (unscheduled b) None n).
Proof.
  unfold AdminNotification.validate, notifyRecord. cbn.
  rewrite has_date. cbn.
  apply String.eqb_neq in date_given. rewrite date_given. cbn.
  now rewrite !Bool.andb_true_r.
Qed.

(** With and without the date, the route answers alike and notifies the
    same users in the same way. *)
Lemma scheduled_like_sent :
  fst (send b) = fst (send (unscheduled b))
  /\ Notifications (snd (send b)) = Notifications (snd (send (unscheduled b))).
Proof.
  unfold send, post_notifications_send.
  change (nb_title (unscheduled b)) with (nb_title b).
  change (nb_message (unscheduled b)) with (nb_message b).
  destruct (negb _ || negb _); [now split|].
  rewrite scheduled_date.
  change (scheduled parseDate (unscheduled b)) with (Some (@None Z)).
  change (notifyTargets hasSubscription isPremium createdAt (unscheduled b)
            clock users) with targets.
  fold targets. rewrite scheduled_valid.
  destruct (negb _); [now split|].
  change (map (notifyOne id clock (unscheduled b)) targets)
    with (map (notifyOne id clock b) targets).
  destruct (map (notifyOne id clock b) targets) as [|n rest]; [now split|].
  destruct (notificationsValid (n :: rest)); now split.
Qed.

Lemma scheduled_record :
  code (fst (send b)) = 200%Z ->
  exists record,
    AdminNotifications (snd (send b)) = (AdminNotifications box ++ [record])%list
    /\ AdminNotification.status record = "scheduled"
    /\ AdminNotification.scheduledFor record = Some at_
    /\ AdminNotification.deliveredCount record = length targets.
Proof.
  intros H.
  destruct (send_ok hasSubscription isPremium createdAt parseDate
              notificationsValid users box who clock id b H)
    as (d & Hd & _ & E).
  rewrite scheduled_date in Hd. injection Hd as <-.
  unfold send. rewrite E. eexists. split; [reflexivity|]. cbn.
  rewrite has_date. cbn.
  apply String.eqb_neq in date_given. rewrite date_given. cbn.
  rewrite length_map. repeat split.
Qed.

End Scheduled.

(** X22: a notification with a date to be sent at is delivered at once.
    The route answers as it does for the same body without the date and
    creates the same notifications for the same users; when it answers 200
    the record is stored with status "scheduled" and that date, and counts
    every target as delivered. *)
Theorem X22_scheduled_is_delivered_at_once :
  forall (hasSubscription isPremium : User.t -> bool) (createdAt : User.t -> Z)
         (parseDate : string -> option Z)
         (notificationsValid : list Notification -> bool)
         (users : list User.t) (box : Outbox) (who : Id) (clock : Z) (id : Id)
         (b : NotifyBody) (date : string) (at_ : Z),
    nb_scheduledFor b = Some date ->
    date <> "" ->
    parseDate date = Some at_ ->
    let send body :=
      post_notifications_send hasSubscription isPremium createdAt parseDate
        notificationsValid users box who clock id body in
    fst (send b) = fst (send (unscheduled b))
    /\ Notifications (snd (send b)) = Notifications (snd (send (unscheduled b)))
    /\ (code (fst (send b)) = 200%Z ->
        exists record,
          AdminNotifications (snd (send b))
          = (AdminNotifications box ++ [record])%list
          /\ AdminNotification.status record = "scheduled"
          /\ AdminNotification.scheduledFor record = Some at_
          /\ AdminNotification.deliveredCount record
             = length (notifyTargets hasSubscription isPremium createdAt b
                         clock users)).
Proof.
  intros hasSubscription isPremium createdAt parseDate notificationsValid
         users box who clock id b date at_ H1 H2 H3 send.
  destruct (scheduled_like_sent hasSubscription isPremium createdAt parseDate
              notificationsValid users box who clock id b date at_ H1 H2 H3)
    as [E1 E2].
  split; [exact E1|]. split; [exact E2|].
  now apply scheduled_record with date.
Qed.

Lemma X22_witness :
  Notifications
    (snd (post_notifications_send noSubscription bobIsPremium joinedAtZero
            dayOne acceptAll Sample.users emptyOutbox Sample.admin 5000
            "65d000000000000000000001"
            (notifyBody (Some "all") (Some "2030-01-01"))))
  = Notifications
      (snd (post_notifications_send noSubscription bobIsPremium joinedAtZero
              dayOne acceptAll Sample.users emptyOutbox Sample.admin 5000
              "65d000000000000000000001"
              (unscheduled (notifyBody (Some "all") (Some "2030-01-01")))))
  /\ length
       (Notifications
          (snd (post_notifications_send noSubscription bobIsPremium
                  joinedAtZero dayOne acceptAll Sample.users emptyOutbox
                  Sample.admin 5000 "65d000000000000000000001"
                  (notifyBody (Some "all") (Some "2030-01-01"))))) = 3.
Proof.
  split; [|vm_compute; reflexivity].
  refine (proj1 (proj2 (X22_scheduled_is_delivered_at_once noSubscription
                          bobIsPremium joinedAtZero dayOne acceptAll
                          Sample.users emptyOutbox Sample.admin 5000
                          "65d000000000000000000001"
                          (notifyBody (Some "all") (Some "2030-01-01"))
                          "2030-01-01" 86400000 _ _ _))).
  - reflexivity.
  - discriminate.
  - reflexivity.
Defined.

(** ** The debug route that creates a test report *)

(** X23: the debug route answers 400 and stores nothing unless at least
    two users are stored. With two or more, and a schema that accepts the
    document, it appends a "spam" report of severity 3 by the first stored
    user against the second, without any duplicate check, so also when
    such a report is stored already; afterwards the first user's own report
    of the second (named by its [_id] as printed) through the universal
    route is refused as a duplicate. *)
Theorem X23_test_report :
  forall (M : Report.Model) (db : Db) (rq : Request),
    let run := AdminRouter.post_create_test_report M db rq in
    (length (Users db) < 2 ->
     run = respond 400 "Need at least 2 users in database" db)
    /\ (forall first second rest,
           Users db = first :: second :: rest ->
           Report.validate M
             (Report.new M (new_id rq) (AdminRouter.testFields first second))
           = true ->
           exists r,
             code (fst run) = 200%Z
             /\ Reports (snd run) = (Reports db ++ [r])%list
             /\ Users (snd run) = Users db
             /\ Report.reporter r = User._id first
             /\ Report.reportedUser r = User._id second
             /\ Report.reportType r = "spam"
             /\ Report.severity r = JNum 3
             /\ forall rq',
                 user_id rq' = User._id first ->
                 reportedUserId (body rq') = Some (User._id second) ->
                 ObjectId.cast (User._id second) = Some (User._id second) ->
                 Js.truthy (reportType (body rq')) = true ->
                 Js.truthy (reason (body rq')) = true ->
                 User._id second <> User._id first ->
                 ReportRouter.handleUserReport M (snd run) rq'
                 = respond 400 "You have already reported this user" (snd run)).
Proof.
  intros M db rq run. subst run.
  unfold AdminRouter.post_create_test_report. split.
  - destruct (Users db) as [|x [|y rest]]; cbn; intros H; try reflexivity. lia.
  - intros first second rest Eu Hv. rewrite Eu. cbn [firstn].
    unfold Report.insert. rewrite Hv.
    eexists. split; [reflexivity|]. split; [reflexivity|].
    split; [exact Eu|]. cbn. repeat split.
    intros rq' Hwho Htarget Hc Ht Hr Hdiff.
    pose proof (proj2 (spells_cast _ _) Hc) as Hs.
    apply handleUserReport_duplicate
      with (r := Report.new M (new_id rq) (AdminRouter.testFields first second)).
    + apply in_or_app. right. now left.
    + cbn. now rewrite Hwho.
    + cbn. now rewrite Htarget.
    + rewrite Htarget. cbn.
      pose proof (valid_nonempty _ (cast_valid _ _ Hc)) as Hne.
      apply String.eqb_neq in Hne. now rewrite Hne.
    + exact Ht.
    + exact Hr.
    + rewrite Htarget, Hwho. exact Hdiff.
    + rewrite Htarget. cbn. rewrite Eu. unfold User.findById. cbn.
      destruct (ObjectId.spells (User._id second) (User._id first)).
      * now exists first.
      * rewrite Hs. now exists second.
Qed.

Lemma X23_witness :
  exists r,
    Reports (snd (AdminRouter.post_create_test_report SpecModel.model ban_db
                    (Sample.request Sample.admin 5000 Sample.report1 ""
                       (Sample.moderateBody ""))))
    = (Reports ban_db ++ [r])%list
    /\ Report.reporter r = Sample.alice
    /\ Report.reportedUser r = Sample.bob.
Proof.
  destruct (proj2 (X23_test_report SpecModel.model ban_db
                     (Sample.request Sample.admin 5000 Sample.report1 ""
                        (Sample.moderateBody "")))
              (Sample.user Sample.alice "alice" "user")
              (Sample.user Sample.bob "bob" "user")
              [Sample.user Sample.admin "root" "admin"] eq_refl eq_refl)
    as (r & _ & Hs & _ & Hr & Ht & _).
  exists r. repeat split; assumption.
Defined.

(** ** The seeding script *)

(** X24: the seeding script exits with 1 and deletes nothing when fewer
    than two users are stored; with two, three or four users it deletes
    every stored report and then fails before it creates any, leaving the
    collection empty; when it exits with 0, at least five users are
    stored, the collection holds four reports if there are exactly five
    users and five otherwise, and the report at place i is by the user at
    place i against the user at place i + 1. *)
Theorem X24_seeding :
  forall (accepts : list Seed.Report -> bool) (allUsers : list User.t)
         (stored : list Seed.Report),
    let run := Seed.seedReports accepts allUsers stored in
    (length allUsers < 2 -> run = (1%Z, stored))
    /\ (2 <= length allUsers < 5 -> run = (1%Z, []))
    /\ (fst run = 0%Z ->
        5 <= length allUsers
        /\ length (snd run) = (if Nat.eqb (length allUsers) 5 then 4 else 5)
        /\ forall i r,
            nth_error (snd run) i = Some r ->
            exists u v,
              nth_error allUsers i = Some u
              /\ nth_error allUsers (i + 1) = Some v
              /\ Seed.reporterId r = User._id u
              /\ Seed.reportedUserId r = User._id v).
Proof.
  intros accepts allUsers stored run. subst run. unfold Seed.seedReports.
  split; [|split].
  - destruct allUsers as [|u0 [|u1 rest]]; cbn; intros H; try reflexivity. lia.
  - destruct allUsers as [|u0 [|u1 [|u2 [|u3 [|u4 rest]]]]]; cbn; intros H;
      try reflexivity; lia.
  - destruct allUsers as [|u0 [|u1 [|u2 [|u3 [|u4 rest]]]]];
      try (cbn; discriminate).
    destruct rest as [|u5 rest].
    + cbn. destruct (accepts _); [|discriminate].
      intros _. split; [lia|]. split; [reflexivity|].
      intros i r Hi.
      destruct i as [|[|[|[|i]]]]; cbn in Hi; try (injection Hi as <-);
        try (eexists; eexists; repeat split; reflexivity).
      destruct i; discriminate.
    + cbn. destruct (accepts _); [|discriminate].
      intros _. split; [lia|]. split; [reflexivity|].
      intros i r Hi.
      destruct i as [|[|[|[|[|i]]]]]; cbn in Hi; try (injection Hi as <-);
        try (eexists; eexists; repeat split; reflexivity).
      destruct i; discriminate.
Qed.

(** Three users and two stored reports: both are deleted, none created. *)
Lemma X24_witness :
  Seed.seedReports (fun _ => true) Sample.users
    (Seed.sampleReports (Sample.user Sample.alice "alice" "user")
       (Sample.user Sample.bob "bob" "user")
       (Sample.user Sample.admin "root" "admin")
       (Sample.user Sample.alice "alice" "user")
       (Sample.user Sample.bob "bob" "user"))
  = (1%Z, []).
Proof.
  apply (proj1 (proj2 (X24_seeding (fun _ => true) Sample.users _))).
  cbn. lia.
Defined.
